(** * ESTR4999: the LTSF runner and its training driver

    A shallow embedding of [core/ltsf_runner.py] (class [LTSFRunner]) and of
    [train.py] (configuration fusion, [train_func], the batch generator of
    configuration files), followed by the properties proved about them.

    Conventions of the embedding.
    - A Python call either returns or raises: [result A] is [Ok a] or
      [Raise e], threaded with stdpp's monad notation [x ← m; k].
    - Python's [float] and [int] scalars are exact rationals and integers
      ([Qc], [Z]): the arithmetic below is the source's, operation for
      operation, without the rounding of IEEE doubles.
    - A [dict] (and the [hparams] namespace Lightning builds from the
      keyword arguments of [LTSFRunner]) is a [gmap string pyval]; the
      order of its keys plays no part in what is proved. *)

From Stdlib Require Import QArith Qcanon Ascii.
From stdpp Require Import gmap strings list fin_maps numbers pretty.

Local Open Scope string_scope.
Local Open Scope list_scope.
Local Open Scope Qc_scope.

(** ** Part I. The embedding *)

(** *** Python values, exceptions and results *)

Module Py.

Inductive exn : Type :=
  | ValueError (msg : string)
  | AttributeError (name : string)
  | KeyError (key : string)
  | ModuleNotFoundError (name : string)
  | FileNotFoundError (path : string)
  | AssertionError
  | TypeError
  | ZeroDivisionError
  | IndexError.

Inductive result (A : Type) : Type :=
  | Ok (a : A)
  | Raise (e : exn).
Global Arguments Ok {A} a.
Global Arguments Raise {A} e.

#[global] Instance result_ret : MRet result := λ A a, Ok a.
#[global] Instance result_bind : MBind result := λ A B f m,
  match m with Ok a => f a | Raise e => Raise e end.
#[global] Instance result_fmap : FMap result := λ A B f m,
  match m with Ok a => Ok (f a) | Raise e => Raise e end.

Definition raises {A} (m : result A) : Prop := ∃ e, m = Raise e.

(** [for x in l: st = f st x], the body being allowed to raise. *)
Fixpoint for_each {A S} (f : S → A → result S) (st : S) (l : list A) : result S :=
  match l with
  | [] => Ok st
  | x :: l' => st' ← f st x; for_each f st' l'
  end.

(** [l[i]] for [0 <= i]. *)
Definition index {A} (l : list A) (i : nat) : result A :=
  match l !! i with Some x => Ok x | None => Raise IndexError end.

(** [x / y] on two floats (true division). *)
Definition truediv (x y : Qc) : result Qc :=
  if decide (y = 0) then Raise ZeroDivisionError else Ok (x / y).

(** A [float64] as numpy returns it: a number, or [nan]. *)
Inductive float64 : Type :=
  | F64 (q : Qc)
  | NaN.

(** [np.mean] of a one-dimensional sequence: the sum over the length, and
    [nan] (with a warning) for the empty sequence. *)
Definition np_mean (l : list Qc) : float64 :=
  match l with
  | [] => NaN
  | _ => F64 (foldl Qcplus 0 l / Qc_of_Z (Z.of_nat (length l)))
  end.

(** The values a configuration holds: [None], booleans, integers, floats,
    strings and lists of integers (the milestones of a scheduler). *)
Inductive pyval : Type :=
  | VNone
  | VBool (b : bool)
  | VInt (z : Z)
  | VFloat (q : Qc)
  | VStr (s : string)
  | VIntList (l : list Z).

Abbreviation dict := (gmap string pyval).

(** [bool] is a subclass of [int]. *)
Definition as_int (v : pyval) : option Z :=
  match v with
  | VBool b => Some (if b then 1 else 0)%Z
  | VInt z => Some z
  | _ => None
  end.

Definition as_number (v : pyval) : option Qc :=
  match v with
  | VBool b => Some (if b then 1 else 0)
  | VInt z => Some (Qc_of_Z z)
  | VFloat q => Some q
  | _ => None
  end.

Fixpoint list_ltb (l k : list Z) : bool :=
  match l, k with
  | _, [] => false
  | [], _ :: _ => true
  | x :: l', y :: k' => if decide (x = y) then list_ltb l' k' else bool_decide (x < y)%Z
  end.

(** [a < b]: numbers by value, strings and lists lexicographically,
    [TypeError] for any other pair. *)
Definition lt (a b : pyval) : result bool :=
  match as_number a, as_number b with
  | Some x, Some y => Ok (bool_decide (x < y))
  | _, _ =>
    match a, b with
    | VStr s, VStr t => Ok (String.ltb s t)
    | VIntList l, VIntList k => Ok (list_ltb l k)
    | _, _ => Raise TypeError
    end
  end.

(** [a <= b]. *)
Definition le (a b : pyval) : result bool :=
  match as_number a, as_number b with
  | Some x, Some y => Ok (bool_decide (x ≤ y))
  | _, _ =>
    match a, b with
    | VStr s, VStr t => Ok (String.leb s t)
    | VIntList l, VIntList k => Ok (negb (list_ltb k l))
    | _, _ => Raise TypeError
    end
  end.

(** [a + b] and [a - b]: integers stay integers, a float makes a float;
    [+] also concatenates two strings or two lists. *)
Definition add (a b : pyval) : result pyval :=
  match as_int a, as_int b with
  | Some x, Some y => Ok (VInt (x + y))
  | _, _ =>
    match as_number a, as_number b with
    | Some x, Some y => Ok (VFloat (x + y))
    | _, _ =>
      match a, b with
      | VStr s, VStr t => Ok (VStr (s +:+ t))
      | VIntList l, VIntList k => Ok (VIntList (l ++ k))
      | _, _ => Raise TypeError
      end
    end
  end.

Definition sub (a b : pyval) : result pyval :=
  match as_int a, as_int b with
  | Some x, Some y => Ok (VInt (x - y))
  | _, _ =>
    match as_number a, as_number b with
    | Some x, Some y => Ok (VFloat (x - y))
    | _, _ => Raise TypeError
    end
  end.

(** [a / b]: always a float, [ZeroDivisionError] for a zero divisor. *)
Definition div (a b : pyval) : result pyval :=
  match as_number a, as_number b with
  | Some x, Some y => VFloat <$> truediv x y
  | _, _ => Raise TypeError
  end.

(** [v == 'literal']. *)
Definition eq_str (v : pyval) (s : string) : bool :=
  match v with VStr t => bool_decide (t = s) | _ => false end.

(** Truth value of [v] in a condition. *)
Definition truthy (v : pyval) : bool :=
  match v with
  | VNone => false
  | VBool b => b
  | VInt z => bool_decide (z ≠ 0%Z)
  | VFloat q => bool_decide (q ≠ 0)
  | VStr s => bool_decide (s ≠ "")
  | VIntList l => bool_decide (l ≠ [])
  end.

(** [ns.name] on a namespace ([self.hparams.name]) and [d[key]] on a dict. *)
Definition getattr {V} (ns : gmap string V) (name : string) : result V :=
  match ns !! name with Some v => Ok v | None => Raise (AttributeError name) end.

Definition getitem {V} (d : gmap string V) (key : string) : result V :=
  match d !! key with Some v => Ok v | None => Raise (KeyError key) end.

(** [{**a, **b}] and [d.update(e)]: the later mapping wins on a shared key. *)
Definition unpack_both (a b : dict) : dict := b ∪ a.
Definition update (d e : dict) : dict := e ∪ d.

(** [posixpath.join] of [a] and the further components [ps]. *)
Definition ends_with_sep (s : string) : bool :=
  match String.rev s with String "/"%char _ => true | _ => false end.

Definition join2 (path b : string) : string :=
  if String.prefix "/" b then b
  else if bool_decide (path = "") || ends_with_sep path then path +:+ b
  else path +:+ "/" +:+ b.

Definition os_path_join (a : string) (ps : list string) : string := foldl join2 a ps.

(** [str.format] on a template, positional and keyword arguments, for
    replacement fields that are
    empty (automatic numbering) or a keyword, with the [{{] and [}}]
    escapes; the sources use no other kind of field. [field] is [None]
    while literal text is read and holds the field name read so far inside
    braces. *)
Fixpoint format_from (args : list string) (kwargs : list (string * string))
    (next : nat) (field : option string) (s : string) : result string :=
  match s, field with
  | "", None => Ok ""
  | "", Some _ => Raise (ValueError "expected '}' before end of string")
  | String c s', None =>
    if Ascii.eqb c "{"%char then
      match s' with
      | String "{"%char s'' => String "{"%char <$> format_from args kwargs next None s''
      | _ => format_from args kwargs next (Some "") s'
      end
    else if Ascii.eqb c "}"%char then
      match s' with
      | String "}"%char s'' => String "}"%char <$> format_from args kwargs next None s''
      | _ => Raise (ValueError "Single '}' encountered in format string")
      end
    else String c <$> format_from args kwargs next None s'
  | String c s', Some name =>
    if Ascii.eqb c "}"%char then
      if bool_decide (name = "") then
        value ← index args next;
        rest ← format_from args kwargs (S next) None s';
        Ok (value +:+ rest)
      else
        value ← match list_to_map (M := gmap string string) kwargs !! name with
                | Some v => Ok v
                | None => Raise (KeyError name)
                end;
        rest ← format_from args kwargs next None s';
        Ok (value +:+ rest)
    else format_from args kwargs next (Some (name +:+ String c "")) s'
  end.

Definition format (template : string) (args : list string)
    (kwargs : list (string * string)) : result string :=
  format_from args kwargs 0 None template.

Section str.
(** [repr] of a float, the shortest decimal that reads back as the same
    double: it is a matter of the binary representation, which the
    embedding leaves out, so it is taken as given. *)
Variable float_repr : Qc → string.

Fixpoint join_ints (l : list Z) : string :=
  match l with
  | [] => ""
  | [x] => pretty x
  | x :: l' => pretty x +:+ ", " +:+ join_ints l'
  end.

(** [str(v)], which is what an empty replacement field formats [v] to. *)
Definition str (v : pyval) : string :=
  match v with
  | VNone => "None"
  | VBool b => if b then "True" else "False"
  | VInt z => pretty z
  | VFloat q => float_repr q
  | VStr s => s
  | VIntList l => "[" +:+ join_ints l +:+ "]"
  end.
End str.

#[global] Instance float64_eq_dec : EqDecision float64.
Proof. solve_decision. Defined.
#[global] Instance exn_eq_dec : EqDecision exn.
Proof. solve_decision. Defined.
#[global] Instance result_eq_dec {A} `{EqDecision A} : EqDecision (result A).
Proof. solve_decision. Defined.
#[global] Instance pyval_eq_dec : EqDecision pyval.
Proof. solve_decision. Defined.

End Py.
Import Py.
(** *** [LTSFRunner.evaluate_trading_strategy] *)

Record evaluation_metrics : Type := {
  average_daily_return : float64;
  cumulative_return : Qc;
  loss_days : nat;
  total_profits : Qc;
}.

(** The four locals the loop of [evaluate_trading_strategy] updates. *)
Record strategy_locals : Type := {
  daily_returns : list Qc;
  cumulative : Qc;
  total : Qc;
  losses : nat;
}.

Definition strategy_init : strategy_locals :=
  {| daily_returns := []; cumulative := 1; total := 0; losses := 0 |}.

(** One iteration of [for i in range(len(predictions_tomorrow))]. *)
Definition strategy_step (predictions_tomorrow true_prices_tomorrow true_prices_today : list Qc)
    (st : strategy_locals) (i : nat) : result strategy_locals :=
  predicted_price ← index predictions_tomorrow i;
  true_price_tomorrow ← index true_prices_tomorrow i;
  true_price_today ← index true_prices_today i;
  let profit :=
    if decide (true_price_today < predicted_price) then true_price_tomorrow - true_price_today
    else if decide (predicted_price < true_price_today) then true_price_today - true_price_tomorrow
    else 0 in
  daily_return ← truediv profit true_price_today;
  Ok {| daily_returns := daily_returns st ++ [daily_return];
        losses := if decide (daily_return < 0) then S (losses st) else losses st;
        cumulative := cumulative st * (1 + daily_return);
        total := total st + profit |}.

(** The function itself: the loop over [range(len(predictions_tomorrow))]
    and the dict of the four metrics. The line it prints (the number of
    test days) is console output and is left out. *)
Definition evaluate_trading_strategy
    (predictions_tomorrow true_prices_tomorrow true_prices_today : list Qc)
    : result evaluation_metrics :=
  st ← for_each (strategy_step predictions_tomorrow true_prices_tomorrow true_prices_today)
         strategy_init (seq 0 (length predictions_tomorrow));
  Ok {| average_daily_return := np_mean (daily_returns st);
        cumulative_return := cumulative st - 1;
        loss_days := losses st;
        total_profits := total st |}.

(** The quantities of the specification, day by day. A day is the triple
    (predicted, tomorrow, today). *)
Module TradingSpec.

Abbreviation day := (Qc * (Qc * Qc))%type.

Definition days (predicted tomorrow today : list Qc) : list day :=
  zip predicted (zip tomorrow today).

Definition profit (d : day) : Qc :=
  let '(predicted, (tomorrow, today)) := d in
  if decide (today < predicted) then tomorrow - today
  else if decide (predicted < today) then today - tomorrow
  else 0.

Definition daily_return (d : day) : Qc := profit d / d.2.2.

Definition sum (l : list Qc) : Qc := foldr Qcplus 0 l.
Definition product (l : list Qc) : Qc := foldr Qcmult 1 l.
Definition mean (l : list Qc) : Qc := sum l / Qc_of_Z (Z.of_nat (length l)).
Definition count_negative (l : list Qc) : nat := length (filter (λ r, r < 0) l).

End TradingSpec.


#[global] Instance evaluation_metrics_eq_dec : EqDecision evaluation_metrics.
Proof. solve_decision. Defined.

(** *** [LTSFRunner.configure_optimizers] *)

(** The optimizers and schedulers of [torch.optim], as the values their
    constructors are called with. *)
Inductive optimizer : Type :=
  | Adam (lr weight_decay : pyval)
  | AdamW (lr : pyval) (betas : Qc * Qc) (weight_decay : Qc)
  | LBFGS (lr max_iter : pyval).

Inductive scheduler : Type :=
  | StepLR (opt : optimizer) (step_size gamma : pyval)
  | MultiStepLR (opt : optimizer) (milestones gamma : pyval)
  | ReduceLROnPlateau (opt : optimizer) (mode : string) (factor patience : pyval)
  | LambdaLR (opt : optimizer) (lr_lambda : Z → result pyval).

(** The [lr_scheduler] dict of the returned configuration: its scheduler
    and, in the plateau branch only, the monitored metric. *)
Record lr_scheduler_conf : Type := {
  sched : scheduler;
  monitor : option pyval;
}.

Record optimizers_conf : Type := {
  optimizer_of : optimizer;
  lr_scheduler_of : lr_scheduler_conf;
}.

(** [a < b < c] and [a <= b < c] and [a <= b <= c], with [c] evaluated
    only once the first comparison holds. *)
Definition chain (cmp1 cmp2 : pyval → pyval → result bool)
    (a b : pyval) (c : result pyval) : result bool :=
  first ← cmp1 a b;
  if first : bool then c' ← c; cmp2 b c' else Ok false.

(** The closure [wsd_lr_lambda] of the ["WSD"] branch; a Python function
    that falls off its end returns [None]. *)
Definition wsd_lr_lambda (hparams : dict) (epoch : Z) : result pyval :=
  warmup ← getattr hparams "lr_warmup_end_epochs";
  in_warmup ← lt (VInt epoch) warmup;
  if in_warmup : bool then
    num ← add (VInt epoch) (VInt 1);
    den ← getattr hparams "lr_warmup_end_epochs";
    div num den
  else
    warmup ← getattr hparams "lr_warmup_end_epochs";
    in_stable ← chain le lt warmup (VInt epoch) (getattr hparams "lr_stable_end_epochs");
    if in_stable : bool then Ok (VFloat 1)
    else
      stable ← getattr hparams "lr_stable_end_epochs";
      in_last ← chain le le stable (VInt epoch) (getattr hparams "max_epochs");
      if in_last : bool then
        e1 ← add (VInt epoch) (VInt 1);
        stable ← getattr hparams "lr_stable_end_epochs";
        num ← sub e1 stable;
        max_epochs ← getattr hparams "max_epochs";
        stable ← getattr hparams "lr_stable_end_epochs";
        den ← sub max_epochs stable;
        div num den
      else Ok VNone.

(** The first [if] chain: the optimizer. *)
Definition select_optimizer (hparams : dict) : result optimizer :=
  name ← getattr hparams "optimizer";
  if eq_str name "Adam" then
    lr ← getattr hparams "lr";
    weight_decay ← getattr hparams "optimizer_weight_decay";
    Ok (Adam lr weight_decay)
  else if eq_str name "AdamW" then
    lr ← getattr hparams "lr";
    Ok (AdamW lr (Qc_of_Z 9 / Qc_of_Z 10, Qc_of_Z 95 / Qc_of_Z 100) (1 / Qc_of_Z 100000))
  else if eq_str name "LBFGS" then
    lr ← getattr hparams "lr";
    max_iter ← getattr hparams "lr_max_iter";
    Ok (LBFGS lr max_iter)
  else Raise (ValueError "Invalid optimizer type!").

(** The second [if] chain: the scheduler, around the optimizer just built. *)
Definition select_lr_scheduler (hparams : dict) (opt : optimizer) : result lr_scheduler_conf :=
  name ← getattr hparams "lr_scheduler";
  if eq_str name "StepLR" then
    step_size ← getattr hparams "lr_step_size";
    gamma ← getattr hparams "lr_gamma";
    Ok {| sched := StepLR opt step_size gamma; monitor := None |}
  else if eq_str name "MultiStepLR" then
    milestones ← getattr hparams "milestones";
    gamma ← getattr hparams "gamma";
    Ok {| sched := MultiStepLR opt milestones gamma; monitor := None |}
  else if eq_str name "ReduceLROnPlateau" then
    factor ← getattr hparams "lrs_factor";
    patience ← getattr hparams "lrs_patience";
    val_metric ← getattr hparams "val_metric";
    Ok {| sched := ReduceLROnPlateau opt "min" factor patience; monitor := Some val_metric |}
  else if eq_str name "WSD" then
    warmup ← getattr hparams "lr_warmup_end_epochs";
    stable ← getattr hparams "lr_stable_end_epochs";
    ordered ← chain lt lt warmup stable (getattr hparams "max_epochs");
    if ordered : bool then
      Ok {| sched := LambdaLR opt (wsd_lr_lambda hparams); monitor := None |}
    else Raise AssertionError
  else Raise (ValueError "Invalid lr_scheduler type!").

Definition configure_optimizers (hparams : dict) : result optimizers_conf :=
  opt ← select_optimizer hparams;
  lr_scheduler ← select_lr_scheduler hparams opt;
  Ok {| optimizer_of := opt; lr_scheduler_of := lr_scheduler |}.

(** The hyperparameter [key] read as a number. *)
Definition number_at (hparams : dict) (key : string) : option Qc :=
  hparams !! key ≫= as_number.

(** The ordering the ["WSD"] branch asserts, by Python's own [<] on
    whatever values the three keys hold. *)
Definition wsd_ordered (hparams : dict) : Prop :=
  ∃ warmup stable max_epochs,
    hparams !! "lr_warmup_end_epochs" = Some warmup ∧
    hparams !! "lr_stable_end_epochs" = Some stable ∧
    hparams !! "max_epochs" = Some max_epochs ∧
    lt warmup stable = Ok true ∧ lt stable max_epochs = Ok true.

Definition optimizer_names : list string := ["Adam"; "AdamW"; "LBFGS"].
Definition lr_scheduler_names : list string :=
  ["StepLR"; "MultiStepLR"; "ReduceLROnPlateau"; "WSD"].

#[global] Instance optimizer_eq_dec : EqDecision optimizer.
Proof. solve_decision. Defined.

(** *** [LTSFRunner.load_model] and [LTSFRunner.instancialize] *)

Section load_model.
(** What a model object is, and how a model class builds one from keyword
    arguments, belongs to [core.model]; a class is known here by the
    parameter names of its [__init__] after [self] and by its constructor. *)
Context {model : Type}.

Record model_class : Type := {
  init_args : list string;
  construct : dict → result model;
}.

(** A module of the package [core.model]: its attributes that are classes. *)
Abbreviation model_module := (gmap string model_class).

(** [importlib.import_module(name, package=...)]. *)
Variable import_module : string → string → result model_module.

(** [getattr(self.hparams, arg)] is taken at the key [arg]. For a key that
    names an attribute of the dict object itself ([keys], [values], ...)
    Python yields that attribute instead; what is proved about the
    arguments handed over leaves such parameters out. *)
Definition instancialize (hparams : dict) (Model : model_class) : result model :=
  let model_class_args := init_args Model in
  let model_args_instance :=
    foldl (λ (acc : dict) arg,
             match hparams !! arg with
             | Some v => <[arg := v]> acc
             | None => acc
             end) ∅ model_class_args in
  construct Model model_args_instance.

Definition load_model (hparams : dict) : result model :=
  model_name ← getattr hparams "model_name";
  relative ← add (VStr ".") model_name;
  match relative, model_name with
  | VStr relative, VStr model_name =>
    module ← import_module relative "core.model";
    Model ← getattr module model_name;
    instancialize hparams Model
  | _, _ => Raise TypeError
  end.

End load_model.
Global Arguments model_class : clear implicits.

(** An importer over a given set of modules: a relative name resolves when
    the package holds a module of that name. *)
Definition import_from {model} (modules : gmap string (gmap string (model_class model)))
    (name package : string) : result (gmap string (model_class model)) :=
  match name with
  | String "."%char short =>
    match modules !! short with
    | Some m => Ok m
    | None => Raise (ModuleNotFoundError (package +:+ name))
    end
  | _ => Raise (ModuleNotFoundError name)
  end.

(** *** The test-phase accumulators of [LTSFRunner] *)

(** What the runner sends out: metrics given to [self.log] and the call of
    [util.plot_confidence_vs_loss]. That function is not part of the
    sources at hand; its call is recorded with the five lists it is given,
    which it is taken to read only (it draws a plot). *)
Inductive event : Type :=
  | Log (name : string) (value : float64)
  | PlotConfidenceVsLoss (confidences custom_losses predictions_tomorrow
                          true_prices_tomorrow true_prices_today : list Qc).

(** The instance attributes [test_step] creates. An attribute that has not
    been assigned yet is [None]: [hasattr] is false and reading it raises
    [AttributeError]. [__init__] assigns none of the five. *)
Record runner : Type := {
  predictions_tomorrow : option (list Qc);
  true_prices_tomorrow : option (list Qc);
  true_prices_today : option (list Qc);
  confidences : option (list Qc);
  custom_losses : option (list Qc);
  events : list event;
}.

Definition fresh_runner : runner :=
  {| predictions_tomorrow := None; true_prices_tomorrow := None;
     true_prices_today := None; confidences := None; custom_losses := None;
     events := [] |}.

Definition log (name : string) (value : float64) (r : runner) : runner :=
  {| predictions_tomorrow := predictions_tomorrow r;
     true_prices_tomorrow := true_prices_tomorrow r;
     true_prices_today := true_prices_today r;
     confidences := confidences r;
     custom_losses := custom_losses r;
     events := events r ++ [Log name value] |}.

(** What the forward pass, the loss and torch's metrics yield on one test
    batch, after [.item()]: lines 141 to 154 of [test_step]. *)
Record test_outputs : Type := {
  mae : float64;
  mse : float64;
  mean_error_percentage : float64;
  predicted_price_tomorrow : Qc;
  true_price_tomorrow : Qc;
  true_price_today : Qc;
  confidence_score : Qc;
  custom_loss : Qc;
}.

(** [self.name.append(x)]. *)
Definition append_to (name : string) (attr : option (list Qc)) (x : Qc) : result (list Qc) :=
  match attr with
  | Some l => Ok (l ++ [x])
  | None => Raise (AttributeError name)
  end.

Definition test_step (r : runner) (o : test_outputs) : result runner :=
  let r := log "test/mae" (mae o) r in
  let r := log "test/mse" (mse o) r in
  let r := log "test/custom_loss" (F64 (custom_loss o)) r in
  let r := log "test/error_percentage" (mean_error_percentage o) r in
  let r :=
    match predictions_tomorrow r with
    | Some _ => r
    | None =>
      {| predictions_tomorrow := Some []; true_prices_tomorrow := Some [];
         true_prices_today := Some []; confidences := Some []; custom_losses := Some [];
         events := events r |}
    end in
  p ← append_to "predictions_tomorrow" (predictions_tomorrow r) (predicted_price_tomorrow o);
  t ← append_to "true_prices_tomorrow" (true_prices_tomorrow r) (true_price_tomorrow o);
  d ← append_to "true_prices_today" (true_prices_today r) (true_price_today o);
  c ← append_to "confidences" (confidences r) (confidence_score o);
  l ← append_to "custom_losses" (custom_losses r) (custom_loss o);
  Ok {| predictions_tomorrow := Some p; true_prices_tomorrow := Some t;
        true_prices_today := Some d; confidences := Some c; custom_losses := Some l;
        events := events r |}.

Definition nat_metric (n : nat) : float64 := F64 (Qc_of_Z (Z.of_nat n)).

Definition on_test_epoch_end (r : runner) : result runner :=
  match predictions_tomorrow r, true_prices_tomorrow r, true_prices_today r with
  | Some p, Some t, Some d =>
    evaluation_metrics ← evaluate_trading_strategy p t d;
    let r := log "test/average_daily_return" (average_daily_return evaluation_metrics) r in
    let r := log "test/cumulative_return" (F64 (cumulative_return evaluation_metrics)) r in
    let r := log "test/loss_days" (nat_metric (loss_days evaluation_metrics)) r in
    let r := log "test/total_profits" (F64 (total_profits evaluation_metrics)) r in
    c ← match confidences r with Some c => Ok c | None => Raise (AttributeError "confidences") end;
    l ← match custom_losses r with Some l => Ok l | None => Raise (AttributeError "custom_losses") end;
    Ok {| predictions_tomorrow := predictions_tomorrow r;
          true_prices_tomorrow := true_prices_tomorrow r;
          true_prices_today := true_prices_today r;
          confidences := confidences r;
          custom_losses := custom_losses r;
          events := events r ++ [PlotConfidenceVsLoss c l p t d] |}
  | _, _, _ => Ok r
  end.

(** [training_step] and [validation_step] log the loss they return. *)
Definition training_step (r : runner) (loss : float64) : runner := log "train/loss" loss r.
Definition validation_step (r : runner) (loss : float64) : runner := log "val/loss" loss r.

(** [Trainer.fit] is Lightning's. Of it, only the order in which it calls
    the hooks of the module is kept: [configure_optimizers] once, when the
    optimizers are set up, then [training_step] batch after batch (the
    losses stand for the batches). *)
Definition fit (hparams : dict) (r : runner) (losses : list float64)
    : result (optimizers_conf * runner) :=
  optimizers ← configure_optimizers hparams;
  Ok (optimizers, foldl training_step r losses).

(** The hooks the trainer calls on a runner, and a run of them in order. *)
Inductive hook : Type :=
  | TrainingStep (loss : float64)
  | ValidationStep (loss : float64)
  | TestStep (o : test_outputs)
  | OnTestEpochEnd.

Definition call (r : runner) (h : hook) : result runner :=
  match h with
  | TrainingStep loss => Ok (training_step r loss)
  | ValidationStep loss => Ok (validation_step r loss)
  | TestStep o => test_step r o
  | OnTestEpochEnd => on_test_epoch_end r
  end.

Definition run (r : runner) (hooks : list hook) : result runner := for_each call r hooks.

(** The outputs of the test steps among [hooks], in order. *)
Definition test_steps (hooks : list hook) : list test_outputs :=
  omap (λ h, match h with TestStep o => Some o | _ => None end) hooks.

(** The five attributes once the test steps [os] have run. *)
Definition column (f : test_outputs → Qc) (os : list test_outputs) : option (list Qc) :=
  match os with [] => None | _ => Some (f <$> os) end.

(** The five accumulator attributes side by side, and what they hold once
    the test steps [os] have run. *)
Definition accumulators (r : runner) : list (option (list Qc)) :=
  [predictions_tomorrow r; true_prices_tomorrow r; true_prices_today r;
   confidences r; custom_losses r].

Definition outputs_of (o : test_outputs) : list Qc :=
  [predicted_price_tomorrow o; true_price_tomorrow o; true_price_today o;
   confidence_score o; custom_loss o].

Definition columns (os : list test_outputs) : list (option (list Qc)) :=
  [column predicted_price_tomorrow os; column true_price_tomorrow os;
   column true_price_today os; column confidence_score os; column custom_loss os].

(** *** [train.py]: [load_config] and [train_func] *)

(** A configuration module: its attributes that are dicts ([exp_conf],
    [task_conf], [AAPL_conf], ...). *)
Abbreviation conf_module := (gmap string dict).

Inductive run_logger : Type :=
  | WandbLogger (save_dir name version : string)
  | CSVLogger (save_dir name version : string).

(** The keyword arguments [L.Trainer] is built with (validation is switched
    off by two literal zeros, which are not repeated here). *)
Record trainer_args : Type := {
  devices : pyval;
  precision : pyval;
  logger : run_logger;
  max_epochs : pyval;
  gradient_clip_algorithm : pyval;
  gradient_clip_val : pyval;
  default_root_dir : pyval;
}.

(** What [train_func] has done by the time it calls [L.Trainer]: the dict
    it hashed, the seed, the trainer's arguments, and the configuration
    dict as it then stands. [Ok] means that the call of [L.Trainer] is
    reached; the construction of the trainer, of the data module and of
    the runner, and the training itself, lie beyond. The dict is the
    caller's own object, updated in place: [conf_after] is also what the
    caller holds afterwards. *)
Record training_setup : Type := {
  hash_input : dict;
  seed : pyval;
  trainer : trainer_args;
  conf_after : dict;
}.

(** A path component must be a string. *)
Definition as_path (v : pyval) : result string :=
  match v with VStr s => Ok s | _ => Raise TypeError end.

(** [eval] of an attribute reference [module_name.attribute] on the module
    bound to [module_name]. *)
Definition eval_attribute (module_name : string) (text : string) (m : conf_module)
    : result dict :=
  let head := module_name +:+ "." in
  if String.prefix head text
  then getattr m (String.substring (String.length head) (String.length text - String.length head) text)
  else Raise (ValueError "not an attribute of the module").

Section config.
(** [core.util.load_module_from_path] and [core.util.cal_conf_hash] are not
    among the sources at hand, [importlib.import_module], [eval] and the
    [repr] of floats are Python's: all are taken as given. *)
Variable load_module_from_path : string → string → result conf_module.
Variable import_module : string → result conf_module.
Variable eval : string → conf_module → result dict.
Variable cal_conf_hash : dict → nat → string.
Variable float_repr : Qc → string.
(** Lightning's [seed_everything] and the constructors of its two loggers
    are not among the sources either: each is taken as a call that
    returns or raises ([seed_everything] on a seed it cannot use, a
    logger's constructor when, say, its package is not installed). *)
Variable seed_everything : pyval → result unit.
Variable init_logger : run_logger → result unit.

Definition load_config (exp_conf_path : string) : result dict :=
  exp_module ← load_module_from_path "exp_conf" exp_conf_path;
  exp_conf ← getattr exp_module "exp_conf";
  task_conf_module ← import_module "config.base_conf.task";
  task_conf ← getattr task_conf_module "task_conf";
  data_conf_module ← import_module "config.base_conf.datasets";
  dataset_name ← getitem exp_conf "dataset_name";
  text ← format "data_conf_module.{}_conf" [str float_repr dataset_name] [];
  data_conf ← eval text data_conf_module;
  let fused_conf := unpack_both task_conf data_conf in
  let fused_conf := update fused_conf exp_conf in
  Ok fused_conf.

(** [for k, v in hyper_conf.items(): conf[k] = v], skipped for [None]. *)
Definition apply_hyper_conf (hyper_conf : option dict) (conf : dict) : dict :=
  match hyper_conf with
  | Some h => map_fold (λ k v (conf : dict), <[k := v]> conf) conf h
  | None => conf
  end.

Definition train_func (hyper_conf : option dict) (conf : dict) : result training_setup :=
  let conf := apply_hyper_conf hyper_conf conf in
  let hashed := conf in
  let conf := <["conf_hash" := VStr (cal_conf_hash hashed 10)]> conf in
  seed ← getitem conf "seed";
  _ ← seed_everything seed;
  save_root ← getitem conf "save_root";
  model_name ← getitem conf "model_name";
  dataset_name ← getitem conf "dataset_name";
  sub_dir ← format "{}_{}" [str float_repr model_name; str float_repr dataset_name] [];
  save_root ← as_path save_root;
  let save_dir := os_path_join save_root [sub_dir] in
  use_wandb ← match conf !! "use_wandb" with
              | Some v => Ok (truthy v)
              | None => Ok false
              end;
  name ← getitem conf "conf_hash";
  seed' ← getitem conf "seed";
  version ← format "seed_{}" [str float_repr seed'] [];
  let run_logger :=
    if use_wandb : bool
    then WandbLogger save_dir (str float_repr name) version
    else CSVLogger save_dir (str float_repr name) version in
  _ ← init_logger run_logger;
  conf_hash ← getitem conf "conf_hash";
  conf_hash ← as_path conf_hash;
  seed' ← getitem conf "seed";
  version ← format "seed_{}" [str float_repr seed'] [];
  let conf := <["exp_dir" := VStr (os_path_join save_dir [conf_hash; version])]> conf in
  devices ← getitem conf "devices";
  let precision := default (VStr "32-true") (conf !! "precision") in
  max_epochs ← getitem conf "max_epochs";
  let gradient_clip_algorithm := default (VStr "norm") (conf !! "gradient_clip_algorithm") in
  gradient_clip_val ← getitem conf "gradient_clip_val";
  default_root_dir ← getitem conf "save_root";
  Ok {| hash_input := hashed;
        seed := seed;
        trainer := {| devices := devices; precision := precision; logger := run_logger;
                      max_epochs := max_epochs;
                      gradient_clip_algorithm := gradient_clip_algorithm;
                      gradient_clip_val := gradient_clip_val;
                      default_root_dir := default_root_dir |};
        conf_after := conf |}.

End config.

(** *** [train.py]: the batch generator of configuration files *)

Definition output_dir : string := "/config/reproduce_conf/RMoK".

(** The double quote and the line feed, which a string literal cannot hold. *)
Definition dq : string := String (ascii_of_nat 34) "".
Definition nl : string := String (ascii_of_nat 10) "".

Definition unlines (ls : list string) : string := foldr (λ l rest, l +:+ nl +:+ rest) "" ls.

Definition template_content : string := unlines [
  "exp_conf = dict(";
  "    model_name=" +:+ dq +:+ "DenseRMoK" +:+ dq +:+ ",";
  "    dataset_name='{dataset}',     # Set to {dataset} to point to your new dataset";
  "";
  "    hist_len=60,";
  "    pred_len=1,";
  "";
  "    revin_affine=False,       # Retain other configurations as in ETTh1";
  "";
  "    lr=0.001,                 # Learning rate";
  ")" ].

Definition ticker_symbols : list string := [
  "AAPL"; "MSFT"; "ORCL"; "AMD"; "CSCO"; "ADBE";
  "IBM"; "TXN"; "AMAT"; "MU"; "ADI"; "INTC";
  "LRCX"; "KLAC"; "MSI"; "GLW"; "HPQ"; "TYL";
  "PTC"; "WDC" ].

(** The part of the machine the generator touches: the directories and
    the regular files (path to content) of the file system, and the lines
    printed so far. *)
Record world : Type := {
  dirs : gset string;
  files : gmap string string;
  stdout : list string;
}.

(** [os.makedirs(path, exist_ok=True)]: afterwards the directory exists.
    Of the directories only [path] itself is followed, not the ancestors
    the call creates on its way, and the call is taken to go through
    (nothing in the way of the path, no refusal by the operating
    system). *)
Definition makedirs (path : string) (w : world) : world :=
  {| dirs := {[path]} ∪ dirs w; files := files w; stdout := stdout w |}.

(** [with open(path, 'w') as f: f.write(content)]: the file is created, or
    truncated and rewritten. *)
Definition write_file (path content : string) (w : world) : world :=
  {| dirs := dirs w; files := <[path := content]> (files w); stdout := stdout w |}.

Definition print (line : string) (w : world) : world :=
  {| dirs := dirs w; files := files w; stdout := stdout w ++ [line] |}.

(** The body of [for symbol in ticker_symbols]. *)
Definition generate_config_file (w : world) (symbol : string) : result world :=
  new_content ← format template_content [] [("dataset", symbol)];
  let new_file_name := os_path_join output_dir [symbol +:+ "_30for1.py"] in
  let w := write_file new_file_name new_content w in
  Ok (print ("Created configuration file: " +:+ new_file_name) w).

Definition generate_config_files (w : world) : result world :=
  let w := makedirs output_dir w in
  for_each generate_config_file w ticker_symbols.

Definition empty_world : world := {| dirs := ∅; files := ∅; stdout := [] |}.

(** The text the specification gives for a symbol's file, and the reading
    of such a text as a list of bare code lines (comments and surrounding
    blanks dropped, empty lines skipped). *)
Module GenSpec.

Definition file_name (symbol : string) : string :=
  "/config/reproduce_conf/RMoK/" +:+ symbol +:+ "_30for1.py".

Definition record_lines (symbol : string) : list string := [
  "exp_conf = dict(";
  "model_name=" +:+ dq +:+ "DenseRMoK" +:+ dq +:+ ",";
  "dataset_name='" +:+ symbol +:+ "',";
  "hist_len=60,";
  "pred_len=1,";
  "revin_affine=False,";
  "lr=0.001,";
  ")" ].

(** The text of the file: the template with the symbol in place of both
    occurrences of its replacement field. *)
Definition file_text (symbol : string) : string := unlines [
  "exp_conf = dict(";
  "    model_name=" +:+ dq +:+ "DenseRMoK" +:+ dq +:+ ",";
  "    dataset_name='" +:+ symbol +:+ "',     # Set to " +:+ symbol
    +:+ " to point to your new dataset";
  "";
  "    hist_len=60,";
  "    pred_len=1,";
  "";
  "    revin_affine=False,       # Retain other configurations as in ETTh1";
  "";
  "    lr=0.001,                 # Learning rate";
  ")" ].

(** The files the generator is to leave, and one step of it as a plain
    function on worlds. *)
Definition planned_files (symbols : list string) : gmap string string :=
  list_to_map (reverse ((λ symbol, (file_name symbol, file_text symbol)) <$> symbols)).

Definition planned_step (w : world) (symbol : string) : world :=
  print ("Created configuration file: " +:+ file_name symbol)
    (write_file (file_name symbol) (file_text symbol) w).

(** The world the generator is to leave when started on [w]. *)
Definition generated (w : world) : world :=
  foldl planned_step (makedirs output_dir w) ticker_symbols.

Fixpoint drop_comment (s : string) : string :=
  match s with
  | "" => ""
  | String c s' => if Ascii.eqb c "#"%char then "" else String c (drop_comment s')
  end.

Fixpoint lstrip (s : string) : string :=
  match s with
  | String c s' => if Ascii.eqb c " "%char then lstrip s' else s
  | "" => ""
  end.

Definition strip (s : string) : string := String.rev (lstrip (String.rev (lstrip s))).

(** Split at line feeds. *)
Fixpoint split_lines (cur : string) (s : string) : list string :=
  match s with
  | "" => if bool_decide (cur = "") then [] else [cur]
  | String c s' =>
    if Ascii.eqb c (ascii_of_nat 10) then cur :: split_lines "" s'
    else split_lines (cur +:+ String c "") s'
  end.

Definition code_lines (text : string) : list string :=
  filter (λ l, l ≠ "") (strip ∘ drop_comment <$> split_lines "" text).

End GenSpec.


(** *** [train.py]: the command line and the driver *)

(** The namespace [parser.parse_args()] returns. [--use_wandb] and [--seed]
    are parsed as integers, the others are strings. *)
Module Args.
Record t : Type := {
  config : option string;
  data_root : string;
  save_root : string;
  devices : string;
  use_wandb : Z;
  seed : Z;
}.

(** The namespace of an empty command line. *)
Definition defaults : t :=
  {| config := None; data_root := "dataset"; save_root := "save"; devices := "0,";
     use_wandb := 0; seed := 1 |}.
End Args.

(** The two strings and the record built in the body of
    [for symbol in ticker_symbols]. *)
Definition data_root (symbol : string) : string := "/dataset/" +:+ symbol.

Definition config_file (symbol : string) : string :=
  "/config/reproduce_conf/RMoK/" +:+ symbol +:+ "_30for1.py".

Definition training_conf (args : Args.t) (symbol : string) : dict :=
  <["use_wandb" := VInt (Args.use_wandb args)]>
    (<["devices" := VStr (Args.devices args)]>
      (<["save_root" := VStr (Args.save_root args)]>
        (<["data_root" := VStr (data_root symbol)]>
          (<["seed" := VInt (Args.seed args)]> ∅)))).

Section main.
Variable load_module_from_path : string → string → result conf_module.
Variable import_module : string → result conf_module.
Variable eval : string → conf_module → result dict.
Variable cal_conf_hash : dict → nat → string.
Variable float_repr : Qc → string.
Variable seed_everything : pyval → result unit.
Variable init_logger : run_logger → result unit.

(** The body of the loop; the state is the list of the runs set up so far. *)
Definition main_step (args : Args.t) (runs : list training_setup) (symbol : string)
    : result (list training_setup) :=
  let training_conf := training_conf args symbol in
  init_exp_conf ← load_config load_module_from_path import_module eval float_repr
                    (config_file symbol);
  r ← train_func cal_conf_hash float_repr seed_everything init_logger
         (Some training_conf) init_exp_conf;
  Ok (runs ++ [r]).

(** The script run as [__main__] with the parsed command line [args]. *)
Definition main (args : Args.t) (w : world) : result (world * list training_setup) :=
  w ← generate_config_files w;
  runs ← for_each (main_step args) [] ticker_symbols;
  Ok (w, runs).

End main.

(** *** [train.py]: [TrainLossLoggerCallback] *)

Section callback.
(** The formatting of a float with four decimals, [f"{x:.4f}"], is
    Python's and is taken as given. *)
Variable format_4f : Qc → string.

(** The callback's one attribute, filled in by its hooks, next to the
    lines printed. *)
Record TrainLossLoggerCallback : Type := {
  train_losses : list Qc;
  printed : list string;
}.

(** [__init__] *)
Definition new_callback : TrainLossLoggerCallback :=
  {| train_losses := []; printed := [] |}.

(** [trainer.callback_metrics] maps metric names to scalar tensors, of
    which [.item()] is the value; [trainer.current_epoch] counts from 0. *)
Definition on_train_epoch_end (self : TrainLossLoggerCallback)
    (callback_metrics : gmap string Qc) (current_epoch : Z) : TrainLossLoggerCallback :=
  match callback_metrics !! "train/loss" with
  | Some avg_loss =>
    {| train_losses := train_losses self ++ [avg_loss];
       printed := printed self ++
         ["Epoch " +:+ pretty (current_epoch + 1)%Z +:+ ": Average Train Loss = "
          +:+ format_4f avg_loss] |}
  | None => self
  end.

(** [enumerate(l, start)] *)
Definition enumerate {A} (l : list A) (start : nat) : list (nat * A) :=
  zip (seq start (length l)) l.

Definition on_train_end (self : TrainLossLoggerCallback) : TrainLossLoggerCallback :=
  let out := printed self ++ [nl +:+ "Training Loss per Epoch:"] in
  let out := foldl (λ out '(epoch, loss),
                      out ++ ["Epoch " +:+ pretty epoch +:+ ": " +:+ format_4f loss])
                   out (enumerate (train_losses self) 1) in
  {| train_losses := train_losses self; printed := out |}.

(** Training as the callback sees it: one [on_train_epoch_end] per epoch,
    then [on_train_end]. *)
Definition run_epochs (self : TrainLossLoggerCallback)
    (epochs : list (gmap string Qc * Z)) : TrainLossLoggerCallback :=
  foldl (λ self '(callback_metrics, current_epoch),
           on_train_epoch_end self callback_metrics current_epoch) self epochs.

(** The line printed at the end of the epoch numbered [current_epoch], and
    the line of the summary for the loss at position [i] of the list. *)
Definition epoch_line (current_epoch : Z) (loss : Qc) : string :=
  "Epoch " +:+ pretty (current_epoch + 1)%Z +:+ ": Average Train Loss = "
  +:+ format_4f loss.

Definition summary_line (i : nat) (loss : Qc) : string :=
  "Epoch " +:+ pretty (S i) +:+ ": " +:+ format_4f loss.

End callback.
(** *** Sample inputs

    Concrete configurations and runs on which the theorems of Part II are
    exercised. *)

Definition sample_hparams : dict :=
  list_to_map [("optimizer", VStr "AdamW"); ("lr", VFloat (1 / Qc_of_Z 1000));
               ("optimizer_weight_decay", VFloat (1 / Qc_of_Z 100));
               ("lr_scheduler", VStr "WSD");
               ("lr_warmup_end_epochs", VInt 1); ("lr_stable_end_epochs", VInt 2);
               ("max_epochs", VInt 10)].

(** Warmup switched off: the assertion of the ["WSD"] branch accepts it. *)
Definition no_warmup_hparams : dict :=
  <["lr_warmup_end_epochs" := VInt 0]> (<["lr_stable_end_epochs" := VInt 1]>
    (<["max_epochs" := VInt 2]> sample_hparams)).

(** Two test days with today's price 100 and tomorrow's 105: the first
    predicted up (long, +5), the second predicted down (short, -5). *)
Definition sample_predicted : list Qc := [Qc_of_Z 110; Qc_of_Z 90].
Definition sample_tomorrow : list Qc := [Qc_of_Z 105; Qc_of_Z 105].
Definition sample_today : list Qc := [Qc_of_Z 100; Qc_of_Z 100].

(** A package [core.model] with the one module [DenseRMoK]; a model is
    represented by the keyword arguments it was built with. *)
Definition DenseRMoK : model_class dict :=
  {| init_args := ["hist_len"; "pred_len"; "var_num"; "num_experts"; "drop"; "revin_affine"];
     construct := Ok |}.

Definition sample_package : gmap string (gmap string (model_class dict)) :=
  {[ "DenseRMoK" := {[ "DenseRMoK" := DenseRMoK ]} ]}.

Definition sample_exp_conf : dict :=
  list_to_map [("model_name", VStr "DenseRMoK"); ("dataset_name", VStr "AAPL");
               ("hist_len", VInt 60); ("pred_len", VInt 1);
               ("revin_affine", VBool false); ("lr", VFloat (1 / Qc_of_Z 1000))].

Definition sample_outputs (predicted tomorrow today : Z) : test_outputs :=
  {| mae := F64 (Qc_of_Z (Z.abs (predicted - tomorrow)));
     mse := F64 (Qc_of_Z ((predicted - tomorrow) * (predicted - tomorrow)));
     mean_error_percentage := NaN;
     predicted_price_tomorrow := Qc_of_Z predicted;
     true_price_tomorrow := Qc_of_Z tomorrow;
     true_price_today := Qc_of_Z today;
     confidence_score := 1 / Qc_of_Z 2;
     custom_loss := Qc_of_Z ((predicted - tomorrow) * (predicted - tomorrow)) |}.

Definition sample_hooks : list hook :=
  [TrainingStep (F64 1); TestStep (sample_outputs 110 105 100);
   TestStep (sample_outputs 90 105 100); OnTestEpochEnd].

(** A small installation: one generated experiment file, task defaults and
    the defaults of one dataset, with keys shared between the layers. The
    hash and the rendering of floats are stand-ins for the two functions
    taken as given. *)
Definition sample_task_conf : dict :=
  list_to_map [("hist_len", VInt 96); ("pred_len", VInt 96); ("lr", VFloat (1 / Qc_of_Z 100));
               ("optimizer", VStr "AdamW"); ("lr_scheduler", VStr "StepLR");
               ("max_epochs", VInt 10); ("gradient_clip_val", VInt 1)].

Definition sample_AAPL_conf : dict :=
  list_to_map [("hist_len", VInt 30); ("var_num", VInt 5); ("max_epochs", VInt 20)].

Definition sample_path : string := "/config/reproduce_conf/RMoK/AAPL_30for1.py".

Definition sample_load_module_from_path (name path : string) : result conf_module :=
  if bool_decide (path = sample_path)
  then Ok {[ "exp_conf" := sample_exp_conf ]}
  else Raise (FileNotFoundError path).

Definition sample_import_module (name : string) : result conf_module :=
  if bool_decide (name = "config.base_conf.task") then Ok {[ "task_conf" := sample_task_conf ]}
  else if bool_decide (name = "config.base_conf.datasets") then Ok {[ "AAPL_conf" := sample_AAPL_conf ]}
  else Raise (ModuleNotFoundError name).

Definition sample_cal_conf_hash (conf : dict) (hash_len : nat) : string :=
  String.substring 0 hash_len (pretty (size conf) +:+ "0123456789abcdef").

Definition sample_float_repr (q : Qc) : string :=
  pretty (Qnum q) +:+ "/" +:+ pretty (Zpos (Qden q)).

(** A [seed_everything] that takes the integers of 32 bits, and loggers
    whose constructors go through. *)
Definition sample_seed_everything (seed : pyval) : result unit :=
  match seed with
  | VInt n => if bool_decide (0 ≤ n < 2 ^ 32)%Z then Ok () else Raise (ValueError "seed out of range")
  | _ => Raise TypeError
  end.

Definition sample_init_logger (l : run_logger) : result unit := Ok ().

(** The record the command line builds and hands over as [hyper_conf]. *)
Definition sample_training_conf : dict :=
  list_to_map [("seed", VInt 1); ("data_root", VStr "/dataset/AAPL"); ("save_root", VStr "save");
               ("devices", VStr "0,"); ("use_wandb", VInt 0)].

Definition sample_fused_conf : dict := sample_exp_conf ∪ (sample_AAPL_conf ∪ sample_task_conf).

(** *** Further readings of the trading evaluation *)

Module TradingMore.
Import TradingSpec.

(** A day on which the position taken was the wrong one: long before a
    fall, or short before a rise. *)
Definition wrong_direction (d : day) : Prop :=
  (d.2.2 < d.1 ∧ d.2.1 < d.2.2) ∨ (d.1 < d.2.2 ∧ d.2.2 < d.2.1).

#[global] Instance wrong_direction_dec (d : day) : Decision (wrong_direction d).
Proof. unfold wrong_direction. apply _. Defined.

End TradingMore.


(** Whether a computation went through. *)
Definition is_Ok {A} (r : result A) : bool :=
  match r with Ok _ => true | Raise _ => false end.


(** *** Further sample inputs *)

Definition sample_plateau_hparams : dict :=
  list_to_map [("optimizer", VStr "Adam"); ("lr", VFloat (1 / Qc_of_Z 1000));
               ("optimizer_weight_decay", VFloat 0);
               ("lr_scheduler", VStr "ReduceLROnPlateau");
               ("lrs_factor", VFloat (1 / Qc_of_Z 2)); ("lrs_patience", VInt 3);
               ("val_metric", VStr "val/loss")].


(** An installation that knows every ticker symbol: the experiment file of
    each, and one record of dataset defaults for each. *)
Definition sample_symbol_exp_conf (symbol : string) : dict :=
  list_to_map [("model_name", VStr "DenseRMoK"); ("dataset_name", VStr symbol);
               ("hist_len", VInt 60); ("pred_len", VInt 1); ("revin_affine", VBool false)].

Definition sample_symbol_task_conf : dict :=
  list_to_map [("hist_len", VInt 96); ("max_epochs", VInt 10); ("gradient_clip_val", VInt 1)].

Definition sample_symbol_loader (name path : string) : result conf_module :=
  match filter (λ symbol, config_file symbol = path) ticker_symbols with
  | symbol :: _ => Ok {[ "exp_conf" := sample_symbol_exp_conf symbol ]}
  | [] => Raise (FileNotFoundError path)
  end.

Definition sample_symbol_import_module (name : string) : result conf_module :=
  if bool_decide (name = "config.base_conf.task")
  then Ok {[ "task_conf" := sample_symbol_task_conf ]}
  else if bool_decide (name = "config.base_conf.datasets")
  then Ok (list_to_map ((λ symbol, (symbol +:+ "_conf", {[ "var_num" := VInt 5 ]}))
                          <$> ticker_symbols))
  else Raise (ModuleNotFoundError name).

Definition sample_args : Args.t :=
  {| Args.config := Some "ignored.py"; Args.data_root := "elsewhere";
     Args.save_root := "save"; Args.devices := "0,"; Args.use_wandb := 0; Args.seed := 7 |}.

(** Two epochs of a training, the second logging a learning rate too. *)
Definition sample_epochs : list (gmap string Qc * Z) :=
  [ ({[ "train/loss" := 1 / Qc_of_Z 2 ]}, 0%Z);
    (<["lr-AdamW" := 1 / Qc_of_Z 1000]> {[ "train/loss" := 1 / Qc_of_Z 4 ]}, 1%Z) ].
(** ** Part II. Properties *)

(** *** Generic facts about the runtime model *)

Lemma for_each_app {A S} (f : S → A → result S) (st : S) (l1 l2 : list A) :
  for_each f st (l1 ++ l2) = st' ← for_each f st l1; for_each f st' l2.
Proof.
  revert st. induction l1 as [|x l1 IH]; intros st; simpl; [done|].
  destruct (f st x) as [st'|e]; simpl; [apply IH | done].
Qed.

Lemma index_lookup {A} (l : list A) (i : nat) (x : A) :
  l !! i = Some x → index l i = Ok x.
Proof. unfold index. by intros ->. Qed.

Lemma bind_Ok {A B} (m : result A) (f : A → result B) (b : B) :
  m ≫= f = Ok b → ∃ a, m = Ok a ∧ f a = Ok b.
Proof. destruct m as [a|e]; simpl; [eauto | discriminate]. Qed.

Lemma bind_Ok_l {A B} (a : A) (f : A → result B) : Ok a ≫= f = f a.
Proof. done. Qed.

Lemma getitem_lookup {V} (d : gmap string V) (key : string) (v : V) :
  d !! key = Some v → getitem d key = Ok v.
Proof. unfold getitem. by intros ->. Qed.

Lemma getattr_lookup {V} (ns : gmap string V) (name : string) (v : V) :
  ns !! name = Some v → getattr ns name = Ok v.
Proof. unfold getattr. by intros ->. Qed.

Lemma getattr_None {V} (ns : gmap string V) (name : string) :
  ns !! name = None → getattr ns name = Raise (AttributeError name).
Proof. unfold getattr. by intros ->. Qed.

Lemma getattr_Ok {V} (ns : gmap string V) (name : string) (v : V) :
  getattr ns name = Ok v → ns !! name = Some v.
Proof. unfold getattr. destruct (ns !! name); naive_solver. Qed.

Lemma getitem_Ok {V} (d : gmap string V) (key : string) (v : V) :
  getitem d key = Ok v → d !! key = Some v.
Proof. unfold getitem. destruct (d !! key); naive_solver. Qed.

Lemma raises_bind {A B} (m : result A) (f : A → result B) :
  raises m → raises (m ≫= f).
Proof. intros [e ->]. by exists e. Qed.

Lemma raises_Raise {A} (e : exn) : raises (@Raise A e).
Proof. by exists e. Qed.

Lemma raises_not_Ok {A} (m : result A) (a : A) : raises m → m ≠ Ok a.
Proof. intros [e ->]. discriminate. Qed.

(** Decides a closed, decidable statement by evaluating its decision
    procedure. *)
Ltac by_evaluation := apply (bool_decide_unpack _); vm_compute; exact I.

(** Closes a goal [raises m] once [m] computes to a raised exception. *)
Ltac raised := simpl; apply raises_Raise.

(** Splits a hypothesis [x ← m; k = Ok r] into [m = Ok x] and [k = Ok r]. *)
Ltac bind_inv H :=
  let x := fresh "x" in
  let Hx := fresh "Hx" in
  apply bind_Ok in H as (x & Hx & H).

(** *** The trading-strategy evaluation *)

Section trading.
Import TradingSpec.

Lemma sum_snoc (l : list Qc) (x : Qc) : sum (l ++ [x]) = sum l + x.
Proof.
  unfold sum. induction l as [|y l IH]; simpl; [ring|]. rewrite IH. ring.
Qed.

Lemma product_snoc (l : list Qc) (x : Qc) : product (l ++ [x]) = product l * x.
Proof.
  unfold product. induction l as [|y l IH]; simpl; [ring|]. rewrite IH. ring.
Qed.

Lemma count_negative_snoc (l : list Qc) (x : Qc) :
  count_negative (l ++ [x]) =
  if decide (x < 0) then S (count_negative l) else count_negative l.
Proof.
  unfold count_negative. rewrite list.filter_app, length_app.
  rewrite list.filter_cons, list.filter_nil.
  destruct (decide (x < 0)); simpl; lia.
Qed.

Lemma foldl_plus_sum (l : list Qc) : foldl Qcplus 0 l = sum l.
Proof.
  induction l as [|x l IH] using rev_ind; [done|].
  by rewrite foldl_app, sum_snoc, IH.
Qed.

(** The locals of the loop once the days [ds] have been processed. *)
Definition locals_after (ds : list day) : strategy_locals :=
  {| daily_returns := daily_return <$> ds;
     cumulative := product ((λ r, 1 + r) <$> (daily_return <$> ds));
     total := sum (profit <$> ds);
     losses := count_negative (daily_return <$> ds) |}.

Lemma days_lookup (predicted tomorrow today : list Qc) i pr tm td :
  predicted !! i = Some pr → tomorrow !! i = Some tm → today !! i = Some td →
  days predicted tomorrow today !! i = Some (pr, (tm, td)).
Proof.
  intros Hp Ht Hd. unfold days.
  rewrite !lookup_zip_with, Hp, Ht, Hd. done.
Qed.

Lemma strategy_step_after (predicted tomorrow today : list Qc) ds i pr tm td :
  predicted !! i = Some pr → tomorrow !! i = Some tm → today !! i = Some td →
  td ≠ 0 →
  strategy_step predicted tomorrow today (locals_after ds) i
  = Ok (locals_after (ds ++ [(pr, (tm, td))])).
Proof.
  intros Hp Ht Hd Hnz. unfold strategy_step.
  rewrite (index_lookup _ _ _ Hp), (index_lookup _ _ _ Ht), (index_lookup _ _ _ Hd).
  simpl. unfold truediv. destruct (decide (td = 0)) as [|_]; [done|]. simpl.
  unfold locals_after. rewrite !fmap_app. simpl.
  rewrite sum_snoc, product_snoc, count_negative_snoc. done.
Qed.

Lemma strategy_loop_prefix (predicted tomorrow today : list Qc) (n : nat) :
  length tomorrow = length predicted →
  length today = length predicted →
  Forall (λ x, x ≠ 0) today →
  (n ≤ length predicted)%nat →
  for_each (strategy_step predicted tomorrow today) strategy_init (seq 0 n)
  = Ok (locals_after (take n (days predicted tomorrow today))).
Proof.
  intros Hlt Hld Hnz. induction n as [|n IH]; intros Hn.
  - done.
  - rewrite seq_S, for_each_app, IH by lia. simpl.
    destruct (lookup_lt_is_Some_2 predicted n) as [pr Hp]; [lia|].
    destruct (lookup_lt_is_Some_2 tomorrow n) as [tm Ht]; [lia|].
    destruct (lookup_lt_is_Some_2 today n) as [td Hd]; [lia|].
    assert (td ≠ 0) as Htd.
    { eapply (proj1 (Forall_lookup _ _) Hnz); eauto. }
    rewrite (strategy_step_after _ _ _ _ _ _ _ _ Hp Ht Hd Htd). simpl.
    by rewrite (take_S_r _ _ _ (days_lookup _ _ _ _ _ _ _ Hp Ht Hd)).
Qed.

Lemma days_length (predicted tomorrow today : list Qc) :
  length tomorrow = length predicted →
  length today = length predicted →
  length (days predicted tomorrow today) = length predicted.
Proof. intros Ht Hd. unfold days. rewrite !length_zip_with. lia. Qed.

(** C1. On three parallel, non-empty sequences of equal length whose
    today-prices are all nonzero, [evaluate_trading_strategy] returns: the
    mean of the daily returns, the compounded return (the product of the
    [1 + daily_return_i], minus one), the number of days whose return is
    negative, and the sum of the daily profits; day [i] being long
    (profit [tomorrow - today]) when the prediction is above today's price,
    short (profit [today - tomorrow]) when it is below, and flat (profit 0)
    when they are equal, with [daily_return_i = profit_i / today_i]. *)
Theorem evaluate_trading_strategy_spec (predicted tomorrow today : list Qc) :
  length tomorrow = length predicted →
  length today = length predicted →
  predicted ≠ [] →
  Forall (λ x, x ≠ 0) today →
  let ds := days predicted tomorrow today in
  let rs := daily_return <$> ds in
  (∀ i pr tm td,
     predicted !! i = Some pr → tomorrow !! i = Some tm → today !! i = Some td →
     ds !! i = Some (pr, (tm, td)) ∧
     profit (pr, (tm, td)) =
       (if decide (td < pr) then tm - td else if decide (pr < td) then td - tm else 0) ∧
     rs !! i = Some (profit (pr, (tm, td)) / td)) ∧
  length rs = length predicted ∧
  evaluate_trading_strategy predicted tomorrow today =
    Ok {| average_daily_return := F64 (mean rs);
          cumulative_return := product ((λ r, 1 + r) <$> rs) - 1;
          loss_days := count_negative rs;
          total_profits := sum (profit <$> ds) |}.
Proof.
  intros Ht Hd Hne Hnz ds rs. split; [|split].
  - intros i pr tm td Hp Htm Htd.
    pose proof (days_lookup _ _ _ _ _ _ _ Hp Htm Htd) as Hds.
    split; [done|]. split; [done|].
    unfold rs. rewrite list_lookup_fmap. unfold ds. by rewrite Hds.
  - unfold rs, ds. by rewrite length_fmap, days_length.
  - unfold evaluate_trading_strategy.
    rewrite strategy_loop_prefix by (done || lia).
    rewrite firstn_all2 by (rewrite days_length; done || lia).
    simpl. fold ds. fold rs. f_equal. f_equal.
    unfold np_mean, mean. rewrite foldl_plus_sum.
    assert (length rs = length predicted) as Hlen
      by (unfold rs, ds; by rewrite length_fmap, days_length).
    destruct rs as [|r rs']; [|done].
    destruct predicted; [done | discriminate Hlen].
Qed.

(** The evaluation of the two sample days, from the theorem. *)
Lemma evaluate_trading_strategy_spec_witness :
  evaluate_trading_strategy sample_predicted sample_tomorrow sample_today =
    let ds := days sample_predicted sample_tomorrow sample_today in
    let rs := daily_return <$> ds in
    Ok {| average_daily_return := F64 (mean rs);
          cumulative_return := product ((λ r, 1 + r) <$> rs) - 1;
          loss_days := count_negative rs;
          total_profits := sum (profit <$> ds) |}.
Proof.
  assert (sample_predicted ≠ []) as Hne by discriminate.
  assert (Forall (λ x, x ≠ 0) sample_today) as Hnz
    by by_evaluation.
  exact (proj2 (proj2 (evaluate_trading_strategy_spec
                         sample_predicted sample_tomorrow sample_today
                         eq_refl eq_refl Hne Hnz))).
Defined.

(** The three single-day cases and the two-day compounding of the
    specification's test list. *)
Example long_case :
  evaluate_trading_strategy [Qc_of_Z 110] [Qc_of_Z 105] [Qc_of_Z 100]
  = Ok {| average_daily_return := F64 (Qc_of_Z 5 / Qc_of_Z 100);
          cumulative_return := Qc_of_Z 5 / Qc_of_Z 100;
          loss_days := 0; total_profits := Qc_of_Z 5 |}.
Proof. by_evaluation. Qed.

Example short_case :
  evaluate_trading_strategy [Qc_of_Z 90] [Qc_of_Z 105] [Qc_of_Z 100]
  = Ok {| average_daily_return := F64 (- (Qc_of_Z 5 / Qc_of_Z 100));
          cumulative_return := - (Qc_of_Z 5 / Qc_of_Z 100);
          loss_days := 1; total_profits := - Qc_of_Z 5 |}.
Proof. by_evaluation. Qed.

Example flat_case :
  evaluate_trading_strategy [Qc_of_Z 100] [Qc_of_Z 105] [Qc_of_Z 100]
  = Ok {| average_daily_return := F64 0; cumulative_return := 0;
          loss_days := 0; total_profits := 0 |}.
Proof. by_evaluation. Qed.

Example two_days_compound :
  evaluate_trading_strategy sample_predicted sample_tomorrow sample_today
  = Ok {| average_daily_return := F64 0;
          cumulative_return :=
            (1 + Qc_of_Z 5 / Qc_of_Z 100) * (1 - Qc_of_Z 5 / Qc_of_Z 100) - 1;
          loss_days := 1; total_profits := 0 |}.
Proof. by_evaluation. Qed.

Example zero_price_raises :
  evaluate_trading_strategy [Qc_of_Z 1] [Qc_of_Z 1] [Qc_of_Z 0] = Raise ZeroDivisionError.
Proof. by_evaluation. Qed.

Example short_sequence_raises :
  evaluate_trading_strategy [Qc_of_Z 1; Qc_of_Z 2] [Qc_of_Z 1] [Qc_of_Z 1; Qc_of_Z 1]
  = Raise IndexError.
Proof. by_evaluation. Qed.

End trading.

(** *** Optimizer and scheduler construction *)

Section optimizers.
Implicit Types hparams : dict.






Lemma eq_str_false (v : pyval) (s : string) : v ≠ VStr s → eq_str v s = false.
Proof.
  intros Hv. destruct v; simpl; try done.
  apply bool_decide_eq_false_2. congruence.
Qed.

Lemma not_among (v : pyval) (s : string) (names : list string) :
  v ∉ VStr <$> names → s ∈ names → v ≠ VStr s.
Proof. intros Hv Hs ->. apply Hv. by apply list_elem_of_fmap_2. Qed.

Lemma select_optimizer_unknown hparams v :
  hparams !! "optimizer" = Some v →
  v ∉ VStr <$> optimizer_names →
  select_optimizer hparams = Raise (ValueError "Invalid optimizer type!").
Proof.
  intros Ho Hv. unfold select_optimizer. rewrite (getattr_lookup _ _ _ Ho). simpl.
  rewrite !eq_str_false; [done|..];
    apply (not_among _ _ optimizer_names Hv); unfold optimizer_names; set_solver.
Qed.

Lemma select_lr_scheduler_unknown hparams opt v :
  hparams !! "lr_scheduler" = Some v →
  v ∉ VStr <$> lr_scheduler_names →
  select_lr_scheduler hparams opt = Raise (ValueError "Invalid lr_scheduler type!").
Proof.
  intros Hs Hv. unfold select_lr_scheduler. rewrite (getattr_lookup _ _ _ Hs). simpl.
  rewrite !eq_str_false; [done|..];
    apply (not_among _ _ lr_scheduler_names Hv); unfold lr_scheduler_names; set_solver.
Qed.

Lemma lt_numbers (a b : pyval) (x y : Qc) :
  as_number a = Some x → as_number b = Some y → lt a b = Ok (bool_decide (x < y)).
Proof. unfold lt. by intros -> ->. Qed.

Lemma le_numbers (a b : pyval) (x y : Qc) :
  as_number a = Some x → as_number b = Some y → le a b = Ok (bool_decide (x ≤ y)).
Proof. unfold le. by intros -> ->. Qed.

Lemma number_at_lookup hparams key q :
  number_at hparams key = Some q → ∃ v, hparams !! key = Some v ∧ as_number v = Some q.
Proof.
  unfold number_at. destruct (hparams !! key) as [v|]; simpl; [eauto | discriminate].
Qed.

(** The ["WSD"] branch on its own: it raises unless the ordering holds. *)
Lemma select_lr_scheduler_WSD hparams opt :
  hparams !! "lr_scheduler" = Some (VStr "WSD") →
  ¬ wsd_ordered hparams →
  raises (select_lr_scheduler hparams opt).
Proof.
  intros Hs Hno. unfold select_lr_scheduler. rewrite (getattr_lookup _ _ _ Hs). simpl.
  destruct (hparams !! "lr_warmup_end_epochs") as [w|] eqn:Hw;
    [rewrite (getattr_lookup _ _ _ Hw) | rewrite (getattr_None _ _ Hw); raised].
  destruct (hparams !! "lr_stable_end_epochs") as [s|] eqn:Hst;
    [rewrite (getattr_lookup _ _ _ Hst) | rewrite (getattr_None _ _ Hst); raised].
  simpl. unfold chain.
  destruct (lt w s) as [[]|e] eqn:Hws; simpl; [| raised | raised].
  destruct (hparams !! "max_epochs") as [m|] eqn:Hm;
    [rewrite (getattr_lookup _ _ _ Hm) | rewrite (getattr_None _ _ Hm); raised].
  simpl. destruct (lt s m) as [[]|e] eqn:Hsm; simpl; [| raised | raised].
  destruct Hno. by exists w, s, m.
Qed.

Lemma select_lr_scheduler_WSD_numbers hparams opt w s m :
  hparams !! "lr_scheduler" = Some (VStr "WSD") →
  number_at hparams "lr_warmup_end_epochs" = Some w →
  number_at hparams "lr_stable_end_epochs" = Some s →
  number_at hparams "max_epochs" = Some m →
  ¬ (w < s ∧ s < m) →
  select_lr_scheduler hparams opt = Raise AssertionError.
Proof.
  intros Hs (vw & Hw & Hqw)%number_at_lookup (vs & Hst & Hqs)%number_at_lookup
    (vm & Hm & Hqm)%number_at_lookup Hno.
  unfold select_lr_scheduler. rewrite (getattr_lookup _ _ _ Hs). simpl.
  rewrite (getattr_lookup _ _ _ Hw). simpl. rewrite (getattr_lookup _ _ _ Hst). simpl.
  unfold chain. rewrite (lt_numbers _ _ _ _ Hqw Hqs).
  destruct (decide (w < s)) as [Hws|Hws].
  - rewrite bool_decide_eq_true_2 by done. simpl.
    rewrite (getattr_lookup _ _ _ Hm). simpl. rewrite (lt_numbers _ _ _ _ Hqs Hqm). simpl.
    rewrite bool_decide_eq_false_2 by tauto. done.
  - rewrite bool_decide_eq_false_2 by done. done.
Qed.

(** C4. [configure_optimizers] raises ["Invalid optimizer type!"] for an
    optimizer outside Adam, AdamW, LBFGS; raises for an [lr_scheduler]
    outside StepLR, MultiStepLR, ReduceLROnPlateau, WSD (with ["Invalid
    lr_scheduler type!"] once the optimizer is built); and under ["WSD"]
    raises whenever [lr_warmup_end_epochs < lr_stable_end_epochs <
    max_epochs] fails (the assertion's own error when the three are
    numbers). The error is raised by [configure_optimizers] itself, so that
    [fit] ends with it and no training step is run. *)
Theorem configure_optimizers_rejects hparams :
  (∀ v, hparams !! "optimizer" = Some v → v ∉ VStr <$> optimizer_names →
     configure_optimizers hparams = Raise (ValueError "Invalid optimizer type!")) ∧
  (∀ v, hparams !! "lr_scheduler" = Some v → v ∉ VStr <$> lr_scheduler_names →
     raises (configure_optimizers hparams) ∧
     (∀ opt, select_optimizer hparams = Ok opt →
        configure_optimizers hparams = Raise (ValueError "Invalid lr_scheduler type!"))) ∧
  (hparams !! "lr_scheduler" = Some (VStr "WSD") → ¬ wsd_ordered hparams →
     raises (configure_optimizers hparams)) ∧
  (∀ opt w s m,
     hparams !! "lr_scheduler" = Some (VStr "WSD") →
     select_optimizer hparams = Ok opt →
     number_at hparams "lr_warmup_end_epochs" = Some w →
     number_at hparams "lr_stable_end_epochs" = Some s →
     number_at hparams "max_epochs" = Some m →
     ¬ (w < s ∧ s < m) →
     configure_optimizers hparams = Raise AssertionError) ∧
  (∀ e, configure_optimizers hparams = Raise e →
     ∀ r losses, fit hparams r losses = Raise e).
Proof.
  split; [|split; [|split; [|split]]].
  - intros v Ho Hv. unfold configure_optimizers.
    by rewrite (select_optimizer_unknown _ _ Ho Hv).
  - intros v Hs Hv. unfold configure_optimizers. split.
    + destruct (select_optimizer hparams) as [opt|e]; simpl; [|raised].
      rewrite (select_lr_scheduler_unknown _ _ _ Hs Hv). raised.
    + intros opt ->. simpl. by rewrite (select_lr_scheduler_unknown _ _ _ Hs Hv).
  - intros Hs Hno. unfold configure_optimizers.
    destruct (select_optimizer hparams) as [opt|e]; simpl; [|raised].
    by apply raises_bind, select_lr_scheduler_WSD.
  - intros opt w s m Hs Hopt Hw Hst Hm Hno. unfold configure_optimizers.
    rewrite Hopt. simpl.
    by rewrite (select_lr_scheduler_WSD_numbers _ _ _ _ _ Hs Hw Hst Hm Hno).
  - intros e He r losses. unfold fit. by rewrite He.
Qed.

(** *** The warmup-stable-decay multiplier *)

Lemma as_int_number (a : pyval) (z : Z) :
  as_int a = Some z → as_number a = Some (Qc_of_Z z).
Proof.
  destruct a as [|[]| | | |]; simpl; intros [= <-]; try done;
    by rewrite ?Z2Qc_inj_1, ?Z2Qc_inj_0.
Qed.

Lemma as_number_not_int (a : pyval) (x : Qc) :
  as_number a = Some x → as_int a = None → a = VFloat x.
Proof. destruct a; simpl; naive_solver. Qed.

Lemma sub_numbers (a b : pyval) (x y : Qc) :
  as_number a = Some x → as_number b = Some y →
  ∃ v, sub a b = Ok v ∧ as_number v = Some (x - y).
Proof.
  intros Ha Hb. unfold sub.
  destruct (as_int a) as [za|] eqn:Hia, (as_int b) as [zb|] eqn:Hib.
  - apply as_int_number in Hia, Hib. eexists; split; [done|]. simpl.
    rewrite Z2Qc_inj_sub. congruence.
  - rewrite Ha, Hb. by eexists.
  - rewrite Ha, Hb. by eexists.
  - rewrite Ha, Hb. by eexists.
Qed.

Lemma div_numbers (a b : pyval) (x y : Qc) :
  as_number a = Some x → as_number b = Some y →
  div a b = VFloat <$> truediv x y.
Proof. unfold div. by intros -> ->. Qed.

(** The multiplier on numeric hyperparameters, branch by branch. *)
Lemma wsd_lr_lambda_numbers hparams (w s m : Qc) (e : Z) :
  number_at hparams "lr_warmup_end_epochs" = Some w →
  number_at hparams "lr_stable_end_epochs" = Some s →
  number_at hparams "max_epochs" = Some m →
  wsd_lr_lambda hparams e =
    if decide (Qc_of_Z e < w) then VFloat <$> truediv (Qc_of_Z (e + 1)) w
    else if decide (Qc_of_Z e < s) then Ok (VFloat 1)
    else if decide (Qc_of_Z e ≤ m) then VFloat <$> truediv (Qc_of_Z (e + 1) - s) (m - s)
    else Ok VNone.
Proof.
  intros (vw & Hw & Hqw)%number_at_lookup (vs & Hs & Hqs)%number_at_lookup
    (vm & Hm & Hqm)%number_at_lookup.
  unfold wsd_lr_lambda, chain.
  rewrite !(getattr_lookup _ _ _ Hw), !(getattr_lookup _ _ _ Hs), !(getattr_lookup _ _ _ Hm).
  simpl. rewrite (lt_numbers (VInt e) vw (Qc_of_Z e) w eq_refl Hqw).
  destruct (decide (Qc_of_Z e < w)) as [Hew|Hew].
  { rewrite bool_decide_eq_true_2 by done. simpl.
    by apply div_numbers. }
  rewrite bool_decide_eq_false_2 by done. simpl.
  rewrite (le_numbers vw (VInt e) w (Qc_of_Z e) Hqw eq_refl).
  rewrite bool_decide_eq_true_2 by (by apply Qcnot_lt_le). simpl.
  rewrite (lt_numbers (VInt e) vs (Qc_of_Z e) s eq_refl Hqs).
  destruct (decide (Qc_of_Z e < s)) as [Hes|Hes].
  { by rewrite bool_decide_eq_true_2 by done. }
  rewrite bool_decide_eq_false_2 by done. simpl.
  rewrite (le_numbers vs (VInt e) s (Qc_of_Z e) Hqs eq_refl).
  rewrite bool_decide_eq_true_2 by (by apply Qcnot_lt_le). simpl.
  rewrite (le_numbers (VInt e) vm (Qc_of_Z e) m eq_refl Hqm).
  destruct (decide (Qc_of_Z e ≤ m)) as [Hem|Hem].
  - rewrite bool_decide_eq_true_2 by done. simpl.
    destruct (sub_numbers (VInt (e + 1)) vs (Qc_of_Z (e + 1)) s eq_refl Hqs) as (num & -> & Hnum).
    simpl.
    destruct (sub_numbers vm vs _ _ Hqm Hqs) as (den & -> & Hden).
    simpl. by apply div_numbers.
  - by rewrite bool_decide_eq_false_2 by done.
Qed.

Lemma Qcdiv_eq_1 (x d : Qc) : d ≠ 0 → x / d = 1 ↔ x = d.
Proof.
  intros Hd. split.
  - intros H. replace x with ((x / d) * d) by (by field). rewrite H. ring.
  - intros ->. by field.
Qed.

Lemma Qcdiv_gt_1 (x d : Qc) : 0 < d → 1 < x / d ↔ d < x.
Proof.
  intros Hd. assert (d ≠ 0) as Hne by (intros ->; by apply (Qclt_not_eq 0 0)).
  rewrite (Qcmult_lt_mono_pos_r 1 (x / d) d Hd).
  replace ((x / d) * d) with x by (by field).
  by rewrite Qcmult_1_l.
Qed.

Lemma truediv_nonzero (x y : Qc) : y ≠ 0 → truediv x y = Ok (x / y).
Proof. intros Hy. unfold truediv. by rewrite decide_False. Qed.

Lemma Qclt_ne (x y : Qc) : x < y → y - x ≠ 0.
Proof.
  intros Hlt Heq. assert (y = x) as -> by (rewrite <-(Qcplus_0_l x), <-Heq; ring).
  by apply (Qclt_not_eq x x).
Qed.

(** C5, as the code has it. Under [lr_warmup_end_epochs <
    lr_stable_end_epochs < max_epochs]: at epoch 0 the multiplier is
    [1 / lr_warmup_end_epochs] provided the warmup is not empty
    ([0 < lr_warmup_end_epochs]); at the epoch equal to
    [lr_warmup_end_epochs] it is 1.0; at the epoch equal to
    [lr_stable_end_epochs] it is [1 / (max_epochs - lr_stable_end_epochs)]. *)
Theorem wsd_boundary_values hparams (w s m : Qc) :
  number_at hparams "lr_warmup_end_epochs" = Some w →
  number_at hparams "lr_stable_end_epochs" = Some s →
  number_at hparams "max_epochs" = Some m →
  w < s → s < m →
  (0 < w → wsd_lr_lambda hparams 0 = Ok (VFloat (1 / w))) ∧
  (∀ e : Z, Qc_of_Z e = w → wsd_lr_lambda hparams e = Ok (VFloat 1)) ∧
  (∀ e : Z, Qc_of_Z e = s → wsd_lr_lambda hparams e = Ok (VFloat (1 / (m - s)))).
Proof.
  intros Hw Hs Hm Hws Hsm. split; [|split].
  - intros Hpos. rewrite (wsd_lr_lambda_numbers _ _ _ _ _ Hw Hs Hm).
    rewrite Z2Qc_inj_0, decide_True by done.
    change (0 + 1)%Z with 1%Z. rewrite Z2Qc_inj_1, truediv_nonzero; [done|].
    intros ->. by apply (Qclt_not_eq 0 0).
  - intros e He. rewrite (wsd_lr_lambda_numbers _ _ _ _ _ Hw Hs Hm), He.
    rewrite decide_False by (intros H; by apply (Qclt_not_eq w w)).
    by rewrite decide_True.
  - intros e He. rewrite (wsd_lr_lambda_numbers _ _ _ _ _ Hw Hs Hm).
    rewrite Z2Qc_inj_add, Z2Qc_inj_1, He.
    rewrite decide_False by (by apply Qcle_not_lt, Qclt_le_weak).
    rewrite decide_False by (intros H; by apply (Qclt_not_eq s s)).
    rewrite decide_True by (by apply Qclt_le_weak).
    rewrite truediv_nonzero by (by apply Qclt_ne).
    replace (s + 1 - s) with 1 by ring. done.
Qed.

(** The three boundary values on the sample configuration (1, 2, 10). *)
Lemma wsd_boundary_values_witness :
  wsd_lr_lambda sample_hparams 0 = Ok (VFloat (1 / Qc_of_Z 1)) ∧
  wsd_lr_lambda sample_hparams 1 = Ok (VFloat 1) ∧
  wsd_lr_lambda sample_hparams 2 = Ok (VFloat (1 / (Qc_of_Z 10 - Qc_of_Z 2))).
Proof.
  assert (number_at sample_hparams "lr_warmup_end_epochs" = Some (Qc_of_Z 1)) as Hw
    by by_evaluation.
  assert (number_at sample_hparams "lr_stable_end_epochs" = Some (Qc_of_Z 2)) as Hs
    by by_evaluation.
  assert (number_at sample_hparams "max_epochs" = Some (Qc_of_Z 10)) as Hm
    by by_evaluation.
  assert (Qc_of_Z 1 < Qc_of_Z 2) as Hws by (by apply Z2Qc_inj_lt).
  assert (Qc_of_Z 2 < Qc_of_Z 10) as Hsm by (by apply Z2Qc_inj_lt).
  assert (0 < Qc_of_Z 1) as Hpos by (rewrite <-Z2Qc_inj_0; by apply Z2Qc_inj_lt).
  destruct (wsd_boundary_values sample_hparams _ _ _ Hw Hs Hm Hws Hsm) as (H0 & H1 & H2).
  split; [exact (H0 Hpos) | split; [exact (H1 1%Z eq_refl) | exact (H2 2%Z eq_refl)]].
Defined.

(** The claim of C5 as stated fails when the warmup is empty: with
    [lr_warmup_end_epochs = 0] (and stable end 1, 2 epochs) the ordering
    holds, epoch 0 already is in the stable phase and the multiplier is 1.0,
    while [1 / lr_warmup_end_epochs] is a division by zero. *)
Lemma wsd_epoch_0_without_warmup :
  number_at no_warmup_hparams "lr_warmup_end_epochs" = Some (Qc_of_Z 0) ∧
  number_at no_warmup_hparams "lr_stable_end_epochs" = Some (Qc_of_Z 1) ∧
  number_at no_warmup_hparams "max_epochs" = Some (Qc_of_Z 2) ∧
  Qc_of_Z 0 < Qc_of_Z 1 ∧ Qc_of_Z 1 < Qc_of_Z 2 ∧
  wsd_lr_lambda no_warmup_hparams 0 = Ok (VFloat 1) ∧
  truediv 1 (Qc_of_Z 0) = Raise ZeroDivisionError ∧
  wsd_lr_lambda no_warmup_hparams 0 ≠ Ok (VFloat (1 / Qc_of_Z 0)).
Proof.
  repeat split; by_evaluation.
Qed.

(** C6, as the code has it. Under the same ordering, on the epochs from
    [lr_stable_end_epochs] to [max_epochs] the multiplier is
    [(e + 1 - lr_stable_end_epochs) / (max_epochs - lr_stable_end_epochs)]:
    it grows by the same amount [1 / (max_epochs - lr_stable_end_epochs)]
    from one epoch to the next, equals 1.0 exactly at [e = max_epochs - 1],
    and exceeds 1.0 exactly on the epochs after that one. *)
Theorem wsd_post_stable hparams (w s m : Qc) (e : Z) :
  number_at hparams "lr_warmup_end_epochs" = Some w →
  number_at hparams "lr_stable_end_epochs" = Some s →
  number_at hparams "max_epochs" = Some m →
  w < s → s < m →
  s ≤ Qc_of_Z e → Qc_of_Z e ≤ m →
  ∃ q, wsd_lr_lambda hparams e = Ok (VFloat q) ∧
       q = (Qc_of_Z e + 1 - s) / (m - s) ∧
       (q = 1 ↔ Qc_of_Z e = m - 1) ∧
       (1 < q ↔ m - 1 < Qc_of_Z e) ∧
       (Qc_of_Z (e + 1) ≤ m →
        ∃ q', wsd_lr_lambda hparams (e + 1) = Ok (VFloat q') ∧ q' - q = 1 / (m - s)).
Proof.
  intros Hw Hs Hm Hws Hsm Hse Hem.
  assert (m - s ≠ 0) as Hne by (by apply Qclt_ne).
  assert (0 < m - s) as Hpos.
  { apply (Qcplus_lt_mono_r _ _ s). by replace (m - s + s) with m by ring; rewrite Qcplus_0_l. }
  assert (∀ e' : Z, s ≤ Qc_of_Z e' → Qc_of_Z e' ≤ m →
            wsd_lr_lambda hparams e' = Ok (VFloat ((Qc_of_Z e' + 1 - s) / (m - s)))) as Hval.
  { intros e' Hse' Hem'. rewrite (wsd_lr_lambda_numbers _ _ _ _ _ Hw Hs Hm).
    rewrite decide_False
      by (apply Qcle_not_lt; trans s; [by apply Qclt_le_weak | done]).
    rewrite decide_False by (by apply Qcle_not_lt).
    rewrite decide_True by done.
    rewrite truediv_nonzero by done.
    by rewrite Z2Qc_inj_add, Z2Qc_inj_1. }
  eexists. split; [by apply Hval|]. split; [done|]. split; [|split].
  - rewrite Qcdiv_eq_1 by done. split; intros H.
    + replace (Qc_of_Z e) with ((Qc_of_Z e + 1 - s) - (1 - s)) by ring.
      rewrite H. ring.
    + rewrite H. ring.
  - rewrite Qcdiv_gt_1 by done.
    rewrite (Qcplus_lt_mono_r (m - 1) (Qc_of_Z e) (1 - s)).
    by replace (m - 1 + (1 - s)) with (m - s) by ring;
       replace (Qc_of_Z e + (1 - s)) with (Qc_of_Z e + 1 - s) by ring.
  - intros Hem'. eexists. split.
    + apply Hval; [|done]. trans (Qc_of_Z e); [done|].
      apply (proj1 (Z2Qc_inj_le e (e + 1))). lia.
    + rewrite Z2Qc_inj_add, Z2Qc_inj_1. by field.
Qed.

(** The last-but-one epoch of the sample configuration. *)
Lemma wsd_post_stable_witness :
  ∃ q, wsd_lr_lambda sample_hparams 9 = Ok (VFloat q) ∧
       q = (Qc_of_Z 9 + 1 - Qc_of_Z 2) / (Qc_of_Z 10 - Qc_of_Z 2) ∧
       (q = 1 ↔ Qc_of_Z 9 = Qc_of_Z 10 - 1) ∧
       (1 < q ↔ Qc_of_Z 10 - 1 < Qc_of_Z 9) ∧
       (Qc_of_Z (9 + 1) ≤ Qc_of_Z 10 →
        ∃ q', wsd_lr_lambda sample_hparams (9 + 1) = Ok (VFloat q') ∧
              q' - q = 1 / (Qc_of_Z 10 - Qc_of_Z 2)).
Proof.
  assert (number_at sample_hparams "lr_warmup_end_epochs" = Some (Qc_of_Z 1)) as Hw
    by by_evaluation.
  assert (number_at sample_hparams "lr_stable_end_epochs" = Some (Qc_of_Z 2)) as Hs
    by by_evaluation.
  assert (number_at sample_hparams "max_epochs" = Some (Qc_of_Z 10)) as Hm
    by by_evaluation.
  assert (Qc_of_Z 1 < Qc_of_Z 2) as Hws by (by apply Z2Qc_inj_lt).
  assert (Qc_of_Z 2 < Qc_of_Z 10) as Hsm by (by apply Z2Qc_inj_lt).
  assert (Qc_of_Z 2 ≤ Qc_of_Z 9) as Hse by (by apply Z2Qc_inj_le).
  assert (Qc_of_Z 9 ≤ Qc_of_Z 10) as Hem by (by apply Z2Qc_inj_le).
  exact (wsd_post_stable sample_hparams _ _ _ 9 Hw Hs Hm Hws Hsm Hse Hem).
Defined.

(** The claim of C6 as stated fails: with warmup end 1, stable end 2 and 10
    epochs, one epoch past the stable end (epoch 3) the multiplier is
    [(3 + 1 - 2) / (10 - 2) = 1/4], not 1.0. *)
Lemma wsd_one_epoch_past_stable_end :
  number_at sample_hparams "lr_warmup_end_epochs" = Some (Qc_of_Z 1) ∧
  number_at sample_hparams "lr_stable_end_epochs" = Some (Qc_of_Z 2) ∧
  number_at sample_hparams "max_epochs" = Some (Qc_of_Z 10) ∧
  wsd_lr_lambda sample_hparams (2 + 1) = Ok (VFloat (1 / Qc_of_Z 4)) ∧
  wsd_lr_lambda sample_hparams (2 + 1) ≠ Ok (VFloat 1).
Proof.
  repeat split; by_evaluation.
Qed.

(** An unknown optimizer, an unknown scheduler and a stable end equal to
    [max_epochs], each rejected. *)
Lemma configure_optimizers_rejects_witness :
  configure_optimizers (<["optimizer" := VStr "SGD"]> sample_hparams)
    = Raise (ValueError "Invalid optimizer type!") ∧
  configure_optimizers (<["lr_scheduler" := VStr "CosineAnnealingLR"]> sample_hparams)
    = Raise (ValueError "Invalid lr_scheduler type!") ∧
  configure_optimizers (<["lr_stable_end_epochs" := VInt 10]> sample_hparams)
    = Raise AssertionError.
Proof.
  pose (opt := AdamW (VFloat (1 / Qc_of_Z 1000))
                (Qc_of_Z 9 / Qc_of_Z 10, Qc_of_Z 95 / Qc_of_Z 100) (1 / Qc_of_Z 100000)).
  split; [|split].
  - destruct (configure_optimizers_rejects (<["optimizer" := VStr "SGD"]> sample_hparams))
      as (H & _).
    apply (H (VStr "SGD")).
    + by_evaluation.
    + by_evaluation.
  - destruct (configure_optimizers_rejects
                (<["lr_scheduler" := VStr "CosineAnnealingLR"]> sample_hparams))
      as (_ & H & _).
    apply (H (VStr "CosineAnnealingLR")) with (opt := opt).
    + by_evaluation.
    + by_evaluation.
    + by_evaluation.
  - destruct (configure_optimizers_rejects
                (<["lr_stable_end_epochs" := VInt 10]> sample_hparams))
      as (_ & _ & _ & H & _).
    apply (H opt (Qc_of_Z 1) (Qc_of_Z 10) (Qc_of_Z 10)).
    + by_evaluation.
    + by_evaluation.
    + by_evaluation.
    + by_evaluation.
    + by_evaluation.
    + intros [_ Hlt]. by apply (Qclt_not_eq _ _ Hlt).
Defined.

End optimizers.

(** *** Model loading *)

Section model_loading.
Context {model : Type}.
Variable import_module : string → string → result (gmap string (model_class model)).
Implicit Types hparams : dict.

Lemma load_model_import hparams name :
  hparams !! "model_name" = Some (VStr name) →
  load_model import_module hparams =
    module ← import_module ("." +:+ name) "core.model";
    Model ← getattr module name;
    instancialize hparams Model.
Proof. intros Hn. unfold load_model. by rewrite (getattr_lookup _ _ _ Hn). Qed.

(** C7, as the code has it. When [model_name] does not resolve,
    [load_model] fails with the error of the import machinery: the
    exception [import_module] raises, unchanged, or [AttributeError] when
    the module imported has no attribute of that name. It has no error of
    its own: ["Invalid model type"] can only come out of it when the
    importer or the model's constructor raised it. *)
Theorem load_model_unresolved hparams name :
  hparams !! "model_name" = Some (VStr name) →
  (∀ e, import_module ("." +:+ name) "core.model" = Raise e →
        load_model import_module hparams = Raise e) ∧
  (∀ module, import_module ("." +:+ name) "core.model" = Ok module →
             module !! name = None →
             load_model import_module hparams = Raise (AttributeError name)) ∧
  (load_model import_module hparams = Raise (ValueError "Invalid model type") →
   import_module ("." +:+ name) "core.model" = Raise (ValueError "Invalid model type") ∨
   ∃ module Model,
     import_module ("." +:+ name) "core.model" = Ok module ∧
     module !! name = Some Model ∧
     instancialize hparams Model = Raise (ValueError "Invalid model type")).
Proof.
  intros Hn. rewrite (load_model_import _ _ Hn). split; [|split].
  - by intros e ->.
  - intros module -> Hnone. simpl. by rewrite (getattr_None _ _ Hnone).
  - destruct (import_module ("." +:+ name) "core.model") as [module|e]; simpl.
    + destruct (module !! name) as [Model|] eqn:HM.
      * rewrite (getattr_lookup _ _ _ HM). simpl. intros H. right. by exists module, Model.
      * rewrite (getattr_None _ _ HM). simpl. discriminate.
    + intros [= ->]. by left.
Qed.

End model_loading.

(** An unknown model name against the sample package. *)
Lemma load_model_unresolved_witness :
  load_model (import_from sample_package) (<["model_name" := VStr "Transformer"]> sample_exp_conf)
  = Raise (ModuleNotFoundError "core.model.Transformer").
Proof.
  assert ((<["model_name" := VStr "Transformer"]> sample_exp_conf) !! "model_name"
          = Some (VStr "Transformer")) as Hn by by_evaluation.
  assert (import_from sample_package ("." +:+ "Transformer") "core.model"
          = Raise (ModuleNotFoundError "core.model.Transformer")) as Himp
    by reflexivity.
  exact (proj1 (load_model_unresolved (import_from sample_package) _ _ Hn) _ Himp).
Defined.

(** The claim of C7 as stated fails: for the unknown model name
    ["Transformer"] the error is the importer's [ModuleNotFoundError], and
    for a module that lacks the class it is [AttributeError]; in neither
    case ["Invalid model type"]. *)
Lemma load_model_unknown_name :
  load_model (import_from sample_package) (<["model_name" := VStr "Transformer"]> sample_exp_conf)
    = Raise (ModuleNotFoundError "core.model.Transformer") ∧
  load_model (import_from sample_package) (<["model_name" := VStr "Transformer"]> sample_exp_conf)
    ≠ Raise (ValueError "Invalid model type") ∧
  load_model (import_from (<["Transformer" := ∅]> sample_package))
             (<["model_name" := VStr "Transformer"]> sample_exp_conf)
    = Raise (AttributeError "Transformer").
Proof.
  repeat split; by_evaluation.
Qed.

Example load_model_known_name :
  load_model (import_from sample_package) sample_exp_conf
  = Ok (list_to_map [("hist_len", VInt 60); ("pred_len", VInt 1); ("revin_affine", VBool false)]).
Proof. by_evaluation. Qed.

(** *** The test-phase accumulators *)

Section accumulation.
Implicit Types (r : runner) (o : test_outputs) (os : list test_outputs).

Lemma column_snoc (f : test_outputs → Qc) os o :
  column f (os ++ [o]) = Some (default [] (column f os) ++ [f o]).
Proof. destruct os as [|o' os]; simpl; [done|]. by rewrite fmap_app. Qed.

Lemma column_length (f : test_outputs → Qc) os l :
  column f os = Some l → length l = length os.
Proof. destruct os; simpl; [done|]. intros [= <-]. simpl. by rewrite length_fmap. Qed.

Lemma log_accumulators name value r : accumulators (log name value r) = accumulators r.
Proof. done. Qed.

(** A test step on a runner that holds the columns of [os] succeeds and
    leaves the columns of [os ++ [o]]. *)
Lemma test_step_columns r os o :
  accumulators r = columns os →
  ∃ r', test_step r o = Ok r' ∧ accumulators r' = columns (os ++ [o]).
Proof.
  unfold accumulators, columns. intros [= Hp Ht Hd Hc Hl].
  destruct os as [|o' os']; simpl in Hp, Ht, Hd, Hc, Hl; unfold test_step; simpl; rewrite Hp; simpl.
  - eexists. split; reflexivity.
  - rewrite Hp, Ht, Hd, Hc, Hl. simpl. eexists. split; [reflexivity|].
    unfold accumulators, columns. simpl. by rewrite !fmap_app.
Qed.

Lemma on_test_epoch_end_accumulators r r' :
  on_test_epoch_end r = Ok r' → accumulators r' = accumulators r.
Proof.
  unfold on_test_epoch_end.
  destruct (predictions_tomorrow r) as [p|]; [|by intros [= <-]].
  destruct (true_prices_tomorrow r) as [t|]; [|by intros [= <-]].
  destruct (true_prices_today r) as [d|]; [|by intros [= <-]].
  intros H. bind_inv H. simpl in H. bind_inv H. bind_inv H.
  by injection H as <-.
Qed.

Lemma call_columns r r' os h :
  accumulators r = columns os →
  call r h = Ok r' →
  accumulators r' = columns (os ++ test_steps [h]).
Proof.
  intros Hacc Hcall. destruct h as [loss|loss|o|]; simpl in *.
  - injection Hcall as <-. by rewrite app_nil_r.
  - injection Hcall as <-. by rewrite app_nil_r.
  - destruct (test_step_columns r os o Hacc) as (r'' & Hstep & Hacc').
    rewrite Hstep in Hcall. by injection Hcall as <-.
  - rewrite app_nil_r. by rewrite (on_test_epoch_end_accumulators _ _ Hcall).
Qed.

Lemma test_steps_cons h hooks : test_steps (h :: hooks) = test_steps [h] ++ test_steps hooks.
Proof. unfold test_steps. simpl. by destruct h. Qed.

Lemma run_columns hooks r r' os :
  accumulators r = columns os →
  run r hooks = Ok r' →
  accumulators r' = columns (os ++ test_steps hooks).
Proof.
  revert r os. induction hooks as [|h hooks IH]; intros r os Hacc Hrun.
  - injection Hrun as <-. by rewrite app_nil_r.
  - unfold run in Hrun. simpl in Hrun. bind_inv Hrun.
    rewrite test_steps_cons, app_assoc.
    apply (IH x); [|done]. by eapply call_columns.
Qed.

(** C10. After any run of hooks on a fresh runner, the five accumulators
    hold the five columns of the outputs of the test steps taken, in order:
    none exists before the first test step, all five exist after it, each
    of length the number of test steps. From there a further test step
    succeeds and appends its one value to each list, and
    [on_test_epoch_end] leaves the five as they are. *)
Theorem test_accumulators (hooks : list hook) r :
  run fresh_runner hooks = Ok r →
  let os := test_steps hooks in
  accumulators r = columns os ∧
  (os = [] → Forall (λ a, a = None) (accumulators r)) ∧
  (os ≠ [] → Forall (λ a, ∃ l, a = Some l ∧ length l = length os) (accumulators r)) ∧
  (∀ o, ∃ r', test_step r o = Ok r' ∧
              accumulators r' =
                zip_with (λ a x, Some (default [] a ++ [x])) (accumulators r) (outputs_of o)) ∧
  (∀ r', on_test_epoch_end r = Ok r' → accumulators r' = accumulators r) ∧
  (∀ loss, accumulators (training_step r loss) = accumulators r ∧
           accumulators (validation_step r loss) = accumulators r).
Proof.
  intros Hrun os.
  assert (accumulators r = columns os) as Hacc.
  { by apply (run_columns hooks fresh_runner r []). }
  split; [done|]. rewrite Hacc. split; [|split; [|split; [|split]]].
  - intros ->. by repeat constructor.
  - intros Hne. unfold columns. destruct os as [|o os']; [done|].
    repeat constructor; eexists; (split; [done|]); simpl; by rewrite length_fmap.
  - intros o. destruct (test_step_columns r os o Hacc) as (r' & Hstep & Hacc').
    exists r'. split; [done|]. rewrite Hacc'. unfold columns, outputs_of. simpl.
    by rewrite !column_snoc.
  - intros r' Hend. by rewrite (on_test_epoch_end_accumulators _ _ Hend).
  - done.
Qed.

End accumulation.

(** A training step, two test steps and the end of the test epoch. *)
Lemma test_accumulators_witness :
  ∃ r, run fresh_runner sample_hooks = Ok r ∧
       accumulators r = columns (test_steps sample_hooks) ∧
       Forall (λ a, ∃ l, a = Some l ∧ length l = 2%nat) (accumulators r).
Proof.
  destruct (run fresh_runner sample_hooks) as [r|e] eqn:Hrun.
  - exists r. split; [done|].
    destruct (test_accumulators sample_hooks r Hrun) as (Hacc & _ & Hlen & _).
    split; [exact Hacc|]. apply Hlen. discriminate.
  - exfalso. revert Hrun. vm_compute. discriminate.
Defined.

(** *** Configuration fusion and [train_func] *)

Lemma append_nil_r (a : string) : a +:+ "" = a.
Proof.
  induction a as [|x a IH]; [done|].
  change (String x (a +:+ "") = String x a). by f_equal.
Qed.

Lemma format_pair (a b : string) : format "{}_{}" [a; b] [] = Ok (a +:+ "_" +:+ b).
Proof.
  transitivity (Ok (a +:+ "_" +:+ (b +:+ "")) : result string); [reflexivity|].
  by rewrite append_nil_r.
Qed.

Lemma format_seed (a : string) : format "seed_{}" [a] [] = Ok ("seed_" +:+ a).
Proof.
  transitivity (Ok ("seed_" +:+ (a +:+ "")) : result string); [reflexivity|].
  by rewrite append_nil_r.
Qed.

Lemma as_path_Ok (v : pyval) (s : string) : as_path v = Ok s → v = VStr s.
Proof. destruct v; simpl; naive_solver. Qed.

Section train_func_runs.
Variable cal_conf_hash : dict → nat → string.
Variable float_repr : Qc → string.
Variable seed_everything : pyval → result unit.
Variable init_logger : run_logger → result unit.
Implicit Types (conf : dict) (hyper_conf : option dict).

(** The logger [train_func] builds and the set-up it arrives at, written
    out from the values it has read. *)
Local Abbreviation logger_at conf' sd mn dn root :=
  (if match conf' !! "use_wandb" with Some v => truthy v | None => false end
   then WandbLogger (os_path_join root [str float_repr mn +:+ "_" +:+ str float_repr dn])
          (cal_conf_hash conf' 10) ("seed_" +:+ str float_repr sd)
   else CSVLogger (os_path_join root [str float_repr mn +:+ "_" +:+ str float_repr dn])
          (cal_conf_hash conf' 10) ("seed_" +:+ str float_repr sd)).

Local Abbreviation setup_at conf' sd mn dn dv me gc root :=
  {| hash_input := conf';
     seed := sd;
     trainer :=
       {| devices := dv;
          precision := default (VStr "32-true") (conf' !! "precision");
          logger := logger_at conf' sd mn dn root;
          max_epochs := me;
          gradient_clip_algorithm := default (VStr "norm") (conf' !! "gradient_clip_algorithm");
          gradient_clip_val := gc;
          default_root_dir := VStr root |};
     conf_after :=
       <["exp_dir" := VStr (os_path_join
                              (os_path_join root
                                 [str float_repr mn +:+ "_" +:+ str float_repr dn])
                              [cal_conf_hash conf' 10; "seed_" +:+ str float_repr sd])]>
         (<["conf_hash" := VStr (cal_conf_hash conf' 10)]> conf') |}.

(** [train_func] up to the construction of the logger. *)
Lemma train_func_logger hyper_conf conf (sd mn dn : pyval) (root : string) :
  let conf' := apply_hyper_conf hyper_conf conf in
  conf' !! "seed" = Some sd →
  conf' !! "save_root" = Some (VStr root) →
  conf' !! "model_name" = Some mn →
  conf' !! "dataset_name" = Some dn →
  seed_everything sd = Ok () →
  train_func cal_conf_hash float_repr seed_everything init_logger hyper_conf conf =
  (_ ← init_logger (logger_at conf' sd mn dn root);
   let conf'' := <["exp_dir" := VStr (os_path_join
                              (os_path_join root
                                 [str float_repr mn +:+ "_" +:+ str float_repr dn])
                              [cal_conf_hash conf' 10; "seed_" +:+ str float_repr sd])]>
                   (<["conf_hash" := VStr (cal_conf_hash conf' 10)]> conf') in
   dv ← getitem conf'' "devices";
   me ← getitem conf'' "max_epochs";
   gc ← getitem conf'' "gradient_clip_val";
   Ok (setup_at conf' sd mn dn dv me gc root)).
Proof.
  intros conf' Hsd Hroot Hmn Hdn Hseed.
  unfold train_func. fold conf'.
  set (hash := cal_conf_hash conf' 10).
  assert (∀ k v, k ≠ "conf_hash" → conf' !! k = Some v →
                 getitem (<["conf_hash" := VStr hash]> conf') k = Ok v) as Hget.
  { intros k v Hk Hv. apply getitem_lookup. by rewrite lookup_insert_ne. }
  rewrite !(Hget "seed" sd), (Hget "save_root" (VStr root)), (Hget "model_name" mn),
    (Hget "dataset_name" dn) by done.
  rewrite bind_Ok_l, Hseed.
  rewrite !bind_Ok_l, format_pair, bind_Ok_l. cbn [as_path]. rewrite bind_Ok_l.
  rewrite (lookup_insert_ne conf' "conf_hash" "use_wandb") by done.
  assert (getitem (<["conf_hash" := VStr hash]> conf') "conf_hash" = Ok (VStr hash)) as Hh.
  { apply getitem_lookup. by rewrite lookup_insert_eq. }
  rewrite !Hh.
  assert ((match conf' !! "use_wandb" with
           | Some v => Ok (truthy v)
           | None => Ok false
           end : result bool)
          = Ok (match conf' !! "use_wandb" with Some v => truthy v | None => false end)) as ->.
  { by destruct (conf' !! "use_wandb"). }
  rewrite !bind_Ok_l, format_seed, !bind_Ok_l. cbn [str].
  destruct (init_logger _) as [[]|e]; [|reflexivity].
  rewrite !bind_Ok_l. cbn [as_path]. rewrite !bind_Ok_l.
  rewrite format_seed, bind_Ok_l. cbv zeta.
  set (conf'' := <["exp_dir" := _]> _).
  assert (getitem conf'' "save_root" = Ok (VStr root)) as Hsr.
  { apply getitem_lookup. unfold conf''. by rewrite !lookup_insert_ne. }
  assert (conf'' !! "precision" = conf' !! "precision") as ->
    by (unfold conf''; by rewrite !lookup_insert_ne).
  assert (conf'' !! "gradient_clip_algorithm" = conf' !! "gradient_clip_algorithm") as ->
    by (unfold conf''; by rewrite !lookup_insert_ne).
  destruct (getitem conf'' "devices") as [dv|]; [|reflexivity]. rewrite !bind_Ok_l.
  destruct (getitem conf'' "max_epochs") as [me|]; [|reflexivity]. rewrite !bind_Ok_l.
  destruct (getitem conf'' "gradient_clip_val") as [gc|]; [|reflexivity].
  by rewrite !bind_Ok_l, Hsr, bind_Ok_l.
Qed.

(** What [train_func] computes when the keys it reads are there and the
    two calls into Lightning go through. *)
Lemma train_func_computes hyper_conf conf (sd mn dn dv me gc : pyval) (root : string) :
  let conf' := apply_hyper_conf hyper_conf conf in
  conf' !! "seed" = Some sd →
  conf' !! "save_root" = Some (VStr root) →
  conf' !! "model_name" = Some mn →
  conf' !! "dataset_name" = Some dn →
  conf' !! "devices" = Some dv →
  conf' !! "max_epochs" = Some me →
  conf' !! "gradient_clip_val" = Some gc →
  seed_everything sd = Ok () →
  init_logger (logger_at conf' sd mn dn root) = Ok () →
  train_func cal_conf_hash float_repr seed_everything init_logger hyper_conf conf =
  Ok (setup_at conf' sd mn dn dv me gc root).
Proof.
  intros conf' Hsd Hroot Hmn Hdn Hdv Hme Hgc Hseed Hlogger.
  rewrite (train_func_logger hyper_conf conf sd mn dn root Hsd Hroot Hmn Hdn Hseed).
  fold conf'. rewrite Hlogger, bind_Ok_l. cbv zeta.
  rewrite (getitem_lookup _ "devices" dv), bind_Ok_l by (by rewrite !lookup_insert_ne).
  rewrite (getitem_lookup _ "max_epochs" me), bind_Ok_l by (by rewrite !lookup_insert_ne).
  by rewrite (getitem_lookup _ "gradient_clip_val" gc), bind_Ok_l
    by (by rewrite !lookup_insert_ne).
Qed.

(** What a successful [train_func] has read, the calls that went through
    and the set-up it arrived at. *)
Lemma train_func_inversion hyper_conf conf r :
  train_func cal_conf_hash float_repr seed_everything init_logger hyper_conf conf = Ok r →
  let conf' := apply_hyper_conf hyper_conf conf in
  ∃ (sd mn dn dv me gc : pyval) (root : string),
    conf' !! "seed" = Some sd ∧ conf' !! "save_root" = Some (VStr root) ∧
    conf' !! "model_name" = Some mn ∧ conf' !! "dataset_name" = Some dn ∧
    conf' !! "devices" = Some dv ∧ conf' !! "max_epochs" = Some me ∧
    conf' !! "gradient_clip_val" = Some gc ∧
    seed_everything sd = Ok () ∧
    init_logger (logger_at conf' sd mn dn root) = Ok () ∧
    r = setup_at conf' sd mn dn dv me gc root.
Proof.
  intros H conf'.
  assert (∃ (sd mn dn : pyval) (root : string),
            conf' !! "seed" = Some sd ∧ conf' !! "save_root" = Some (VStr root) ∧
            conf' !! "model_name" = Some mn ∧ conf' !! "dataset_name" = Some dn ∧
            seed_everything sd = Ok ())
    as (sd & mn & dn & root & Hsd & Hroot & Hmn & Hdn & Hseed).
  { revert H. unfold train_func. fold conf'. intros H.
    apply bind_Ok in H as (sd & Hsd%getitem_Ok & H).
    apply bind_Ok in H as ([] & Hseed & H).
    apply bind_Ok in H as (sr & Hsr%getitem_Ok & H).
    apply bind_Ok in H as (mn & Hmn%getitem_Ok & H).
    apply bind_Ok in H as (dn & Hdn%getitem_Ok & H).
    apply bind_Ok in H as (sub_dir & _ & H).
    apply bind_Ok in H as (root & ->%as_path_Ok & _).
    rewrite lookup_insert_ne in Hsd, Hsr, Hmn, Hdn by done.
    exists sd, mn, dn, root.
    exact (conj Hsd (conj Hsr (conj Hmn (conj Hdn Hseed)))). }
  rewrite (train_func_logger hyper_conf conf sd mn dn root Hsd Hroot Hmn Hdn Hseed) in H.
  fold conf' in H.
  apply bind_Ok in H as ([] & Hlogger & H). cbv zeta in H.
  apply bind_Ok in H as (dv & Hdv%getitem_Ok & H).
  apply bind_Ok in H as (me & Hme%getitem_Ok & H).
  apply bind_Ok in H as (gc & Hgc%getitem_Ok & H).
  rewrite !lookup_insert_ne in Hdv, Hme, Hgc by done.
  injection H as <-.
  exists sd, mn, dn, dv, me, gc, root.
  exact (conj Hsd (conj Hroot (conj Hmn (conj Hdn (conj Hdv (conj Hme (conj Hgc
           (conj Hseed (conj Hlogger eq_refl))))))))).
Qed.

End train_func_runs.

Section fusion.
Variable load_module_from_path : string → string → result conf_module.
Variable import_module : string → result conf_module.
Variable eval : string → conf_module → result dict.
Variable cal_conf_hash : dict → nat → string.
Variable float_repr : Qc → string.
Variable seed_everything : pyval → result unit.
Variable init_logger : run_logger → result unit.
Implicit Types (conf hyper_conf E D T : dict).

Lemma format_dataset_conf (s : string) :
  format "data_conf_module.{}_conf" [s] [] = Ok ("data_conf_module." +:+ s +:+ "_conf").
Proof. reflexivity. Qed.

Lemma lookup_later_wins (a b : dict) (k : string) :
  (b ∪ a) !! k = match b !! k with Some v => Some v | None => a !! k end.
Proof. rewrite lookup_union. by destruct (b !! k), (a !! k). Qed.

Lemma apply_hyper_conf_union hyper_conf conf :
  apply_hyper_conf (Some hyper_conf) conf = hyper_conf ∪ conf.
Proof.
  unfold apply_hyper_conf.
  apply (map_fold_weak_ind (λ (r : dict) (m : dict), r = m ∪ conf)).
  - by rewrite (left_id_L ∅ (∪)).
  - intros k v m r _ ->. by rewrite insert_union_l.
Qed.

Lemma apply_hyper_conf_lookup hyper_conf conf k :
  apply_hyper_conf (Some hyper_conf) conf !! k =
  match hyper_conf !! k with Some v => Some v | None => conf !! k end.
Proof. by rewrite apply_hyper_conf_union, lookup_later_wins. Qed.

(** What a successful [train_func] hashed, and the dict it leaves. *)
Lemma train_func_Ok (hyper_conf : option dict) conf r :
  train_func cal_conf_hash float_repr seed_everything init_logger hyper_conf conf = Ok r →
  hash_input r = apply_hyper_conf hyper_conf conf ∧
  ∃ exp_dir,
    conf_after r =
      <["exp_dir" := VStr exp_dir]>
        (<["conf_hash" := VStr (cal_conf_hash (apply_hyper_conf hyper_conf conf) 10)]>
           (apply_hyper_conf hyper_conf conf)).
Proof.
  unfold train_func. intros H.
  repeat bind_inv H.
  injection H as <-. simpl. split; [done|]. by eexists.
Qed.

(** C2. The configuration [load_config] returns holds, at each key, the
    value of the experiment record when it has the key, else that of the
    dataset defaults when they have it, else that of the task defaults;
    and [train_func] lays its override record over the configuration it is
    given, the override winning at each of its keys: that is the dict it
    hashes, and the dict it leaves but for [conf_hash] and [exp_dir]. And
    it does so on every input that lets it run: when the record and the
    configuration between them set the keys it reads and the calls into
    Lightning go through, [train_func] succeeds with the override
    applied. *)
Theorem load_config_priority (path : string) (exp_module task_module data_module : conf_module)
    E T D (name : pyval) :
  load_module_from_path "exp_conf" path = Ok exp_module →
  exp_module !! "exp_conf" = Some E →
  import_module "config.base_conf.task" = Ok task_module →
  task_module !! "task_conf" = Some T →
  import_module "config.base_conf.datasets" = Ok data_module →
  E !! "dataset_name" = Some name →
  eval ("data_conf_module." +:+ str float_repr name +:+ "_conf") data_module = Ok D →
  ∃ fused,
    load_config load_module_from_path import_module eval float_repr path = Ok fused ∧
    (∀ k, fused !! k =
          match E !! k with
          | Some v => Some v
          | None => match D !! k with Some v => Some v | None => T !! k end
          end) ∧
    (∀ hyper_conf r,
       train_func cal_conf_hash float_repr seed_everything init_logger (Some hyper_conf) fused = Ok r →
       ∀ k, (hash_input r !! k =
               match hyper_conf !! k with Some v => Some v | None => fused !! k end) ∧
            (k ≠ "conf_hash" → k ≠ "exp_dir" → conf_after r !! k = hash_input r !! k)) ∧
    (∀ hyper_conf (sd mn dn dv me gc : pyval) (root : string),
       let over k := match hyper_conf !! k with Some v => Some v | None => fused !! k end in
       over "seed" = Some sd → over "save_root" = Some (VStr root) →
       over "model_name" = Some mn → over "dataset_name" = Some dn →
       over "devices" = Some dv → over "max_epochs" = Some me →
       over "gradient_clip_val" = Some gc →
       seed_everything sd = Ok () → (∀ l, init_logger l = Ok ()) →
       ∃ r, train_func cal_conf_hash float_repr seed_everything init_logger
              (Some hyper_conf) fused = Ok r ∧
            ∀ k, (hash_input r !! k = over k) ∧
                 (k ≠ "conf_hash" → k ≠ "exp_dir" → conf_after r !! k = over k)).
Proof.
  intros Hexp HE Htask HT Hdata Hname HD.
  exists (E ∪ (D ∪ T)). split; [|split; [|split]].
  - unfold load_config.
    rewrite Hexp, bind_Ok_l, (getattr_lookup _ _ _ HE), bind_Ok_l.
    rewrite Htask, bind_Ok_l, (getattr_lookup _ _ _ HT), bind_Ok_l.
    rewrite Hdata, bind_Ok_l, (getitem_lookup _ _ _ Hname), bind_Ok_l.
    by rewrite format_dataset_conf, bind_Ok_l, HD.
  - intros k. by rewrite !lookup_later_wins.
  - intros hyper_conf r Hr k.
    destruct (train_func_Ok _ _ _ Hr) as (Hhash & exp_dir & Hafter).
    rewrite Hhash, Hafter. split.
    + apply apply_hyper_conf_lookup.
    + intros Hk1 Hk2. by rewrite !lookup_insert_ne.
  - intros hyper_conf sd mn dn dv me gc root over Hsd Hroot Hmn Hdn Hdv Hme Hgc Hseed Hlogger.
    assert (∀ k, apply_hyper_conf (Some hyper_conf) (E ∪ (D ∪ T)) !! k = over k) as Hover
      by (intros k; apply apply_hyper_conf_lookup).
    eexists. split.
    + apply (train_func_computes cal_conf_hash float_repr seed_everything init_logger
               (Some hyper_conf) (E ∪ (D ∪ T)) sd mn dn dv me gc root);
        rewrite ?Hover; auto.
    + intros k. cbn [hash_input conf_after]. split; [apply Hover|].
      intros Hk1 Hk2. rewrite !lookup_insert_ne by done. apply Hover.
Qed.

(** C9, as the code has it. The dict [train_func] hashes is the
    configuration with the override record applied and nothing else: it is
    taken before [conf_hash] and [exp_dir] are attached, so it holds
    [exp_dir] exactly when the configuration or the override record handed
    in already does. *)
Theorem train_func_hash_input (hyper_conf : option dict) conf r :
  train_func cal_conf_hash float_repr seed_everything init_logger hyper_conf conf = Ok r →
  hash_input r = apply_hyper_conf hyper_conf conf ∧
  (∀ k, hash_input r !! k =
        match hyper_conf ≫= (.!! k) with Some v => Some v | None => conf !! k end) ∧
  conf_after r !! "conf_hash" = Some (VStr (cal_conf_hash (hash_input r) 10)) ∧
  is_Some (conf_after r !! "exp_dir") ∧
  (hash_input r !! "exp_dir" = None ↔
   conf !! "exp_dir" = None ∧ ∀ h, hyper_conf = Some h → h !! "exp_dir" = None).
Proof.
  intros Hr. destruct (train_func_Ok _ _ _ Hr) as (Hhash & exp_dir & Hafter).
  assert (∀ k, hash_input r !! k =
               match hyper_conf ≫= (.!! k) with Some v => Some v | None => conf !! k end) as Hk.
  { intros k. rewrite Hhash. destruct hyper_conf as [h|]; simpl.
    - apply apply_hyper_conf_lookup.
    - done. }
  split; [done|]. split; [done|]. split; [|split].
  - by rewrite Hafter, lookup_insert_ne, lookup_insert_eq, Hhash.
  - rewrite Hafter, lookup_insert_eq. by eexists.
  - rewrite Hk. destruct hyper_conf as [h|]; simpl.
    + destruct (h !! "exp_dir") eqn:Hh; split.
      * discriminate.
      * intros [_ Hnone]. by rewrite (Hnone h eq_refl) in Hh.
      * intros Hc. split; [done|]. by intros h' [= <-].
      * by intros [Hc _].
    + split; [|by intros [Hc _]]. by intros Hc.
Qed.

End fusion.

(** The three layers of the sample installation, fused. *)
Lemma load_config_priority_witness :
  load_config sample_load_module_from_path sample_import_module
    (eval_attribute "data_conf_module") sample_float_repr sample_path
  = Ok sample_fused_conf ∧
  (∀ k, sample_fused_conf !! k =
        match sample_exp_conf !! k with
        | Some v => Some v
        | None => match sample_AAPL_conf !! k with
                  | Some v => Some v
                  | None => sample_task_conf !! k
                  end
        end) ∧
  ∃ r, train_func sample_cal_conf_hash sample_float_repr sample_seed_everything
         sample_init_logger (Some sample_training_conf) sample_fused_conf = Ok r ∧
       ∀ k, (hash_input r !! k =
               match sample_training_conf !! k with
               | Some v => Some v
               | None => sample_fused_conf !! k
               end) ∧
            (k ≠ "conf_hash" → k ≠ "exp_dir" →
             conf_after r !! k =
               match sample_training_conf !! k with
               | Some v => Some v
               | None => sample_fused_conf !! k
               end).
Proof.
  assert (sample_load_module_from_path "exp_conf" sample_path
          = Ok {[ "exp_conf" := sample_exp_conf ]}) as Hexp by by_evaluation.
  assert (({[ "exp_conf" := sample_exp_conf ]} : conf_module) !! "exp_conf"
          = Some sample_exp_conf) as HE by by_evaluation.
  assert (sample_import_module "config.base_conf.task"
          = Ok {[ "task_conf" := sample_task_conf ]}) as Htask by by_evaluation.
  assert (({[ "task_conf" := sample_task_conf ]} : conf_module) !! "task_conf"
          = Some sample_task_conf) as HT by by_evaluation.
  assert (sample_import_module "config.base_conf.datasets"
          = Ok {[ "AAPL_conf" := sample_AAPL_conf ]}) as Hdata by by_evaluation.
  assert (sample_exp_conf !! "dataset_name" = Some (VStr "AAPL")) as Hname
    by by_evaluation.
  assert (eval_attribute "data_conf_module"
            ("data_conf_module." +:+ str sample_float_repr (VStr "AAPL") +:+ "_conf")
            {[ "AAPL_conf" := sample_AAPL_conf ]} = Ok sample_AAPL_conf) as HD
    by by_evaluation.
  assert (load_config sample_load_module_from_path sample_import_module
            (eval_attribute "data_conf_module") sample_float_repr sample_path
          = Ok sample_fused_conf) as Hfused by by_evaluation.
  destruct (load_config_priority sample_load_module_from_path sample_import_module
              (eval_attribute "data_conf_module") sample_cal_conf_hash sample_float_repr
              sample_seed_everything sample_init_logger
              sample_path _ _ _ sample_exp_conf sample_task_conf sample_AAPL_conf (VStr "AAPL")
              Hexp HE Htask HT Hdata Hname HD) as (fused & Hload & Hpriority & _ & Hruns).
  rewrite Hfused in Hload. injection Hload as <-.
  split; [reflexivity|]. split; [exact Hpriority|].
  apply (Hruns sample_training_conf (VInt 1) (VStr "DenseRMoK") (VStr "AAPL") (VStr "0,")
           (VInt 20) (VInt 1) "save"); try by_evaluation.
  intros l. reflexivity.
Defined.

Example fused_conf_values :
  load_config sample_load_module_from_path sample_import_module
    (eval_attribute "data_conf_module") sample_float_repr sample_path = Ok sample_fused_conf ∧
  sample_fused_conf !! "hist_len" = Some (VInt 60) ∧
  sample_fused_conf !! "max_epochs" = Some (VInt 20) ∧
  sample_fused_conf !! "gradient_clip_val" = Some (VInt 1).
Proof. repeat split; by_evaluation. Qed.

(** A first call of [train_func], as the command line makes it. *)
Lemma train_func_hash_input_witness :
  ∃ r, train_func sample_cal_conf_hash sample_float_repr sample_seed_everything
      sample_init_logger
         (Some sample_training_conf) sample_fused_conf = Ok r ∧
       hash_input r = sample_training_conf ∪ sample_fused_conf ∧
       hash_input r !! "exp_dir" = None ∧
       is_Some (conf_after r !! "exp_dir").
Proof.
  destruct (train_func sample_cal_conf_hash sample_float_repr sample_seed_everything
      sample_init_logger
              (Some sample_training_conf) sample_fused_conf) as [r|e] eqn:Hr.
  - exists r. split; [done|].
    destruct (train_func_hash_input sample_cal_conf_hash sample_float_repr
                sample_seed_everything sample_init_logger _ _ _ Hr)
      as (Hhash & _ & _ & Hdir & Hiff).
    split; [by rewrite Hhash, apply_hyper_conf_union|]. split; [|done].
    apply Hiff. split; [by_evaluation|].
    intros h [= <-]. by_evaluation.
  - exfalso. revert Hr. vm_compute. discriminate.
Defined.

(** The claim of C9 as stated fails for a configuration that already holds
    [exp_dir]: the dict [train_func] leaves behind is the caller's, so a
    second call on it hashes the [exp_dir] (and the [conf_hash]) of the
    first; and so does a first call on a record that sets [exp_dir]. *)
Lemma train_func_hashes_exp_dir :
  (r1 ← train_func sample_cal_conf_hash sample_float_repr sample_seed_everything
      sample_init_logger
          (Some sample_training_conf) sample_fused_conf;
   r2 ← train_func sample_cal_conf_hash sample_float_repr sample_seed_everything
      sample_init_logger
          (Some sample_training_conf) (conf_after r1);
   Ok (hash_input r1 !! "exp_dir", conf_after r1 !! "exp_dir", hash_input r2 !! "exp_dir"))
  = Ok (None, Some (VStr "save/DenseRMoK_AAPL/1601234567/seed_1"),
        Some (VStr "save/DenseRMoK_AAPL/1601234567/seed_1")) ∧
  (r3 ← train_func sample_cal_conf_hash sample_float_repr sample_seed_everything
      sample_init_logger
          (Some sample_training_conf) (<["exp_dir" := VStr "runs/1"]> sample_fused_conf);
   Ok (hash_input r3 !! "exp_dir"))
  = Ok (Some (VStr "runs/1")).
Proof.
  split; by_evaluation.
Qed.

(** *** The batch generator of configuration files *)

Section generator.
Import GenSpec.

Lemma for_each_total {A S} (f : S → A → result S) (g : S → A → S) (l : list A) (st : S) :
  (∀ st x, x ∈ l → f st x = Ok (g st x)) →
  for_each f st l = Ok (foldl g st l).
Proof.
  revert st. induction l as [|x l IH]; intros st Hf; simpl; [done|].
  rewrite Hf by set_solver. simpl. apply IH. intros st' y Hy. apply Hf. set_solver.
Qed.

Lemma append_assoc (a b c : string) : (a +:+ b) +:+ c = a +:+ (b +:+ c).
Proof.
  induction a as [|x a IH]; [done|].
  change (String x ((a +:+ b) +:+ c) = String x (a +:+ (b +:+ c))). by f_equal.
Qed.

(** Formatting the template, for any symbol whatever. *)
Lemma format_template (symbol : string) :
  format template_content [] [("dataset", symbol)] = Ok (file_text symbol).
Proof.
  unfold file_text, unlines. cbn [foldr]. rewrite !append_assoc.
  vm_compute. reflexivity.
Qed.

Lemma prefix_sep_cons (c : ascii) (x : string) :
  String.prefix "/" (String c x) = if ascii_dec "/" c then true else false.
Proof.
  change (String.prefix "/" (String c x))
    with (if ascii_dec "/" c then String.prefix "" x else false).
  destruct (ascii_dec "/" c); [by destruct x | done].
Qed.

Lemma os_path_join_symbol (symbol : string) :
  String.prefix "/" symbol = false →
  os_path_join output_dir [symbol +:+ "_30for1.py"] = file_name symbol.
Proof.
  intros Hrel. unfold os_path_join, join2. cbn [foldl].
  assert (String.prefix "/" (symbol +:+ "_30for1.py") = false) as ->.
  { destruct symbol as [|c s]; [done|].
    change (String c s +:+ "_30for1.py") with (String c (s +:+ "_30for1.py")).
    by rewrite prefix_sep_cons in *. }
  unfold file_name. rewrite <-append_assoc. reflexivity.
Qed.

Lemma generate_config_file_planned (w : world) (symbol : string) :
  String.prefix "/" symbol = false →
  generate_config_file w symbol = Ok (planned_step w symbol).
Proof.
  intros Hrel. unfold generate_config_file.
  by rewrite format_template, bind_Ok_l, (os_path_join_symbol _ Hrel).
Qed.

Lemma ticker_symbols_relative :
  Forall (λ symbol, String.prefix "/" symbol = false) ticker_symbols.
Proof. by_evaluation. Qed.

Lemma generate_config_files_planned (w : world) :
  generate_config_files w = Ok (generated w).
Proof.
  unfold generate_config_files. apply for_each_total.
  intros st symbol Hin. apply generate_config_file_planned.
  by apply (proj1 (Forall_forall _ _) ticker_symbols_relative).
Qed.

Lemma files_planned (symbols : list string) (w : world) :
  files (foldl planned_step w symbols) = planned_files symbols ∪ files w.
Proof.
  revert w. induction symbols as [|s symbols IH]; intros w.
  - unfold planned_files. simpl. by rewrite (left_id_L ∅ (∪)).
  - simpl. rewrite IH. unfold planned_files, planned_step. simpl.
    rewrite reverse_cons, list_to_map_app. simpl.
    rewrite <-(assoc_L (∪)). f_equal.
    rewrite insert_empty. by rewrite <-insert_union_singleton_l.
Qed.

Lemma dirs_planned (symbols : list string) (w : world) :
  dirs (foldl planned_step w symbols) = dirs w.
Proof. revert w. induction symbols as [|s symbols IH]; intros w; simpl; [done|]. by rewrite IH. Qed.

Lemma planned_files_lookup : 
  Forall (λ symbol, planned_files ticker_symbols !! file_name symbol = Some (file_text symbol))
         ticker_symbols.
Proof. by_evaluation. Qed.

Lemma planned_files_code_lines :
  Forall (λ symbol, code_lines (file_text symbol) = record_lines symbol) ticker_symbols.
Proof. by_evaluation. Qed.

Lemma planned_files_None (symbols : list string) (path : string) :
  path ∉ file_name <$> symbols → planned_files symbols !! path = None.
Proof.
  intros Hpath. unfold planned_files. apply not_elem_of_list_to_map_1.
  rewrite <-fmap_reverse, <-list_fmap_compose. intros Hin.
  apply list_elem_of_fmap in Hin as (s & Heq & Hs).
  rewrite !elem_of_reverse in Hs.
  apply Hpath. rewrite Heq. by apply (list_elem_of_fmap_2 file_name).
Qed.

Lemma files_generated (w : world) :
  files (generated w) = planned_files ticker_symbols ∪ files w.
Proof. unfold generated. by rewrite files_planned. Qed.

Lemma dirs_generated (w : world) : dirs (generated w) = {[output_dir]} ∪ dirs w.
Proof. unfold generated. by rewrite dirs_planned. Qed.

Lemma planned_files_size : size (planned_files ticker_symbols) = 20%nat.
Proof. by_evaluation. Qed.

Lemma planned_files_dom :
  dom (planned_files ticker_symbols) = list_to_set (file_name <$> ticker_symbols).
Proof. by_evaluation. Qed.

Lemma ticker_symbols_NoDup : NoDup ticker_symbols.
Proof. by_evaluation. Qed.

Lemma file_name_in_output_dir (symbol : string) :
  file_name symbol = output_dir +:+ "/" +:+ symbol +:+ "_30for1.py".
Proof. reflexivity. Qed.

(** C8. Over the 20 distinct ticker symbols, the generator started on an
    empty file system leaves exactly 20 files, those named
    [/config/reproduce_conf/RMoK/{SYMBOL}_30for1.py], in the directory it
    made sure exists. On any file system it succeeds, the file of each
    symbol holds the template with the symbol filled in, whose code lines
    are the record with [model_name="DenseRMoK"], [dataset_name] the symbol,
    [hist_len=60], [pred_len=1], [revin_affine=False], [lr=0.001]; every
    other file is left as it was; and running it again leaves the same
    files, rewritten in place. *)
Theorem generate_config_files_spec :
  length ticker_symbols = 20%nat ∧ NoDup ticker_symbols ∧
  (∃ w, generate_config_files empty_world = Ok w ∧
        size (files w) = 20%nat ∧
        dom (files w) = list_to_set (file_name <$> ticker_symbols) ∧
        output_dir ∈ dirs w) ∧
  (∀ w0, ∃ w1 w2,
     generate_config_files w0 = Ok w1 ∧
     generate_config_files w1 = Ok w2 ∧
     files w2 = files w1 ∧
     (∀ symbol, symbol ∈ ticker_symbols →
        file_name symbol = output_dir +:+ "/" +:+ symbol +:+ "_30for1.py" ∧
        files w1 !! file_name symbol = Some (file_text symbol) ∧
        code_lines (file_text symbol) = record_lines symbol) ∧
     (∀ path, path ∉ file_name <$> ticker_symbols → files w1 !! path = files w0 !! path)).
Proof.
  split; [reflexivity|]. split; [exact ticker_symbols_NoDup|]. split.
  - exists (generated empty_world). split; [apply generate_config_files_planned|].
    rewrite files_generated, dirs_generated.
    replace (files empty_world) with (∅ : gmap string string) by reflexivity.
    rewrite (right_id_L ∅ (∪)).
    split; [exact planned_files_size|]. split; [exact planned_files_dom|]. set_solver.
  - intros w0. exists (generated w0), (generated (generated w0)).
    split; [apply generate_config_files_planned|].
    split; [apply generate_config_files_planned|].
    rewrite !files_generated. split; [|split].
    + by rewrite (assoc_L (∪)), (idemp_L (∪)).
    + intros symbol Hin. split; [apply file_name_in_output_dir|]. split.
      * rewrite lookup_union_l'.
        -- by apply (proj1 (Forall_forall _ _) planned_files_lookup).
        -- rewrite (proj1 (Forall_forall _ _) planned_files_lookup _ Hin). by eexists.
      * by apply (proj1 (Forall_forall _ _) planned_files_code_lines).
    + intros path Hpath. by rewrite lookup_union_r by (by apply planned_files_None).
Qed.

(** The file of AAPL after a run on the empty file system, and after a
    second run. *)
Lemma generate_config_files_spec_witness :
  ∃ w1 w2,
    generate_config_files empty_world = Ok w1 ∧
    generate_config_files w1 = Ok w2 ∧
    files w2 = files w1 ∧
    files w1 !! file_name "AAPL" = Some (file_text "AAPL") ∧
    code_lines (file_text "AAPL") = record_lines "AAPL".
Proof.
  destruct generate_config_files_spec as (_ & _ & _ & Hany).
  destruct (Hany empty_world) as (w1 & w2 & H1 & H2 & Hsame & Hfile & _).
  assert ("AAPL" ∈ ticker_symbols) as Hin by by_evaluation.
  destruct (Hfile "AAPL" Hin) as (_ & Htext & Hlines).
  exists w1, w2.
  exact (conj H1 (conj H2 (conj Hsame (conj Htext Hlines)))).
Defined.

Example AAPL_file :
  generate_config_files empty_world ≫= (λ w, Ok (files w !! (output_dir +:+ "/AAPL_30for1.py")))
  = Ok (Some (file_text "AAPL")) ∧
  code_lines (file_text "AAPL") =
    ["exp_conf = dict("; "model_name=" +:+ dq +:+ "DenseRMoK" +:+ dq +:+ ",";
     "dataset_name='AAPL',"; "hist_len=60,"; "pred_len=1,"; "revin_affine=False,";
     "lr=0.001,"; ")"].
Proof. split; by_evaluation. Qed.

End generator.

(** *** More on the trading-strategy evaluation *)

Section trading_more.
Import TradingSpec TradingMore.

Lemma for_each_ext {A S} (f g : S → A → result S) (l : list A) (st : S) :
  (∀ st x, x ∈ l → f st x = g st x) → for_each f st l = for_each g st l.
Proof.
  revert st. induction l as [|x l IH]; intros st Hfg; simpl; [done|].
  rewrite Hfg by set_solver. destruct (g st x) as [st'|e]; simpl; [|done].
  apply IH. intros st'' y Hy. apply Hfg. set_solver.
Qed.

Lemma index_None {A} (l : list A) (i : nat) :
  (length l ≤ i)%nat → index l i = Raise IndexError.
Proof. intros Hi. unfold index. by rewrite lookup_ge_None_2. Qed.

(** The loop over the first [n] days, when all three sequences have them
    and none of these days has a zero price. *)
Lemma strategy_loop_upto (predicted tomorrow today : list Qc) (n : nat) :
  (n ≤ length predicted)%nat → (n ≤ length tomorrow)%nat → (n ≤ length today)%nat →
  (∀ i, (i < n)%nat → today !! i ≠ Some 0) →
  for_each (strategy_step predicted tomorrow today) strategy_init (seq 0 n)
  = Ok (locals_after (take n (days predicted tomorrow today))).
Proof.
  intros Hp Ht Hd. induction n as [|n IH]; intros Hnz; [done|].
  rewrite seq_S, for_each_app, IH by (try lia; intros i Hi; apply Hnz; lia). simpl.
  destruct (lookup_lt_is_Some_2 predicted n) as [pr Hpr]; [lia|].
  destruct (lookup_lt_is_Some_2 tomorrow n) as [tm Htm]; [lia|].
  destruct (lookup_lt_is_Some_2 today n) as [td Htd]; [lia|].
  assert (td ≠ 0) as Hne by (intros ->; by apply (Hnz n); [lia|]).
  rewrite (strategy_step_after _ _ _ _ _ _ _ _ Hpr Htm Htd Hne). simpl.
  by rewrite (take_S_r _ _ _ (days_lookup _ _ _ _ _ _ _ Hpr Htm Htd)).
Qed.

Lemma truediv_zero (x : Qc) : truediv x 0 = Raise ZeroDivisionError.
Proof. unfold truediv. by destruct (decide (0 = 0)). Qed.

Lemma strategy_step_zero (predicted tomorrow today : list Qc) st i :
  (i < length predicted)%nat → (i < length tomorrow)%nat → today !! i = Some 0 →
  strategy_step predicted tomorrow today st i = Raise ZeroDivisionError.
Proof.
  intros Hp Ht Hd. unfold strategy_step.
  destruct (lookup_lt_is_Some_2 predicted i Hp) as [pr Hpr].
  destruct (lookup_lt_is_Some_2 tomorrow i Ht) as [tm Htm].
  rewrite (index_lookup _ _ _ Hpr), (index_lookup _ _ _ Htm), (index_lookup _ _ _ Hd).
  rewrite !bind_Ok_l. cbv zeta. by rewrite truediv_zero.
Qed.

Lemma strategy_step_nonzero (predicted tomorrow today : list Qc) st i :
  (i < length predicted)%nat → (i < length tomorrow)%nat → (i < length today)%nat →
  today !! i ≠ Some 0 →
  ∃ st', strategy_step predicted tomorrow today st i = Ok st'.
Proof.
  intros Hp Ht Hd Hnz. unfold strategy_step.
  destruct (lookup_lt_is_Some_2 predicted i Hp) as [pr Hpr].
  destruct (lookup_lt_is_Some_2 tomorrow i Ht) as [tm Htm].
  destruct (lookup_lt_is_Some_2 today i Hd) as [td Htd].
  assert (td ≠ 0) as Hne by (intros ->; done).
  rewrite (index_lookup _ _ _ Hpr), (index_lookup _ _ _ Htm), (index_lookup _ _ _ Htd).
  rewrite !bind_Ok_l. cbv zeta. rewrite truediv_nonzero by done. rewrite bind_Ok_l.
  by eexists.
Qed.

Lemma strategy_step_short (predicted tomorrow today : list Qc) st i :
  (i < length predicted)%nat →
  (length tomorrow ≤ i)%nat ∨ (length today ≤ i)%nat →
  strategy_step predicted tomorrow today st i = Raise IndexError.
Proof.
  intros Hp Hshort. unfold strategy_step.
  destruct (lookup_lt_is_Some_2 predicted i Hp) as [pr Hpr].
  rewrite (index_lookup _ _ _ Hpr). simpl.
  destruct (decide (length tomorrow ≤ i)%nat) as [Ht|Ht].
  - by rewrite (index_None tomorrow i Ht).
  - destruct (lookup_lt_is_Some_2 tomorrow i) as [tm Htm]; [lia|].
    rewrite (index_lookup _ _ _ Htm). simpl.
    rewrite (index_None today i) by (destruct Hshort; [lia|done]). done.
Qed.

(** Among equally long sequences the only failure is the division. *)
Lemma strategy_loop_zero (predicted tomorrow today : list Qc) (l : list nat) st :
  length tomorrow = length predicted →
  length today = length predicted →
  Forall (λ i, (i < length predicted)%nat) l →
  Exists (λ i, today !! i = Some 0) l →
  for_each (strategy_step predicted tomorrow today) st l = Raise ZeroDivisionError.
Proof.
  intros Ht Hd. revert st. induction l as [|i l IH]; intros st Hin Hex.
  - by apply Exists_nil in Hex.
  - apply Forall_cons in Hin as [Hi Hin]. cbn [for_each].
    destruct (decide (today !! i = Some 0)) as [Hz|Hz].
    + rewrite strategy_step_zero by (done || lia). done.
    + destruct (strategy_step_nonzero predicted tomorrow today st i) as [st' ->];
        [lia..|done|].
      rewrite bind_Ok_l. apply IH; [done|].
      apply Exists_cons in Hex as [Hex|Hex]; [done|done].
Qed.

(** X1. A zero among today's prices makes the evaluation of equally long
    sequences fail with [ZeroDivisionError]: no metric is returned. *)
Theorem evaluate_trading_strategy_zero_price (predicted tomorrow today : list Qc) :
  length tomorrow = length predicted →
  length today = length predicted →
  0 ∈ today →
  evaluate_trading_strategy predicted tomorrow today = Raise ZeroDivisionError.
Proof.
  intros Ht Hd Hz. unfold evaluate_trading_strategy.
  rewrite (strategy_loop_zero _ _ _ _ _ Ht Hd); [done| |].
  - apply Forall_forall. intros i Hi%elem_of_seq. lia.
  - apply list_elem_of_lookup in Hz as [i Hi]. apply Exists_exists. exists i. split; [|done].
    apply elem_of_seq. apply lookup_lt_Some in Hi. lia.
Qed.

(** X2. When the true-price sequences are shorter than the predictions
    (and hold no zero price), the evaluation fails with [IndexError]: the
    loop runs over the predictions and indexes the other two. *)
Theorem evaluate_trading_strategy_short (predicted tomorrow today : list Qc) :
  (length tomorrow < length predicted)%nat ∨ (length today < length predicted)%nat →
  0 ∉ today →
  evaluate_trading_strategy predicted tomorrow today = Raise IndexError.
Proof.
  intros Hshort Hnz. unfold evaluate_trading_strategy.
  set (k := (length tomorrow `min` length today)%nat).
  assert (k < length predicted)%nat as Hk by lia.
  replace (length predicted) with (k + S (length predicted - S k))%nat by lia.
  rewrite seq_app, for_each_app.
  rewrite strategy_loop_upto; [|lia|lia|lia|].
  - simpl. rewrite strategy_step_short; [done|lia|lia].
  - intros i _ Hi. apply Hnz. by apply list_elem_of_lookup_2 in Hi.
Qed.

(** X3. Only the first [len(predictions_tomorrow)] entries of the two
    true-price sequences are read: longer sequences give the same result
    as their truncations. *)
Theorem evaluate_trading_strategy_truncates (predicted tomorrow today : list Qc) :
  evaluate_trading_strategy predicted tomorrow today =
  evaluate_trading_strategy predicted (take (length predicted) tomorrow)
    (take (length predicted) today).
Proof.
  unfold evaluate_trading_strategy. f_equal. apply for_each_ext.
  intros st i Hi%elem_of_seq. unfold strategy_step, index.
  by rewrite !lookup_take_lt by lia.
Qed.

(** X4. With no prediction at all the loop does not run: the mean of no
    return is [nan], the cumulative return and the total profit are 0 and
    there is no loss day, whatever the other two sequences hold. *)
Theorem evaluate_trading_strategy_empty (tomorrow today : list Qc) :
  evaluate_trading_strategy [] tomorrow today =
  Ok {| average_daily_return := NaN; cumulative_return := 0;
        loss_days := 0; total_profits := 0 |}.
Proof.
  unfold evaluate_trading_strategy. simpl. by do 2 f_equal.
Qed.

Lemma Qcdiv_neg (x y : Qc) : 0 < y → x / y < 0 ↔ x < 0.
Proof.
  intros Hy. unfold Qcdiv.
  rewrite (Qcmult_lt_mono_pos_r x 0 (/ y)) by (by apply Qcinv_pos).
  by rewrite Qcmult_0_l.
Qed.

Lemma Qcminus_neg (a b : Qc) : a - b < 0 ↔ a < b.
Proof.
  rewrite (Qcplus_lt_mono_r (a - b) 0 b).
  by replace (a - b + b) with a by ring; rewrite Qcplus_0_l.
Qed.

Lemma daily_return_negative (d : day) :
  0 < d.2.2 → daily_return d < 0 ↔ wrong_direction d.
Proof.
  destruct d as [pr [tm td]]. simpl. intros Htd.
  unfold daily_return, wrong_direction, profit. simpl.
  rewrite (Qcdiv_neg _ _ Htd).
  destruct (decide (td < pr)) as [Hup|Hup]; [|destruct (decide (pr < td)) as [Hdown|Hdown]].
  - rewrite Qcminus_neg. split; [by left|].
    intros [[_ ?]|[Hlt _]]; [done|]. destruct (Qclt_not_eq _ _ (Qclt_trans _ _ _ Hup Hlt)). done.
  - rewrite Qcminus_neg. split; [by right|]. by intros [[? _]|[_ ?]].
  - split; [intros H; by destruct (Qclt_not_eq 0 0 H)|]. by intros [[? _]|[? _]].
Qed.

(** X6. With positive prices a day counts as a loss exactly when the
    position was the wrong one (long before a fall, short before a rise):
    [loss_days] is the number of such days, at most the number of days. *)
Theorem loss_days_wrong_direction (predicted tomorrow today : list Qc) :
  length tomorrow = length predicted →
  length today = length predicted →
  Forall (λ x, 0 < x) today →
  ∃ m, evaluate_trading_strategy predicted tomorrow today = Ok m ∧
       loss_days m = length (filter wrong_direction (days predicted tomorrow today)) ∧
       (loss_days m ≤ length predicted)%nat.
Proof.
  intros Ht Hd Hpos. unfold evaluate_trading_strategy.
  rewrite strategy_loop_upto; [|lia|lia|lia|].
  - eexists. split; [reflexivity|]. simpl.
    rewrite take_ge by (rewrite days_length; done || lia).
    assert (count_negative (daily_return <$> days predicted tomorrow today)
            = length (filter wrong_direction (days predicted tomorrow today))) as ->.
    { unfold count_negative.
      assert (Forall (λ d : day, 0 < d.2.2) (days predicted tomorrow today)) as Hds.
      { apply Forall_lookup. intros i [pr [tm td]] Hi. simpl.
        unfold days in Hi. rewrite !lookup_zip_with in Hi.
        destruct (predicted !! i); [|done]. simpl in Hi.
        destruct (tomorrow !! i); [|done]. simpl in Hi.
        destruct (today !! i) as [td'|] eqn:Htd; [|done]. simpl in Hi.
        injection Hi as _ _ <-. by apply (proj1 (Forall_lookup _ _) Hpos i td'). }
      induction Hds as [|d ds Hd0 _ IH]; [done|].
      rewrite fmap_cons, !list.filter_cons.
      destruct (decide (daily_return d < 0)) as [Hneg|Hneg];
        destruct (decide (wrong_direction d)) as [Hw|Hw]; simpl.
      - by rewrite IH.
      - by apply daily_return_negative in Hneg.
      - by apply daily_return_negative in Hw.
      - done. }
    split; [done|]. rewrite <-(days_length predicted tomorrow today) by done.
    apply list.length_filter.
  - intros i _ Hi. apply (proj1 (Forall_lookup _ _) Hpos) in Hi.
    by destruct (Qclt_not_eq 0 0).
Qed.

End trading_more.

(** A zero price on the second of two days. *)
Lemma evaluate_trading_strategy_zero_price_witness :
  evaluate_trading_strategy sample_predicted sample_tomorrow [Qc_of_Z 100; 0]
  = Raise ZeroDivisionError.
Proof.
  apply (evaluate_trading_strategy_zero_price sample_predicted sample_tomorrow [Qc_of_Z 100; 0]).
  - reflexivity.
  - reflexivity.
  - by_evaluation.
Defined.

(** Two predictions against a single true price for tomorrow. *)
Lemma evaluate_trading_strategy_short_witness :
  evaluate_trading_strategy sample_predicted [Qc_of_Z 105] sample_today = Raise IndexError.
Proof.
  apply (evaluate_trading_strategy_short sample_predicted [Qc_of_Z 105] sample_today).
  - left. simpl. lia.
  - by_evaluation.
Defined.

(** The two sample days: the second one, short before a rise, is the loss. *)
Lemma loss_days_wrong_direction_witness :
  ∃ m, evaluate_trading_strategy sample_predicted sample_tomorrow sample_today = Ok m ∧
       loss_days m = length (filter TradingMore.wrong_direction
                               (TradingSpec.days sample_predicted sample_tomorrow sample_today)) ∧
       (loss_days m ≤ length sample_predicted)%nat.
Proof.
  assert (Forall (λ x, 0 < x) sample_today) as Hpos by by_evaluation.
  exact (loss_days_wrong_direction sample_predicted sample_tomorrow sample_today
           eq_refl eq_refl Hpos).
Defined.

(** *** More on the optimizer and the scheduler *)

Section optimizers_more.
Implicit Types hparams : dict.

Lemma number_at_int hparams key (z : Z) :
  hparams !! key = Some (VInt z) → number_at hparams key = Some (Qc_of_Z z).
Proof. unfold number_at. by intros ->. Qed.

Lemma Qc_ratio_unit (a b : Z) :
  (0 < a ≤ b)%Z → 0 < Qc_of_Z a / Qc_of_Z b ∧ Qc_of_Z a / Qc_of_Z b ≤ 1.
Proof.
  intros [Ha Hab].
  assert (0 < Qc_of_Z a) as Ha' by (rewrite <-Z2Qc_inj_0; apply (proj1 (Z2Qc_inj_lt _ _)); lia).
  assert (0 < Qc_of_Z b) as Hb' by (rewrite <-Z2Qc_inj_0; apply (proj1 (Z2Qc_inj_lt _ _)); lia).
  assert (Qc_of_Z b ≠ 0) as Hb0 by (intros Hz; rewrite Hz in Hb'; by apply (Qclt_not_eq 0 0)).
  split.
  - apply Qcmult_pos_pos; [done|]. by apply Qcinv_pos.
  - apply (Qcmult_le_mono_pos_r _ _ (Qc_of_Z b) Hb').
    replace (Qc_of_Z a / Qc_of_Z b * Qc_of_Z b) with (Qc_of_Z a) by (by field).
    rewrite Qcmult_1_l. apply (proj1 (Z2Qc_inj_le a b)). lia.
Qed.

(** X7. With integer hyperparameters in the asserted order, on every
    epoch of a training of [max_epochs] epochs (0 up to [max_epochs - 1]) the
    multiplier is a number above 0 and at most 1: the learning rate never
    exceeds its configured value. *)
Theorem wsd_multiplier_range hparams (w s m e : Z) :
  hparams !! "lr_warmup_end_epochs" = Some (VInt w) →
  hparams !! "lr_stable_end_epochs" = Some (VInt s) →
  hparams !! "max_epochs" = Some (VInt m) →
  (w < s < m)%Z →
  (0 ≤ e < m)%Z →
  ∃ q, wsd_lr_lambda hparams e = Ok (VFloat q) ∧ 0 < q ∧ q ≤ 1.
Proof.
  intros Hw Hs Hm [Hws Hsm] [He0 Hem].
  rewrite (wsd_lr_lambda_numbers hparams _ _ _ e (number_at_int _ _ _ Hw)
             (number_at_int _ _ _ Hs) (number_at_int _ _ _ Hm)).
  destruct (decide (Qc_of_Z e < Qc_of_Z w)) as [Hew%Z2Qc_inj_lt|Hew].
  - assert (Qc_of_Z w ≠ 0) as Hw0.
    { rewrite <-Z2Qc_inj_0. intros Heq%Z2Qc_inj. lia. }
    rewrite truediv_nonzero by done. eexists. split; [reflexivity|].
    apply Qc_ratio_unit. lia.
  - destruct (decide (Qc_of_Z e < Qc_of_Z s)) as [Hes|Hes].
    + exists 1. split; [done|]. split; [done|]. apply Qcle_refl.
    + apply Qcnot_lt_le, Z2Qc_inj_le in Hes.
      rewrite decide_True by (apply (proj1 (Z2Qc_inj_le e m)); lia).
      rewrite <-!Z2Qc_inj_sub.
      assert (Qc_of_Z (m - s) ≠ 0) as Hd0.
      { rewrite <-Z2Qc_inj_0. intros Heq%Z2Qc_inj. lia. }
      rewrite truediv_nonzero by done. eexists. split; [reflexivity|].
      apply Qc_ratio_unit. lia.
Qed.

(** X8. With integer hyperparameters in the asserted order, the multiplier
    is a number on every epoch from 0 to [max_epochs] (it never raises
    there), and it is [None] on every epoch past [max_epochs], where the
    function falls off its last [if]. *)
Theorem wsd_multiplier_defined hparams (w s m e : Z) :
  hparams !! "lr_warmup_end_epochs" = Some (VInt w) →
  hparams !! "lr_stable_end_epochs" = Some (VInt s) →
  hparams !! "max_epochs" = Some (VInt m) →
  (w < s < m)%Z →
  (0 ≤ e)%Z →
  ((e ≤ m)%Z → ∃ q, wsd_lr_lambda hparams e = Ok (VFloat q)) ∧
  ((m < e)%Z → wsd_lr_lambda hparams e = Ok VNone).
Proof.
  intros Hw Hs Hm [Hws Hsm] He0.
  rewrite (wsd_lr_lambda_numbers hparams _ _ _ e (number_at_int _ _ _ Hw)
             (number_at_int _ _ _ Hs) (number_at_int _ _ _ Hm)).
  split.
  - intros Hem.
    destruct (decide (Qc_of_Z e < Qc_of_Z w)) as [Hew%Z2Qc_inj_lt|Hew].
    + assert (Qc_of_Z w ≠ 0) as Hw0.
      { rewrite <-Z2Qc_inj_0. intros Heq%Z2Qc_inj. lia. }
      rewrite truediv_nonzero by done. by eexists.
    + destruct (decide (Qc_of_Z e < Qc_of_Z s)) as [Hes|Hes]; [by eexists|].
      rewrite decide_True by (apply (proj1 (Z2Qc_inj_le e m)); lia).
      rewrite <-!Z2Qc_inj_sub.
      assert (Qc_of_Z (m - s) ≠ 0) as Hd0.
      { rewrite <-Z2Qc_inj_0. intros Heq%Z2Qc_inj. lia. }
      rewrite truediv_nonzero by done. by eexists.
  - intros Hme.
    rewrite decide_False by (intros H%Z2Qc_inj_lt; lia).
    rewrite decide_False by (intros H%Z2Qc_inj_lt; lia).
    rewrite decide_False by (intros H%Z2Qc_inj_le; lia). done.
Qed.

Lemma eq_str_true (v : pyval) (s : string) : eq_str v s = true → v = VStr s.
Proof. destruct v; simpl; try done. by intros ->%bool_decide_eq_true. Qed.

(** X9. The [lr_scheduler] dict that [configure_optimizers] returns names a
    metric to monitor in the ["ReduceLROnPlateau"] branch only, and there
    it is the configured [val_metric]. *)
Theorem configure_optimizers_monitor hparams r :
  configure_optimizers hparams = Ok r →
  ∃ name, hparams !! "lr_scheduler" = Some (VStr name) ∧
          name ∈ lr_scheduler_names ∧
          monitor (lr_scheduler_of r) =
            if decide (name = "ReduceLROnPlateau") then hparams !! "val_metric" else None.
Proof.
  unfold configure_optimizers. intros H.
  apply bind_Ok in H as (opt & _ & H). apply bind_Ok in H as (sc & Hsc & H).
  injection H as <-. simpl.
  unfold select_lr_scheduler in Hsc.
  apply bind_Ok in Hsc as (v & Hv%getattr_Ok & Hsc).
  destruct (eq_str v "StepLR") eqn:E1.
  { apply eq_str_true in E1 as ->. exists "StepLR". split; [done|].
    split; [unfold lr_scheduler_names; set_solver|].
    apply bind_Ok in Hsc as (a & _ & Hsc). apply bind_Ok in Hsc as (b & _ & Hsc).
    by injection Hsc as <-. }
  destruct (eq_str v "MultiStepLR") eqn:E2.
  { apply eq_str_true in E2 as ->. exists "MultiStepLR". split; [done|].
    split; [unfold lr_scheduler_names; set_solver|].
    apply bind_Ok in Hsc as (a & _ & Hsc). apply bind_Ok in Hsc as (b & _ & Hsc).
    by injection Hsc as <-. }
  destruct (eq_str v "ReduceLROnPlateau") eqn:E3.
  { apply eq_str_true in E3 as ->. exists "ReduceLROnPlateau". split; [done|].
    split; [unfold lr_scheduler_names; set_solver|].
    apply bind_Ok in Hsc as (a & _ & Hsc). apply bind_Ok in Hsc as (b & _ & Hsc).
    apply bind_Ok in Hsc as (c & Hc%getattr_Ok & Hsc).
    injection Hsc as <-. simpl. done. }
  destruct (eq_str v "WSD") eqn:E4; [|done].
  apply eq_str_true in E4 as ->. exists "WSD". split; [done|].
  split; [unfold lr_scheduler_names; set_solver|].
  apply bind_Ok in Hsc as (a & _ & Hsc). apply bind_Ok in Hsc as (b & _ & Hsc).
  apply bind_Ok in Hsc as (ordered & _ & Hsc).
  destruct ordered; [|done]. by injection Hsc as <-.
Qed.

(** X10. A hyperparameter that the chosen optimizer needs and the
    configuration lacks is reported as [AttributeError] on its name:
    [optimizer] itself, then [lr], then [optimizer_weight_decay] for Adam
    and [lr_max_iter] for LBFGS. *)
Theorem configure_optimizers_missing hparams :
  (hparams !! "optimizer" = None →
   configure_optimizers hparams = Raise (AttributeError "optimizer")) ∧
  (∀ name, hparams !! "optimizer" = Some (VStr name) → name ∈ optimizer_names →
           hparams !! "lr" = None →
           configure_optimizers hparams = Raise (AttributeError "lr")) ∧
  (∀ lr, hparams !! "optimizer" = Some (VStr "Adam") → hparams !! "lr" = Some lr →
         hparams !! "optimizer_weight_decay" = None →
         configure_optimizers hparams = Raise (AttributeError "optimizer_weight_decay")) ∧
  (∀ lr, hparams !! "optimizer" = Some (VStr "LBFGS") → hparams !! "lr" = Some lr →
         hparams !! "lr_max_iter" = None →
         configure_optimizers hparams = Raise (AttributeError "lr_max_iter")).
Proof.
  unfold configure_optimizers, select_optimizer. split; [|split; [|split]].
  - intros Ho. by rewrite (getattr_None _ _ Ho).
  - intros name Ho Hin Hlr. rewrite (getattr_lookup _ _ _ Ho), bind_Ok_l.
    unfold optimizer_names in Hin.
    apply elem_of_cons in Hin as [->|Hin]; [simpl; by rewrite (getattr_None _ _ Hlr)|].
    apply elem_of_cons in Hin as [->|Hin]; [simpl; by rewrite (getattr_None _ _ Hlr)|].
    apply list_elem_of_singleton in Hin as ->. simpl. by rewrite (getattr_None _ _ Hlr).
  - intros lr Ho Hlr Hwd. rewrite (getattr_lookup _ _ _ Ho), bind_Ok_l. simpl.
    by rewrite (getattr_lookup _ _ _ Hlr), bind_Ok_l, (getattr_None _ _ Hwd).
  - intros lr Ho Hlr Hmi. rewrite (getattr_lookup _ _ _ Ho), bind_Ok_l. simpl.
    by rewrite (getattr_lookup _ _ _ Hlr), bind_Ok_l, (getattr_None _ _ Hmi).
Qed.

End optimizers_more.

(** Epoch 5 of the sample schedule (warmup end 1, stable end 2, 10 epochs). *)
Lemma wsd_multiplier_range_witness :
  ∃ q, wsd_lr_lambda sample_hparams 5 = Ok (VFloat q) ∧ 0 < q ∧ q ≤ 1.
Proof.
  assert (sample_hparams !! "lr_warmup_end_epochs" = Some (VInt 1)) as Hw by by_evaluation.
  assert (sample_hparams !! "lr_stable_end_epochs" = Some (VInt 2)) as Hs by by_evaluation.
  assert (sample_hparams !! "max_epochs" = Some (VInt 10)) as Hm by by_evaluation.
  apply (wsd_multiplier_range sample_hparams 1 2 10 5 Hw Hs Hm); lia.
Defined.

(** Epoch 11 of the same schedule. *)
Lemma wsd_multiplier_defined_witness :
  wsd_lr_lambda sample_hparams 11 = Ok VNone.
Proof.
  assert (sample_hparams !! "lr_warmup_end_epochs" = Some (VInt 1)) as Hw by by_evaluation.
  assert (sample_hparams !! "lr_stable_end_epochs" = Some (VInt 2)) as Hs by by_evaluation.
  assert (sample_hparams !! "max_epochs" = Some (VInt 10)) as Hm by by_evaluation.
  apply (wsd_multiplier_defined sample_hparams 1 2 10 11 Hw Hs Hm); lia.
Defined.

(** The plateau configuration: the monitor is its [val_metric]. *)
Lemma configure_optimizers_monitor_witness :
  ∃ r, configure_optimizers sample_plateau_hparams = Ok r ∧
       monitor (lr_scheduler_of r) = Some (VStr "val/loss").
Proof.
  destruct (configure_optimizers sample_plateau_hparams) as [r|e] eqn:Hr.
  - exists r. split; [done|].
    destruct (configure_optimizers_monitor sample_plateau_hparams r Hr) as (name & Hn & _ & ->).
    assert (sample_plateau_hparams !! "lr_scheduler" = Some (VStr "ReduceLROnPlateau")) as Hn'
      by by_evaluation.
    rewrite Hn' in Hn. injection Hn as <-.
    rewrite decide_True by done. by_evaluation.
  - exfalso. revert Hr. vm_compute. discriminate.
Defined.

(** Adam without [optimizer_weight_decay]. *)
Lemma configure_optimizers_missing_witness :
  configure_optimizers (delete "optimizer_weight_decay" sample_plateau_hparams)
  = Raise (AttributeError "optimizer_weight_decay").
Proof.
  destruct (configure_optimizers_missing (delete "optimizer_weight_decay" sample_plateau_hparams))
    as (_ & _ & H & _).
  apply (H (VFloat (1 / Qc_of_Z 1000))); by_evaluation.
Defined.

(** *** More on model loading *)

Section instancialize_more.
Context {model : Type}.
Implicit Types hparams : dict.



End instancialize_more.

Section model_more.
Context {model : Type}.
Variable import_module : string → string → result (gmap string (model_class model)).
Implicit Types hparams : dict.

(** X12. [load_model] reads [model_name] before anything else: without the
    key it raises [AttributeError], with a value that is not a string
    [TypeError], whatever the importer would do; with a name that resolves
    to a class it returns what [instancialize] builds from that class. *)
Theorem load_model_model_name hparams :
  (hparams !! "model_name" = None →
   load_model import_module hparams = Raise (AttributeError "model_name")) ∧
  (∀ v, hparams !! "model_name" = Some v → (∀ s, v ≠ VStr s) →
        load_model import_module hparams = Raise TypeError) ∧
  (∀ name module Model,
     hparams !! "model_name" = Some (VStr name) →
     import_module ("." +:+ name) "core.model" = Ok module →
     module !! name = Some Model →
     load_model import_module hparams = instancialize hparams Model).
Proof.
  unfold load_model. split; [|split].
  - intros Hn. by rewrite (getattr_None _ _ Hn).
  - intros v Hn Hv. rewrite (getattr_lookup _ _ _ Hn), bind_Ok_l.
    destruct v; try done. by destruct (Hv s).
  - intros name module Model Hn Himp HM.
    rewrite (getattr_lookup _ _ _ Hn), bind_Ok_l. simpl.
    by rewrite Himp, bind_Ok_l, (getattr_lookup _ _ _ HM), bind_Ok_l.
Qed.

End model_more.

(** A numeric [model_name], and the sample configuration's own. *)
Lemma load_model_model_name_witness :
  load_model (import_from sample_package) (<["model_name" := VInt 3]> sample_exp_conf)
    = Raise TypeError ∧
  load_model (import_from sample_package) sample_exp_conf
    = instancialize sample_exp_conf DenseRMoK.
Proof.
  destruct (load_model_model_name (import_from sample_package)
              (<["model_name" := VInt 3]> sample_exp_conf)) as (_ & Hbad & _).
  destruct (load_model_model_name (import_from sample_package) sample_exp_conf)
    as (_ & _ & Hgood).
  split.
  - apply (Hbad (VInt 3)); [by_evaluation | discriminate].
  - apply (Hgood "DenseRMoK" {[ "DenseRMoK" := DenseRMoK ]} DenseRMoK);
      [by_evaluation | reflexivity | reflexivity].
Defined.


(** *** More on the test phase *)

Section test_phase_more.
Implicit Types (r : runner) (os : list test_outputs).

(** X13. [on_test_epoch_end] evaluates every test step the runner has
    taken since it was built, not only those of the last test run: after
    any run of hooks from a fresh runner, it does nothing when no test step
    was taken, and otherwise evaluates the trading strategy over the
    columns of all of them, logs the four metrics and calls the plot with
    the five columns; an error of the evaluation is its error. *)
Theorem on_test_epoch_end_evaluates (hooks : list hook) r :
  run fresh_runner hooks = Ok r →
  let os := test_steps hooks in
  let evaluation :=
    evaluate_trading_strategy (predicted_price_tomorrow <$> os)
      (true_price_tomorrow <$> os) (true_price_today <$> os) in
  (os = [] → on_test_epoch_end r = Ok r) ∧
  (os ≠ [] → ∀ e, evaluation = Raise e → on_test_epoch_end r = Raise e) ∧
  (os ≠ [] → ∀ m, evaluation = Ok m →
     ∃ r', on_test_epoch_end r = Ok r' ∧
           accumulators r' = accumulators r ∧
           events r' = events r ++
             [Log "test/average_daily_return" (average_daily_return m);
              Log "test/cumulative_return" (F64 (cumulative_return m));
              Log "test/loss_days" (nat_metric (loss_days m));
              Log "test/total_profits" (F64 (total_profits m));
              PlotConfidenceVsLoss (confidence_score <$> os) (custom_loss <$> os)
                (predicted_price_tomorrow <$> os) (true_price_tomorrow <$> os)
                (true_price_today <$> os)]).
Proof.
  intros Hrun os evaluation.
  pose proof (run_columns hooks fresh_runner r [] eq_refl Hrun) as Hacc.
  change ([] ++ test_steps hooks) with os in Hacc.
  unfold accumulators, columns in Hacc. injection Hacc as Hp Ht Hd Hc Hl.
  unfold on_test_epoch_end. rewrite Hp, Ht, Hd.
  unfold evaluation. destruct os as [|o os']; simpl.
  - split; [done|]. split; [done|done].
  - split; [done|]. split.
    + intros _ e ->. done.
    + intros _ m ->. simpl. rewrite Hc, Hl. simpl. eexists. split; [reflexivity|].
      split.
      * unfold accumulators. simpl. by rewrite Hp, Ht, Hd, Hc, Hl.
      * simpl. by rewrite <-!app_assoc.
Qed.

End test_phase_more.

(** Two test steps, then the end of the test epoch once more. *)
Lemma on_test_epoch_end_evaluates_witness :
  ∃ r m r',
    run fresh_runner sample_hooks = Ok r ∧
    evaluate_trading_strategy sample_predicted sample_tomorrow sample_today = Ok m ∧
    on_test_epoch_end r = Ok r' ∧
    accumulators r' = accumulators r.
Proof.
  destruct (run fresh_runner sample_hooks) as [r|e] eqn:Hrun;
    [|exfalso; revert Hrun; vm_compute; discriminate].
  destruct (evaluate_trading_strategy sample_predicted sample_tomorrow sample_today)
    as [m|e] eqn:Hm; [|exfalso; revert Hm; vm_compute; discriminate].
  destruct (on_test_epoch_end_evaluates sample_hooks r Hrun) as (_ & _ & Hok).
  destruct (Hok ltac:(discriminate) m Hm) as (r' & Hend & Hacc & _).
  by exists r, m, r'.
Defined.

(** *** More on configuration loading and [train_func] *)


Section load_config_more.
Variable load_module_from_path : string → string → result conf_module.
Variable import_module : string → result conf_module.
Variable eval : string → conf_module → result dict.
Variable float_repr : Qc → string.

(** X14. A configuration that [load_config] returns always holds the
    whole experiment record, its [dataset_name] in particular: nothing the
    experiment file sets is lost or changed by the fusion. *)
Theorem load_config_keeps_experiment (path : string) (fused : dict) :
  load_config load_module_from_path import_module eval float_repr path = Ok fused →
  ∃ exp_module E,
    load_module_from_path "exp_conf" path = Ok exp_module ∧
    exp_module !! "exp_conf" = Some E ∧
    E ⊆ fused ∧
    is_Some (fused !! "dataset_name").
Proof.
  unfold load_config. intros H.
  apply bind_Ok in H as (exp_module & Hexp & H).
  apply bind_Ok in H as (E & HE%getattr_Ok & H).
  apply bind_Ok in H as (task_module & _ & H).
  apply bind_Ok in H as (T & _ & H).
  apply bind_Ok in H as (data_module & _ & H).
  apply bind_Ok in H as (name & Hname%getitem_Ok & H).
  apply bind_Ok in H as (text & _ & H).
  apply bind_Ok in H as (D & _ & H).
  injection H as <-. exists exp_module, E. split; [done|]. split; [done|].
  unfold update, unpack_both. split.
  - apply map_union_subseteq_l.
  - exists name. by apply lookup_union_Some_l.
Qed.

(** X15. [load_config] fails early and by name: the loader's error is
    passed on unchanged; an experiment file without [exp_conf] is an
    [AttributeError]; an [exp_conf] without [dataset_name] is
    [KeyError('dataset_name')], raised once both default modules are
    imported and before any dataset defaults are looked up. *)
Theorem load_config_errors (path : string) :
  (∀ e, load_module_from_path "exp_conf" path = Raise e →
        load_config load_module_from_path import_module eval float_repr path = Raise e) ∧
  (∀ exp_module, load_module_from_path "exp_conf" path = Ok exp_module →
        exp_module !! "exp_conf" = None →
        load_config load_module_from_path import_module eval float_repr path
        = Raise (AttributeError "exp_conf")) ∧
  (∀ exp_module E task_module T data_module,
        load_module_from_path "exp_conf" path = Ok exp_module →
        exp_module !! "exp_conf" = Some E →
        import_module "config.base_conf.task" = Ok task_module →
        task_module !! "task_conf" = Some T →
        import_module "config.base_conf.datasets" = Ok data_module →
        E !! "dataset_name" = None →
        load_config load_module_from_path import_module eval float_repr path
        = Raise (KeyError "dataset_name")).
Proof.
  unfold load_config. split; [|split].
  - by intros e ->.
  - intros exp_module -> Hnone. by rewrite bind_Ok_l, (getattr_None _ _ Hnone).
  - intros exp_module E task_module T data_module -> HE Htask HT Hdata Hname.
    rewrite bind_Ok_l, (getattr_lookup _ _ _ HE), bind_Ok_l.
    rewrite Htask, bind_Ok_l, (getattr_lookup _ _ _ HT), bind_Ok_l.
    rewrite Hdata, bind_Ok_l. unfold getitem. by rewrite Hname.
Qed.

End load_config_more.

Section train_func_more.
Variable cal_conf_hash : dict → nat → string.
Variable float_repr : Qc → string.
Variable seed_everything : pyval → result unit.
Variable init_logger : run_logger → result unit.
Implicit Types (conf : dict) (hyper_conf : option dict).

(** X16. [train_func] reaches the construction of the trainer exactly
    when the configuration, with the override record applied, sets
    [seed], [model_name], [dataset_name], [devices], [max_epochs] and
    [gradient_clip_val], sets [save_root] to a string, [seed_everything]
    accepts the seed and the constructor of the logger chosen by
    [use_wandb] goes through. (The hash function and the constructors of
    the two callbacks are taken to return.) *)
Theorem train_func_required_keys hyper_conf conf :
  let conf' := apply_hyper_conf hyper_conf conf in
  (∃ r, train_func cal_conf_hash float_repr seed_everything init_logger hyper_conf conf
        = Ok r) ↔
  ∃ (sd mn dn : pyval) (root : string),
    conf' !! "seed" = Some sd ∧ conf' !! "save_root" = Some (VStr root) ∧
    conf' !! "model_name" = Some mn ∧ conf' !! "dataset_name" = Some dn ∧
    Forall (λ k, is_Some (conf' !! k)) ["devices"; "max_epochs"; "gradient_clip_val"] ∧
    seed_everything sd = Ok () ∧
    let hash := cal_conf_hash conf' 10 in
    let save_dir := os_path_join root [str float_repr mn +:+ "_" +:+ str float_repr dn] in
    let version := "seed_" +:+ str float_repr sd in
    init_logger (if match conf' !! "use_wandb" with Some v => truthy v | None => false end
                 then WandbLogger save_dir hash version
                 else CSVLogger save_dir hash version) = Ok ().
Proof.
  intros conf'. split.
  - intros [r Hr].
    destruct (train_func_inversion _ _ _ _ _ _ _ Hr)
      as (sd & mn & dn & dv & me & gc & root
          & Hsd & Hroot & Hmn & Hdn & Hdv & Hme & Hgc & Hseed & Hlogger & _).
    exists sd, mn, dn, root.
    split; [exact Hsd|]. split; [exact Hroot|]. split; [exact Hmn|]. split; [exact Hdn|].
    split; [repeat constructor; by eexists|]. split; [exact Hseed | exact Hlogger].
  - intros (sd & mn & dn & root & Hsd & Hroot & Hmn & Hdn & Hkeys & Hseed & Hlogger).
    apply Forall_cons in Hkeys as [[dv Hdv] Hkeys].
    apply Forall_cons in Hkeys as [[me Hme] Hkeys].
    apply Forall_cons in Hkeys as [[gc Hgc] _].
    eexists.
    exact (train_func_computes cal_conf_hash float_repr seed_everything init_logger
             hyper_conf conf sd mn dn dv me gc root Hsd Hroot Hmn Hdn Hdv Hme Hgc
             Hseed Hlogger).
Qed.

(** X17. The experiment directory [train_func] attaches is the directory
    of its logger: [exp_dir] is the logger's [save_dir], [name] and
    [version] joined, where the save directory is
    [save_root/{model_name}_{dataset_name}], the name is the configuration
    hash (also stored under [conf_hash]) and the version is [seed_{seed}]. *)
Theorem train_func_exp_dir hyper_conf conf r :
  train_func cal_conf_hash float_repr seed_everything init_logger hyper_conf conf = Ok r →
  ∃ (root save_dir name version : string) (mn dn : pyval),
    hash_input r !! "save_root" = Some (VStr root) ∧
    hash_input r !! "model_name" = Some mn ∧
    hash_input r !! "dataset_name" = Some dn ∧
    save_dir = os_path_join root [str float_repr mn +:+ "_" +:+ str float_repr dn] ∧
    name = cal_conf_hash (hash_input r) 10 ∧
    version = "seed_" +:+ str float_repr (seed r) ∧
    (logger (trainer r) = WandbLogger save_dir name version ∨
     logger (trainer r) = CSVLogger save_dir name version) ∧
    conf_after r !! "conf_hash" = Some (VStr name) ∧
    conf_after r !! "exp_dir" = Some (VStr (os_path_join save_dir [name; version])).
Proof.
  intros Hr.
  destruct (train_func_inversion _ _ _ _ _ _ _ Hr)
    as (sd & mn & dn & dv & me & gc & root
        & Hsd & Hroot & Hmn & Hdn & Hdv & Hme & Hgc & Hseed & Hlogger & ->).
  cbn [hash_input seed trainer logger conf_after].
  eexists root, _, _, _, mn, dn.
  split; [done|]. split; [done|]. split; [done|]. split; [reflexivity|].
  split; [reflexivity|]. split; [reflexivity|]. split; [|split].
  - destruct (match apply_hyper_conf hyper_conf conf !! "use_wandb" with
              | Some v => truthy v
              | None => false
              end); [by left | by right].
  - by rewrite lookup_insert_ne, lookup_insert_eq.
  - by rewrite lookup_insert_eq.
Qed.

(** X18. The trainer [train_func] builds takes [devices], [max_epochs] and
    [gradient_clip_val] from the configuration with the override applied,
    [precision] and [gradient_clip_algorithm] from it too, with
    ["32-true"] and ["norm"] when they are not set, and [save_root] as its
    root directory; its logger is the Weights and Biases one exactly when
    [use_wandb] is set to a true value, and the CSV one otherwise. *)
Theorem train_func_trainer hyper_conf conf r :
  train_func cal_conf_hash float_repr seed_everything init_logger hyper_conf conf = Ok r →
  let conf' := apply_hyper_conf hyper_conf conf in
  conf' !! "devices" = Some (devices (trainer r)) ∧
  conf' !! "max_epochs" = Some (max_epochs (trainer r)) ∧
  conf' !! "gradient_clip_val" = Some (gradient_clip_val (trainer r)) ∧
  conf' !! "save_root" = Some (default_root_dir (trainer r)) ∧
  precision (trainer r) = default (VStr "32-true") (conf' !! "precision") ∧
  gradient_clip_algorithm (trainer r) = default (VStr "norm") (conf' !! "gradient_clip_algorithm") ∧
  ((∃ save_dir name version, logger (trainer r) = WandbLogger save_dir name version) ↔
   (∃ v, conf' !! "use_wandb" = Some v ∧ truthy v = true)).
Proof.
  intros Hr conf'.
  destruct (train_func_inversion _ _ _ _ _ _ _ Hr)
    as (sd & mn & dn & dv & me & gc & root
        & Hsd & Hroot & Hmn & Hdn & Hdv & Hme & Hgc & Hseed & Hlogger & ->).
  cbn [trainer devices max_epochs gradient_clip_val default_root_dir
       precision gradient_clip_algorithm logger].
  fold conf'. fold conf' in Hsd, Hroot, Hmn, Hdn, Hdv, Hme, Hgc.
  repeat (split; [done|]).
  destruct (conf' !! "use_wandb") as [v|]; [destruct (truthy v) eqn:Hv|].
  - split; [by exists v | by eexists _, _, _].
  - split; [by intros (? & ? & ? & ?) | intros (v' & [= <-] & Hv'); congruence].
  - split; [by intros (? & ? & ? & ?) | by intros (v' & ? & _)].
Qed.

End train_func_more.

Lemma load_config_keeps_experiment_witness :
  ∃ exp_module E,
    sample_load_module_from_path "exp_conf" sample_path = Ok exp_module ∧
    exp_module !! "exp_conf" = Some E ∧
    E ⊆ sample_fused_conf ∧
    is_Some (sample_fused_conf !! "dataset_name").
Proof.
  assert (load_config sample_load_module_from_path sample_import_module
            (eval_attribute "data_conf_module") sample_float_repr sample_path
          = Ok sample_fused_conf) as Hfused by by_evaluation.
  exact (load_config_keeps_experiment sample_load_module_from_path sample_import_module
           (eval_attribute "data_conf_module") sample_float_repr _ _ Hfused).
Defined.

(** A path the sample loader does not know, and an experiment file that
    does not name its dataset. *)
Lemma load_config_errors_witness :
  load_config sample_load_module_from_path sample_import_module
    (eval_attribute "data_conf_module") sample_float_repr "/config/none.py"
  = Raise (FileNotFoundError "/config/none.py") ∧
  load_config (λ _ _, Ok {[ "exp_conf" := delete "dataset_name" sample_exp_conf ]})
    sample_import_module (eval_attribute "data_conf_module") sample_float_repr sample_path
  = Raise (KeyError "dataset_name").
Proof.
  split.
  - assert (sample_load_module_from_path "exp_conf" "/config/none.py"
            = Raise (FileNotFoundError "/config/none.py")) as Hload by by_evaluation.
    exact (proj1 (load_config_errors sample_load_module_from_path sample_import_module
                    (eval_attribute "data_conf_module") sample_float_repr "/config/none.py")
             _ Hload).
  - assert (({[ "exp_conf" := delete "dataset_name" sample_exp_conf ]} : conf_module)
              !! "exp_conf" = Some (delete "dataset_name" sample_exp_conf)) as HE
      by by_evaluation.
    assert (sample_import_module "config.base_conf.task"
            = Ok {[ "task_conf" := sample_task_conf ]}) as Htask by by_evaluation.
    assert (({[ "task_conf" := sample_task_conf ]} : conf_module) !! "task_conf"
            = Some sample_task_conf) as HT by by_evaluation.
    assert (sample_import_module "config.base_conf.datasets"
            = Ok {[ "AAPL_conf" := sample_AAPL_conf ]}) as Hdata by by_evaluation.
    assert (delete "dataset_name" sample_exp_conf !! "dataset_name" = None) as Hname
      by by_evaluation.
    exact (proj2 (proj2 (load_config_errors
                           (λ _ _, Ok {[ "exp_conf" := delete "dataset_name" sample_exp_conf ]})
                           sample_import_module (eval_attribute "data_conf_module")
                           sample_float_repr sample_path))
             _ _ _ _ _ eq_refl HE Htask HT Hdata Hname).
Defined.

(** The sample configuration with the command line's record sets all the
    keys and its seed is one the sample [seed_everything] takes; without
    the record, [seed] and [save_root] are missing; with a seed that is
    not a number, [seed_everything] refuses. *)
Lemma train_func_required_keys_witness :
  (∃ r, train_func sample_cal_conf_hash sample_float_repr sample_seed_everything
          sample_init_logger (Some sample_training_conf) sample_fused_conf = Ok r) ∧
  ¬ (∃ r, train_func sample_cal_conf_hash sample_float_repr sample_seed_everything
            sample_init_logger None sample_fused_conf = Ok r) ∧
  ¬ (∃ r, train_func sample_cal_conf_hash sample_float_repr sample_seed_everything
            sample_init_logger (Some (<["seed" := VStr "abc"]> sample_training_conf))
            sample_fused_conf = Ok r).
Proof.
  split; [|split].
  - apply (proj2 (train_func_required_keys sample_cal_conf_hash sample_float_repr
                    sample_seed_everything sample_init_logger
                    (Some sample_training_conf) sample_fused_conf)).
    exists (VInt 1), (VStr "DenseRMoK"), (VStr "AAPL"), "save".
    split; [by_evaluation|]. split; [by_evaluation|]. split; [by_evaluation|].
    split; [by_evaluation|]. split; [by_evaluation|]. split; reflexivity.
  - intros Hr.
    apply (proj1 (train_func_required_keys sample_cal_conf_hash sample_float_repr
                    sample_seed_everything sample_init_logger
                    None sample_fused_conf)) in Hr as (sd & _ & _ & _ & Hsd & _).
    revert Hsd. vm_compute. discriminate.
  - intros Hr.
    apply (proj1 (train_func_required_keys sample_cal_conf_hash sample_float_repr
                    sample_seed_everything sample_init_logger
                    (Some (<["seed" := VStr "abc"]> sample_training_conf)) sample_fused_conf))
      in Hr as (sd & _ & _ & _ & Hsd & _ & _ & _ & _ & Hseed & _).
    assert (apply_hyper_conf (Some (<["seed" := VStr "abc"]> sample_training_conf))
              sample_fused_conf !! "seed" = Some (VStr "abc")) as Habc by by_evaluation.
    rewrite Habc in Hsd. injection Hsd as <-. discriminate Hseed.
Defined.

Lemma train_func_exp_dir_witness :
  ∃ r, train_func sample_cal_conf_hash sample_float_repr sample_seed_everything
         sample_init_logger (Some sample_training_conf) sample_fused_conf = Ok r ∧
  ∃ (root save_dir name version : string) (mn dn : pyval),
    hash_input r !! "save_root" = Some (VStr root) ∧
    hash_input r !! "model_name" = Some mn ∧
    hash_input r !! "dataset_name" = Some dn ∧
    save_dir = os_path_join root
                 [str sample_float_repr mn +:+ "_" +:+ str sample_float_repr dn] ∧
    name = sample_cal_conf_hash (hash_input r) 10 ∧
    version = "seed_" +:+ str sample_float_repr (seed r) ∧
    (logger (trainer r) = WandbLogger save_dir name version ∨
     logger (trainer r) = CSVLogger save_dir name version) ∧
    conf_after r !! "conf_hash" = Some (VStr name) ∧
    conf_after r !! "exp_dir" = Some (VStr (os_path_join save_dir [name; version])).
Proof.
  destruct (train_func sample_cal_conf_hash sample_float_repr sample_seed_everything
              sample_init_logger (Some sample_training_conf) sample_fused_conf)
    as [r|e] eqn:Hr.
  - exists r.
    exact (conj eq_refl
             (train_func_exp_dir sample_cal_conf_hash sample_float_repr
                sample_seed_everything sample_init_logger _ _ _ Hr)).
  - exfalso. revert Hr. vm_compute. discriminate.
Defined.

Lemma train_func_trainer_witness :
  ∃ r, train_func sample_cal_conf_hash sample_float_repr sample_seed_everything
         sample_init_logger (Some sample_training_conf) sample_fused_conf = Ok r ∧
  let conf' := apply_hyper_conf (Some sample_training_conf) sample_fused_conf in
  conf' !! "devices" = Some (devices (trainer r)) ∧
  conf' !! "max_epochs" = Some (max_epochs (trainer r)) ∧
  conf' !! "gradient_clip_val" = Some (gradient_clip_val (trainer r)) ∧
  conf' !! "save_root" = Some (default_root_dir (trainer r)) ∧
  precision (trainer r) = default (VStr "32-true") (conf' !! "precision") ∧
  gradient_clip_algorithm (trainer r)
    = default (VStr "norm") (conf' !! "gradient_clip_algorithm") ∧
  ((∃ save_dir name version, logger (trainer r) = WandbLogger save_dir name version) ↔
   (∃ v, conf' !! "use_wandb" = Some v ∧ truthy v = true)).
Proof.
  destruct (train_func sample_cal_conf_hash sample_float_repr sample_seed_everything
              sample_init_logger (Some sample_training_conf) sample_fused_conf)
    as [r|e] eqn:Hr.
  - exists r.
    exact (conj eq_refl
             (train_func_trainer sample_cal_conf_hash sample_float_repr
                sample_seed_everything sample_init_logger _ _ _ Hr)).
  - exfalso. revert Hr. vm_compute. discriminate.
Defined.

(** *** The driver *)

Lemma training_conf_lookup (args : Args.t) (symbol : string) :
  training_conf args symbol !! "seed" = Some (VInt (Args.seed args)) ∧
  training_conf args symbol !! "data_root" = Some (VStr ("/dataset/" +:+ symbol)) ∧
  training_conf args symbol !! "save_root" = Some (VStr (Args.save_root args)) ∧
  training_conf args symbol !! "devices" = Some (VStr (Args.devices args)) ∧
  training_conf args symbol !! "use_wandb" = Some (VInt (Args.use_wandb args)).
Proof.
  unfold training_conf, data_root.
  repeat split; by rewrite ?lookup_insert_ne, lookup_insert_eq by done.
Qed.

Lemma training_conf_lookup_None (args : Args.t) (symbol k : string) :
  k ∉ ["seed"; "data_root"; "save_root"; "devices"; "use_wandb"] →
  training_conf args symbol !! k = None.
Proof.
  intros Hk. unfold training_conf.
  rewrite !lookup_insert_ne; [done|..]; intros <-; apply Hk;
    rewrite !elem_of_cons; tauto.
Qed.

Section main_more.
Variable load_module_from_path : string → string → result conf_module.
Variable import_module : string → result conf_module.
Variable eval : string → conf_module → result dict.
Variable cal_conf_hash : dict → nat → string.
Variable float_repr : Qc → string.
Variable seed_everything : pyval → result unit.
Variable init_logger : run_logger → result unit.

Local Abbreviation load_config' := (load_config load_module_from_path import_module eval float_repr).
Local Abbreviation train_func' := (train_func cal_conf_hash float_repr seed_everything init_logger).
Local Abbreviation main_step' :=
  (main_step load_module_from_path import_module eval cal_conf_hash float_repr
     seed_everything init_logger).
Local Abbreviation main' :=
  (main load_module_from_path import_module eval cal_conf_hash float_repr
     seed_everything init_logger).

Lemma main_step_Ok (args : Args.t) runs symbol runs' :
  main_step' args runs symbol = Ok runs' →
  ∃ fused r, load_config' (config_file symbol) = Ok fused ∧
             train_func' (Some (training_conf args symbol)) fused = Ok r ∧
             runs' = runs ++ [r].
Proof.
  unfold main_step. intros H.
  apply bind_Ok in H as (fused & Hfused & H).
  apply bind_Ok in H as (r & Hr & H).
  injection H as <-. exists fused, r. exact (conj Hfused (conj Hr eq_refl)).
Qed.

Lemma main_loop (args : Args.t) (symbols : list string) runs runs' :
  for_each (main_step' args) runs symbols = Ok runs' →
  ∃ rs, runs' = runs ++ rs ∧
        Forall2 (λ symbol r, ∃ fused,
                   load_config' (config_file symbol) = Ok fused ∧
                   train_func' (Some (training_conf args symbol)) fused = Ok r)
                symbols rs.
Proof.
  revert runs. induction symbols as [|symbol symbols IH]; intros runs H.
  - injection H as <-. exists []. rewrite app_nil_r. split; [reflexivity | constructor].
  - cbn [for_each] in H. apply bind_Ok in H as (runs1 & Hstep & H).
    apply main_step_Ok in Hstep as (fused & r & Hfused & Hr & ->).
    apply IH in H as (rs & -> & Hrs).
    exists (r :: rs). rewrite <-app_assoc. split; [reflexivity|].
    constructor; [|exact Hrs]. exists fused. exact (conj Hfused Hr).
Qed.

(** X19. When the script runs through, it has set up one training run for
    each ticker symbol, in the order of the list, each from the
    configuration loaded from [/config/reproduce_conf/RMoK/{symbol}_30for1.py]
    with the command line's record laid over it; and that path holds the
    file the generator wrote for that symbol at the start of the script. *)
Theorem main_trains_every_symbol (args : Args.t) (w w' : world) runs :
  main' args w = Ok (w', runs) →
  Forall (λ symbol, files w' !! config_file symbol = Some (GenSpec.file_text symbol))
         ticker_symbols ∧
  Forall2 (λ symbol r, ∃ fused,
             load_config' (config_file symbol) = Ok fused ∧
             train_func' (Some (training_conf args symbol)) fused = Ok r)
          ticker_symbols runs.
Proof.
  unfold main. rewrite generate_config_files_planned, bind_Ok_l. intros H.
  apply bind_Ok in H as (rs & Hloop & H). injection H as <- <-.
  apply main_loop in Hloop as (rs' & -> & Hrs). split; [|exact Hrs].
  eapply Forall_impl; [exact planned_files_lookup|].
  intros symbol Hsymbol. rewrite files_generated.
  by apply lookup_union_Some_l.
Qed.

(** X20. Whatever the configuration file of a symbol and the default
    modules say, its run is set up with the command line's seed, save
    root, devices and logger choice, and with [/dataset/{symbol}] as its
    data root; every other key is the configuration file's. *)
Theorem main_step_command_line (args : Args.t) runs symbol runs' :
  main_step' args runs symbol = Ok runs' →
  ∃ fused r,
    load_config' (config_file symbol) = Ok fused ∧ runs' = runs ++ [r] ∧
    seed r = VInt (Args.seed args) ∧
    hash_input r !! "data_root" = Some (VStr ("/dataset/" +:+ symbol)) ∧
    default_root_dir (trainer r) = VStr (Args.save_root args) ∧
    devices (trainer r) = VStr (Args.devices args) ∧
    ((∃ save_dir name version, logger (trainer r) = WandbLogger save_dir name version) ↔
     Args.use_wandb args ≠ 0%Z) ∧
    (∀ k, k ∉ ["seed"; "data_root"; "save_root"; "devices"; "use_wandb"] →
          hash_input r !! k = fused !! k).
Proof.
  intros H. apply main_step_Ok in H as (fused & r & Hfused & Hr & ->).
  exists fused, r. split; [exact Hfused|]. split; [reflexivity|]. clear Hfused.
  destruct (training_conf_lookup args symbol) as (Hs & Hd & Hsr & Hdv & Hw).
  assert (∀ k, apply_hyper_conf (Some (training_conf args symbol)) fused !! k =
               match training_conf args symbol !! k with
               | Some v => Some v
               | None => fused !! k
               end) as Hlookup by (intros k; apply apply_hyper_conf_lookup).
  destruct (train_func_inversion _ _ _ _ _ _ _ Hr)
    as (sd & mn & dn & dv & me & gc & root
        & Hsd & Hroot & Hmn & Hdn & Hdv' & Hme & Hgc & _ & _ & Hr').
  clear Hr.
  set (conf' := apply_hyper_conf (Some (training_conf args symbol)) fused) in *.
  clearbody conf'. subst r.
  cbn [seed hash_input trainer default_root_dir devices logger].
  rewrite Hlookup in Hsd, Hroot, Hdv'.
  rewrite Hs in Hsd. rewrite Hsr in Hroot. rewrite Hdv in Hdv'.
  injection Hsd as <-. injection Hroot as <-. injection Hdv' as <-.
  rewrite !Hlookup, Hd, Hw. cbn [truthy].
  split; [done|]. split; [done|]. split; [done|]. split; [done|]. split.
  - destruct (decide (Args.use_wandb args = 0%Z)) as [Hz|Hz].
    + rewrite bool_decide_eq_false_2 by tauto.
      split; [by intros (? & ? & ? & ?) | done].
    + rewrite bool_decide_eq_true_2 by done.
      split; [done | by eexists _, _, _].
  - intros k Hk. by rewrite Hlookup, training_conf_lookup_None.
Qed.

(** X21. The options [-c]/[--config] and [-d]/[--data_root] have no
    effect: two command lines that agree on the save root, the devices,
    [--use_wandb] and the seed make the script do the same. *)
Theorem main_ignores_config_and_data_root (args args' : Args.t) (w : world) :
  Args.save_root args = Args.save_root args' →
  Args.devices args = Args.devices args' →
  Args.use_wandb args = Args.use_wandb args' →
  Args.seed args = Args.seed args' →
  main' args w = main' args' w.
Proof.
  intros Hsr Hdv Hw Hs. unfold main.
  assert (∀ symbol, training_conf args symbol = training_conf args' symbol) as Hconf.
  { intros symbol. unfold training_conf. by rewrite Hsr, Hdv, Hw, Hs. }
  rewrite (for_each_ext (main_step' args) (main_step' args') ticker_symbols []);
    [reflexivity|].
  intros runs symbol _. unfold main_step. by rewrite Hconf.
Qed.

(** X22. Once the configuration file of a symbol has loaded, which it
    cannot without a [dataset_name], the set-up of its run goes through
    exactly when the loaded configuration has [model_name], [max_epochs]
    and [gradient_clip_val], [seed_everything] accepts the command line's
    seed and the constructor of the logger chosen by [--use_wandb] goes
    through: every other key [train_func] reads comes from the command
    line. *)
Theorem main_step_succeeds (args : Args.t) runs symbol fused :
  load_config' (config_file symbol) = Ok fused →
  ∃ dn, fused !! "dataset_name" = Some dn ∧
  ((∃ runs', main_step' args runs symbol = Ok runs') ↔
   ∃ mn, fused !! "model_name" = Some mn ∧
     is_Some (fused !! "max_epochs") ∧ is_Some (fused !! "gradient_clip_val") ∧
     seed_everything (VInt (Args.seed args)) = Ok () ∧
     let conf' := apply_hyper_conf (Some (training_conf args symbol)) fused in
     let save_dir :=
       os_path_join (Args.save_root args)
         [str float_repr mn +:+ "_" +:+ str float_repr dn] in
     let version := "seed_" +:+ pretty (Args.seed args) in
     init_logger (if bool_decide (Args.use_wandb args ≠ 0%Z)
                  then WandbLogger save_dir (cal_conf_hash conf' 10) version
                  else CSVLogger save_dir (cal_conf_hash conf' 10) version) = Ok ()).
Proof.
  intros Hfused.
  assert (is_Some (fused !! "dataset_name")) as [dn Hdn].
  { revert Hfused. unfold load_config. intros H.
    apply bind_Ok in H as (exp_module & _ & H).
    apply bind_Ok in H as (E & _ & H).
    apply bind_Ok in H as (task_module & _ & H).
    apply bind_Ok in H as (T & _ & H).
    apply bind_Ok in H as (data_module & _ & H).
    apply bind_Ok in H as (name & Hname%getitem_Ok & H).
    apply bind_Ok in H as (text & _ & H).
    apply bind_Ok in H as (D & _ & H).
    injection H as <-. exists name. unfold update, unpack_both.
    by apply lookup_union_Some_l. }
  exists dn. split; [exact Hdn|].
  destruct (training_conf_lookup args symbol) as (Hs & Hd & Hsr & Hdv & Hw).
  assert (∀ k, apply_hyper_conf (Some (training_conf args symbol)) fused !! k =
               match training_conf args symbol !! k with
               | Some v => Some v
               | None => fused !! k
               end) as Hlookup by (intros k; apply apply_hyper_conf_lookup).
  assert (∀ k, k ∈ ["model_name"; "dataset_name"; "max_epochs"; "gradient_clip_val"] →
               apply_hyper_conf (Some (training_conf args symbol)) fused !! k = fused !! k)
    as Hother.
  { intros k Hk. rewrite Hlookup, training_conf_lookup_None; [done|].
    revert Hk. rewrite !elem_of_cons, !elem_of_nil. intros Hk1 Hk2.
    destruct Hk1 as [->|[->|[->|[->|[]]]]];
      destruct Hk2 as [?|[?|[?|[?|[?|[]]]]]]; discriminate. }
  pose proof (Hother "model_name") as Hlmn.
  pose proof (Hother "dataset_name") as Hldn.
  pose proof (Hother "max_epochs") as Hlme.
  pose proof (Hother "gradient_clip_val") as Hlgc.
  rewrite !elem_of_cons in Hlmn, Hldn, Hlme, Hlgc.
  specialize (Hlmn ltac:(tauto)). specialize (Hldn ltac:(tauto)).
  specialize (Hlme ltac:(tauto)). specialize (Hlgc ltac:(tauto)).
  pose proof (Hlookup "seed") as Hlsd. rewrite Hs in Hlsd.
  pose proof (Hlookup "save_root") as Hlsr. rewrite Hsr in Hlsr.
  pose proof (Hlookup "devices") as Hldv. rewrite Hdv in Hldv.
  pose proof (Hlookup "use_wandb") as Hlw. rewrite Hw in Hlw.
  clear Hother Hlookup Hs Hd Hsr Hdv Hw.
  cbv zeta.
  set (conf' := apply_hyper_conf (Some (training_conf args symbol)) fused) in *.
  split.
  - intros [runs' H]. apply main_step_Ok in H as (fused' & r & Hfused' & Hr & _).
    rewrite Hfused in Hfused'. injection Hfused' as <-. clear Hfused.
    destruct (train_func_inversion _ _ _ _ _ _ _ Hr)
      as (sd & mn & dn' & dv & me & gc & root
          & Hsd & Hroot & Hmn & Hdn' & _ & Hme & Hgc & Hseed & Hlogger & _).
    clear Hr. fold conf' in Hsd, Hroot, Hmn, Hdn', Hme, Hgc, Hlogger.
    rewrite Hlsd in Hsd. injection Hsd as <-.
    rewrite Hlsr in Hroot. injection Hroot as <-.
    rewrite Hldn, Hdn in Hdn'. injection Hdn' as <-.
    rewrite Hlmn in Hmn. rewrite Hlme in Hme. rewrite Hlgc in Hgc.
    rewrite Hlw in Hlogger. cbn [truthy str] in Hlogger.
    exists mn. split; [exact Hmn|]. split; [by exists me|]. split; [by exists gc|].
    split; [exact Hseed | exact Hlogger].
  - intros (mn & Hmn & [me Hme] & [gc Hgc] & Hseed & Hlogger).
    unfold main_step. rewrite Hfused, bind_Ok_l. clear Hfused.
    rewrite (train_func_computes cal_conf_hash float_repr seed_everything init_logger
               (Some (training_conf args symbol)) fused
               (VInt (Args.seed args)) mn dn (VStr (Args.devices args)) me gc
               (Args.save_root args)); fold conf'.
    + by eexists.
    + exact Hlsd.
    + exact Hlsr.
    + by rewrite Hlmn.
    + by rewrite Hldn.
    + exact Hldv.
    + by rewrite Hlme.
    + by rewrite Hlgc.
    + exact Hseed.
    + rewrite Hlw. cbn [truthy str]. exact Hlogger.
Qed.

End main_more.

Lemma main_trains_every_symbol_witness :
  ∃ w' runs,
    main sample_symbol_loader sample_symbol_import_module (eval_attribute "data_conf_module")
      sample_cal_conf_hash sample_float_repr sample_seed_everything sample_init_logger
      sample_args empty_world = Ok (w', runs) ∧
    Forall (λ symbol, files w' !! config_file symbol = Some (GenSpec.file_text symbol))
           ticker_symbols ∧
    Forall2 (λ symbol r, ∃ fused,
               load_config sample_symbol_loader sample_symbol_import_module
                 (eval_attribute "data_conf_module") sample_float_repr (config_file symbol)
               = Ok fused ∧
               train_func sample_cal_conf_hash sample_float_repr sample_seed_everything
                 sample_init_logger (Some (training_conf sample_args symbol)) fused = Ok r)
            ticker_symbols runs.
Proof.
  assert (is_Ok (main sample_symbol_loader sample_symbol_import_module
                   (eval_attribute "data_conf_module") sample_cal_conf_hash
                   sample_float_repr sample_seed_everything sample_init_logger
                   sample_args empty_world) = true) as Hok
    by (vm_compute; reflexivity).
  destruct (main sample_symbol_loader sample_symbol_import_module
              (eval_attribute "data_conf_module") sample_cal_conf_hash sample_float_repr
              sample_seed_everything sample_init_logger sample_args empty_world)
    as [[w' runs]|e] eqn:Hmain.
  - exists w', runs.
    exact (conj eq_refl
             (main_trains_every_symbol sample_symbol_loader sample_symbol_import_module
                (eval_attribute "data_conf_module") sample_cal_conf_hash sample_float_repr
                sample_seed_everything sample_init_logger _ _ _ _ Hmain)).
  - discriminate Hok.
Defined.

Lemma main_step_command_line_witness :
  ∃ runs' fused r,
    main_step sample_symbol_loader sample_symbol_import_module
      (eval_attribute "data_conf_module") sample_cal_conf_hash sample_float_repr
      sample_seed_everything sample_init_logger sample_args [] "AAPL" = Ok runs' ∧
    load_config sample_symbol_loader sample_symbol_import_module
      (eval_attribute "data_conf_module") sample_float_repr (config_file "AAPL") = Ok fused ∧
    runs' = [] ++ [r] ∧
    seed r = VInt 7 ∧
    hash_input r !! "data_root" = Some (VStr ("/dataset/" +:+ "AAPL")) ∧
    default_root_dir (trainer r) = VStr "save" ∧
    devices (trainer r) = VStr "0," ∧
    ((∃ save_dir name version, logger (trainer r) = WandbLogger save_dir name version) ↔
     0%Z ≠ 0%Z) ∧
    (∀ k, k ∉ ["seed"; "data_root"; "save_root"; "devices"; "use_wandb"] →
          hash_input r !! k = fused !! k).
Proof.
  assert (is_Ok (main_step sample_symbol_loader sample_symbol_import_module
                   (eval_attribute "data_conf_module") sample_cal_conf_hash
                   sample_float_repr sample_seed_everything sample_init_logger
                   sample_args [] "AAPL") = true) as Hok
    by (vm_compute; reflexivity).
  destruct (main_step sample_symbol_loader sample_symbol_import_module
              (eval_attribute "data_conf_module") sample_cal_conf_hash sample_float_repr
              sample_seed_everything sample_init_logger sample_args [] "AAPL")
    as [runs'|e] eqn:Hstep.
  - destruct (main_step_command_line sample_symbol_loader sample_symbol_import_module
                (eval_attribute "data_conf_module") sample_cal_conf_hash sample_float_repr
                sample_seed_everything sample_init_logger _ _ _ _ Hstep)
      as (fused & r & H).
    exists runs', fused, r. exact (conj eq_refl H).
  - discriminate Hok.
Defined.

Lemma main_ignores_config_and_data_root_witness :
  main sample_symbol_loader sample_symbol_import_module (eval_attribute "data_conf_module")
    sample_cal_conf_hash sample_float_repr sample_seed_everything sample_init_logger
    sample_args empty_world
  = main sample_symbol_loader sample_symbol_import_module (eval_attribute "data_conf_module")
      sample_cal_conf_hash sample_float_repr sample_seed_everything sample_init_logger
      {| Args.config := None; Args.data_root := "dataset"; Args.save_root := "save";
         Args.devices := "0,"; Args.use_wandb := 0; Args.seed := 7 |} empty_world.
Proof.
  exact (main_ignores_config_and_data_root sample_symbol_loader sample_symbol_import_module
           (eval_attribute "data_conf_module") sample_cal_conf_hash sample_float_repr
           sample_seed_everything sample_init_logger
           sample_args
           {| Args.config := None; Args.data_root := "dataset"; Args.save_root := "save";
              Args.devices := "0,"; Args.use_wandb := 0; Args.seed := 7 |}
           empty_world eq_refl eq_refl eq_refl eq_refl).
Defined.

(** The run of AAPL on the sample installation goes through; with a seed
    the sample [seed_everything] refuses, 2^32, it does not. *)
Lemma main_step_succeeds_witness :
  (∃ runs', main_step sample_symbol_loader sample_symbol_import_module
              (eval_attribute "data_conf_module") sample_cal_conf_hash sample_float_repr
              sample_seed_everything sample_init_logger sample_args [] "AAPL" = Ok runs') ∧
  ¬ (∃ runs', main_step sample_symbol_loader sample_symbol_import_module
                (eval_attribute "data_conf_module") sample_cal_conf_hash sample_float_repr
                sample_seed_everything sample_init_logger
                {| Args.config := None; Args.data_root := "dataset";
                   Args.save_root := "save"; Args.devices := "0,"; Args.use_wandb := 0;
                   Args.seed := 2 ^ 32 |} [] "AAPL" = Ok runs').
Proof.
  pose (fused := sample_symbol_exp_conf "AAPL"
                   ∪ (({[ "var_num" := VInt 5 ]} : dict) ∪ sample_symbol_task_conf)).
  assert (load_config sample_symbol_loader sample_symbol_import_module
            (eval_attribute "data_conf_module") sample_float_repr (config_file "AAPL")
          = Ok fused) as Hfused by by_evaluation.
  split.
  - destruct (main_step_succeeds sample_symbol_loader sample_symbol_import_module
                (eval_attribute "data_conf_module") sample_cal_conf_hash
                sample_float_repr sample_seed_everything sample_init_logger
                sample_args [] "AAPL" fused Hfused) as (dn & Hdn & Hiff).
    apply (proj2 Hiff). exists (VStr "DenseRMoK").
    split; [by_evaluation|]. split; [by_evaluation|]. split; [by_evaluation|].
    split; reflexivity.
  - destruct (main_step_succeeds sample_symbol_loader sample_symbol_import_module
                (eval_attribute "data_conf_module") sample_cal_conf_hash
                sample_float_repr sample_seed_everything sample_init_logger
                {| Args.config := None; Args.data_root := "dataset";
                   Args.save_root := "save"; Args.devices := "0,"; Args.use_wandb := 0;
                   Args.seed := 2 ^ 32 |} [] "AAPL" fused Hfused) as (dn & Hdn & Hiff).
    intros Hruns. apply (proj1 Hiff) in Hruns as (mn & _ & _ & _ & Hseed & _).
    revert Hseed. vm_compute. discriminate.
Defined.

(** *** The training-loss callback *)

Lemma pretty_Z_of_nat (n : nat) : pretty (Z.of_nat n) = pretty n.
Proof. by destruct n. Qed.

Lemma omap_lookup_Some {A B} (f : A → option B) (l : list A) :
  (∀ i x, l !! i = Some x → is_Some (f x)) →
  length (omap f l) = length l ∧
  ∀ i x, l !! i = Some x → omap f l !! i = f x.
Proof.
  induction l as [|y l IH]; intros Hl; [done|].
  destruct (Hl 0%nat y eq_refl) as [b Hb].
  destruct IH as [IHlen IHlookup]; [intros i x Hi; by apply (Hl (S i))|].
  cbn [omap list_omap]. rewrite Hb. split; [by cbn; rewrite IHlen|].
  intros [|i] x Hi; [by injection Hi as <-|]. by apply IHlookup.
Qed.

Section callback_more.
Variable format_4f : Qc → string.

Lemma summary_fold (losses : list Qc) (start : nat) (out : list string) :
  foldl (λ out '(epoch, loss),
           out ++ ["Epoch " +:+ pretty epoch +:+ ": " +:+ format_4f loss])
        out (zip (seq start (length losses)) losses)
  = out ++ imap (λ i loss, "Epoch " +:+ pretty (start + i)%nat +:+ ": " +:+ format_4f loss)
             losses.
Proof.
  revert start out. induction losses as [|loss losses IH]; intros start out.
  - by rewrite app_nil_r.
  - cbn [length seq zip zip_with foldl imap]. rewrite IH, <-app_assoc. cbn [app].
    rewrite Nat.add_0_r. do 2 f_equal.
    apply imap_ext. intros i x _. cbn. by rewrite Nat.add_succ_r.
Qed.

Lemma on_train_end_lines (self : TrainLossLoggerCallback) :
  printed (on_train_end format_4f self)
  = printed self ++ (nl +:+ "Training Loss per Epoch:")
                    :: imap (summary_line format_4f) (train_losses self).
Proof.
  unfold on_train_end, enumerate. cbn [printed].
  by rewrite summary_fold, <-app_assoc.
Qed.

Lemma run_epochs_snoc (self : TrainLossLoggerCallback) epochs callback_metrics current_epoch :
  run_epochs format_4f self (epochs ++ [(callback_metrics, current_epoch)])
  = on_train_epoch_end format_4f (run_epochs format_4f self epochs)
      callback_metrics current_epoch.
Proof. unfold run_epochs. by rewrite foldl_app. Qed.

(** What the epochs add to the list and to the output. *)
Lemma run_epochs_lists (self : TrainLossLoggerCallback)
    (epochs : list (gmap string Qc * Z)) :
  train_losses (run_epochs format_4f self epochs)
  = train_losses self ++ omap (λ e, e.1 !! "train/loss") epochs ∧
  printed (run_epochs format_4f self epochs)
  = printed self ++ omap (λ e, epoch_line format_4f e.2 <$> e.1 !! "train/loss") epochs.
Proof.
  induction epochs as [|[callback_metrics current_epoch] epochs IH] using rev_ind.
  - by rewrite !app_nil_r.
  - destruct IH as [IHl IHp].
    rewrite run_epochs_snoc, !omap_app. unfold on_train_epoch_end. cbn [omap list_omap fst snd].
    destruct (callback_metrics !! "train/loss") as [avg_loss|]; cbn [fmap option_fmap option_map].
    + cbn [train_losses printed]. by rewrite IHl, IHp, <-!app_assoc.
    + by rewrite !app_nil_r.
Qed.

(** X23. Over any training, the callback's list holds the [train/loss]
    value of every epoch that reported one, in the order of the epochs, an
    epoch without that metric adding nothing; and one line is printed for
    each value kept, numbered by the trainer's epoch plus one. *)
Theorem run_epochs_collects (self : TrainLossLoggerCallback)
    (epochs : list (gmap string Qc * Z)) :
  train_losses (run_epochs format_4f self epochs)
  = train_losses self ++ omap (λ e, e.1 !! "train/loss") epochs ∧
  printed (run_epochs format_4f self epochs)
  = printed self ++ omap (λ e, epoch_line format_4f e.2 <$> e.1 !! "train/loss") epochs ∧
  (length (train_losses (run_epochs format_4f self epochs))
   ≤ length (train_losses self) + length epochs)%nat ∧
  (length (printed (run_epochs format_4f self epochs)) + length (train_losses self)
   = length (printed self) + length (train_losses (run_epochs format_4f self epochs)))%nat.
Proof.
  destruct (run_epochs_lists self epochs) as [Hl Hp].
  split; [exact Hl|]. split; [exact Hp|]. rewrite Hl, Hp, !length_app.
  assert (∀ l : list (gmap string Qc * Z),
            length (omap (λ e, epoch_line format_4f e.2 <$> e.1 !! "train/loss") l)
            = length (omap (λ e, e.1 !! "train/loss") l) ∧
            (length (omap (λ e, e.1 !! "train/loss") l) ≤ length l)%nat) as Hcount.
  { induction l as [|[m n] l [IH1 IH2]]; [done|]. cbn [omap list_omap fst snd].
    destruct (m !! "train/loss"); cbn [fmap option_fmap option_map length]; lia. }
  destruct (Hcount epochs). lia.
Qed.

(** X24. When the epochs are numbered from 0 and each reports a
    [train/loss], the output of a whole training is one line per epoch,
    the heading, and one summary line per epoch; the summary line of an
    epoch carries the same number and the same loss as the line printed
    at the end of that epoch. *)
Theorem training_summary_lines (epochs : list (gmap string Qc * Z)) :
  (∀ i e, epochs !! i = Some e → e.2 = Z.of_nat i ∧ is_Some (e.1 !! "train/loss")) →
  let self := on_train_end format_4f (run_epochs format_4f new_callback epochs) in
  length (train_losses self) = length epochs ∧
  length (printed self) = (2 * length epochs + 1)%nat ∧
  printed self !! length epochs = Some (nl +:+ "Training Loss per Epoch:") ∧
  ∀ i e, epochs !! i = Some e →
    ∃ loss, e.1 !! "train/loss" = Some loss ∧
      train_losses self !! i = Some loss ∧
      printed self !! i
        = Some ("Epoch " +:+ pretty (S i) +:+ ": Average Train Loss = " +:+ format_4f loss) ∧
      printed self !! (length epochs + 1 + i)%nat
        = Some ("Epoch " +:+ pretty (S i) +:+ ": " +:+ format_4f loss).
Proof.
  intros Hepochs self.
  destruct (run_epochs_lists new_callback epochs) as [Hl Hp].
  cbn [new_callback train_losses printed app] in Hl, Hp.
  destruct (omap_lookup_Some (λ e : gmap string Qc * Z, e.1 !! "train/loss") epochs)
    as [Hlen Hlookup]; [intros i e Hi; by apply (Hepochs i)|].
  destruct (omap_lookup_Some
              (λ e : gmap string Qc * Z, epoch_line format_4f e.2 <$> e.1 !! "train/loss")
              epochs) as [Hlen' Hlookup'].
  { intros i e Hi. destruct (Hepochs i e Hi) as [_ [loss ->]]. by eexists. }
  assert (train_losses self = omap (λ e, e.1 !! "train/loss") epochs) as Hlosses.
  { unfold self, on_train_end. by cbn [train_losses]. }
  assert (printed self
          = omap (λ e, epoch_line format_4f e.2 <$> e.1 !! "train/loss") epochs
            ++ (nl +:+ "Training Loss per Epoch:")
               :: imap (summary_line format_4f)
                    (omap (λ e, e.1 !! "train/loss") epochs)) as Hprinted.
  { unfold self. by rewrite on_train_end_lines, Hl, Hp. }
  rewrite Hlosses, Hprinted. clear self Hl Hp Hlosses Hprinted.
  split; [done|]. split; [|split].
  - rewrite length_app, Hlen'. cbn [length]. rewrite length_imap, Hlen. lia.
  - rewrite lookup_app_r by lia. by rewrite Hlen', Nat.sub_diag.
  - intros i e Hi. destruct (Hepochs i e Hi) as [Hnum [loss Hloss]].
    exists loss. split; [done|]. split; [by rewrite (Hlookup i e Hi)|].
    assert (i < length epochs)%nat by (by eapply lookup_lt_Some).
    split.
    + rewrite lookup_app_l by lia. rewrite (Hlookup' i e Hi), Hloss, Hnum.
      cbn [fmap option_fmap option_map]. unfold epoch_line.
      replace (Z.of_nat i + 1)%Z with (Z.of_nat (S i)) by lia.
      by rewrite pretty_Z_of_nat.
    + rewrite lookup_app_r by lia. rewrite Hlen'.
      replace (length epochs + 1 + i - length epochs)%nat with (S i) by lia.
      rewrite lookup_cons. cbv beta iota.
      rewrite list_lookup_imap, (Hlookup i e Hi), Hloss.
      done.
Qed.

End callback_more.

Lemma training_summary_lines_witness :
  let self := on_train_end sample_float_repr
                (run_epochs sample_float_repr new_callback sample_epochs) in
  length (train_losses self) = length sample_epochs ∧
  length (printed self) = (2 * length sample_epochs + 1)%nat ∧
  printed self !! length sample_epochs = Some (nl +:+ "Training Loss per Epoch:") ∧
  ∀ i e, sample_epochs !! i = Some e →
    ∃ loss, e.1 !! "train/loss" = Some loss ∧
      train_losses self !! i = Some loss ∧
      printed self !! i
        = Some ("Epoch " +:+ pretty (S i) +:+ ": Average Train Loss = "
                +:+ sample_float_repr loss) ∧
      printed self !! (length sample_epochs + 1 + i)%nat
        = Some ("Epoch " +:+ pretty (S i) +:+ ": " +:+ sample_float_repr loss).
Proof.
  assert (∀ i e, sample_epochs !! i = Some e →
                 e.2 = Z.of_nat i ∧ is_Some (e.1 !! "train/loss")) as Hepochs.
  { intros [|[|i]] e [= <-]; (split; [reflexivity|]); by_evaluation. }
  exact (training_summary_lines sample_float_repr sample_epochs Hepochs).
Defined.

(** *** More on the generator *)

Lemma stdout_planned (symbols : list string) (w : world) :
  stdout (foldl GenSpec.planned_step w symbols)
  = stdout w ++ ((λ symbol, "Created configuration file: " +:+ GenSpec.file_name symbol) <$> symbols).
Proof.
  revert w. induction symbols as [|s symbols IH]; intros w.
  - by rewrite app_nil_r.
  - cbn [foldl fmap list_fmap]. rewrite IH. unfold GenSpec.planned_step, print, write_file.
    cbn [stdout]. by rewrite <-app_assoc.
Qed.

(** X25. Whenever the generator goes through, it has reported each file
    on a line of its own, [Created configuration file: {path}], in the
    order of the ticker symbols and after whatever was printed before:
    twenty lines, one for each file written. *)
Theorem generate_config_files_reports (w w' : world) :
  generate_config_files w = Ok w' →
  stdout w' = stdout w ++ ((λ symbol, "Created configuration file: "
                                      +:+ output_dir +:+ "/" +:+ symbol +:+ "_30for1.py")
                           <$> ticker_symbols) ∧
  length (stdout w') = (length (stdout w) + 20)%nat ∧
  ∀ i symbol, ticker_symbols !! i = Some symbol →
    ∃ path, stdout w' !! (length (stdout w) + i)%nat
            = Some ("Created configuration file: " +:+ path) ∧
            is_Some (files w' !! path).
Proof.
  rewrite generate_config_files_planned. intros [= <-].
  assert (stdout (GenSpec.generated w)
          = stdout w ++ ((λ symbol, "Created configuration file: "
                                    +:+ output_dir +:+ "/" +:+ symbol +:+ "_30for1.py")
                         <$> ticker_symbols)) as Hout.
  { unfold GenSpec.generated. rewrite stdout_planned. unfold makedirs. cbn [stdout].
    reflexivity. }
  split; [exact Hout|]. split.
  - rewrite Hout, length_app, length_fmap. reflexivity.
  - intros i symbol Hi. exists (GenSpec.file_name symbol). split.
    + rewrite Hout, lookup_app_r by lia.
      replace (length (stdout w) + i - length (stdout w))%nat with i by lia.
      rewrite list_lookup_fmap, Hi. reflexivity.
    + rewrite files_generated.
      pose proof (proj1 (Forall_lookup _ _) planned_files_lookup i symbol Hi) as Hfile.
      cbv beta in Hfile. exists (GenSpec.file_text symbol).
      by apply lookup_union_Some_l.
Qed.

Lemma generate_config_files_reports_witness :
  ∃ w', generate_config_files empty_world = Ok w' ∧
        stdout w' = stdout empty_world
                    ++ ((λ symbol, "Created configuration file: "
                                   +:+ output_dir +:+ "/" +:+ symbol +:+ "_30for1.py")
                        <$> ticker_symbols) ∧
        length (stdout w') = (length (stdout empty_world) + 20)%nat ∧
        ∀ i symbol, ticker_symbols !! i = Some symbol →
          ∃ path, stdout w' !! (length (stdout empty_world) + i)%nat
                  = Some ("Created configuration file: " +:+ path) ∧
                  is_Some (files w' !! path).
Proof.
  exists (GenSpec.generated empty_world).
  exact (conj (generate_config_files_planned empty_world)
           (generate_config_files_reports empty_world (GenSpec.generated empty_world)
              (generate_config_files_planned empty_world))).
Defined.
